(** * CloudFormation to Terraform migrator: conversion engine and import executor

    A shallow embedding of [conversion.py] (ResourceMapper,
    IntrinsicFunctionHandler, ConversionEngine) and of [imports.py]
    (ImportManager: the executor and the generation of import commands),
    followed by the properties established about them.

    Conventions of the embedding.
    - Template data (what [json.load] / [yaml.safe_load] produce) is the
      type [value]: [None], booleans, integers, strings, lists and
      dictionaries; a Python [dict] is an insertion-ordered association
      list with string keys.
    - A template is the record [Template] of its five sections, each a
      dictionary, an absent section being the empty one
      ([template.get(name, {})]); what the sections hold is arbitrary
      [value] data, checked where the code checks it.
    - A Python exception is a value of [exn], with the message CPython
      gives it; code that may raise lives in the monad [M], which also
      carries the records sent to [logger].
    - The import executor acts on a [World]: working directory, files,
      the outcome of each [terraform] run, the trace of the commands run.
      The worker threads of a parallel run share it: their calls advance
      step by step, interleaved as a [Scheduling] says.
    - Strings are byte strings; [str.lower], [len], [repr] and iteration
      are the ASCII ones (they agree with Python on ASCII text). *)

From Stdlib Require Import String Ascii List ZArith Bool Lia Arith.
From Stdlib Require Import DecimalString Permutation.
Import ListNotations.
Open Scope string_scope.

Set Implicit Arguments.

(* ================================================================== *)
(** ** Python strings *)
(* ================================================================== *)

Module PyStr.

(** The double-quote character, as a one-character string. *)
Definition dquote : string := String (ascii_of_nat 34) EmptyString.
(** The single-quote character, as a one-character string. *)
Definition squote : string := "'".

Definition is_upper (c : ascii) : bool :=
  let n := nat_of_ascii c in ((65 <=? n) && (n <=? 90))%nat.

Definition is_lower (c : ascii) : bool :=
  let n := nat_of_ascii c in ((97 <=? n) && (n <=? 122))%nat.

Definition is_digit (c : ascii) : bool :=
  let n := nat_of_ascii c in ((48 <=? n) && (n <=? 57))%nat.

Definition lower_char (c : ascii) : ascii :=
  if is_upper c then ascii_of_nat (nat_of_ascii c + 32) else c.

(** [s.lower()] *)
Fixpoint lower (s : string) : string :=
  match s with
  | EmptyString => EmptyString
  | String c s' => String (lower_char c) (lower s')
  end.

(** [s.startswith(p)] *)
Definition startswith (s p : string) : bool := String.prefix p s.

(** [sub in s] for two strings. *)
Fixpoint contains (sub s : string) : bool :=
  String.prefix sub s ||
  match s with
  | EmptyString => false
  | String _ s' => contains sub s'
  end.

(** [sep.join(parts)] *)
Definition join (sep : string) (parts : list string) : string :=
  String.concat sep parts.

(** [list(s)]: the one-character strings of [s]. *)
Fixpoint chars (s : string) : list string :=
  match s with
  | EmptyString => []
  | String c s' => String c EmptyString :: chars s'
  end.

(** [str(n)] for an [int]. *)
Definition of_Z (n : Z) : string := NilZero.string_of_int (Z.to_int n).

Definition hex_digit (n : nat) : string :=
  String (ascii_of_nat (if (n <? 10)%nat then 48 + n else 87 + n)) EmptyString.

(** [repr(s)] chooses the quote: double quotes only when [s] holds a
    single quote and no double quote. *)
Definition repr_quote (s : string) : string :=
  if contains squote s && negb (contains dquote s) then dquote else squote.

Definition repr_char (q : string) (c : ascii) : string :=
  let n := nat_of_ascii c in
  if (n =? 92)%nat then "\\"
  else if String.eqb (String c EmptyString) q then "\" ++ q
  else if (n =? 10)%nat then "\n"
  else if (n =? 13)%nat then "\r"
  else if (n =? 9)%nat then "\t"
  else if ((n <? 32) || (n =? 127))%nat
       then "\x" ++ hex_digit (n / 16) ++ hex_digit (n mod 16)
  else String c EmptyString.

Fixpoint repr_body (q : string) (s : string) : string :=
  match s with
  | EmptyString => EmptyString
  | String c s' => repr_char q c ++ repr_body q s'
  end.

(** [repr(s)] for a [str]. *)
Definition repr (s : string) : string :=
  let q := repr_quote s in q ++ repr_body q s ++ q.

End PyStr.

(* ================================================================== *)
(** ** Template data, Python dictionaries and exceptions *)
(* ================================================================== *)

(** The data a parsed template is made of. *)
#[warnings="-register-all"] Inductive value : Type :=
| VNone
| VBool (b : bool)
| VInt (n : Z)
| VStr (s : string)
| VList (items : list value)
| VDict (entries : list (string * value)).

(** A [dict] with string keys, in insertion order. *)
Definition dict : Type := list (string * value).

Module PyDict.
Section Generic.
Variable A : Type.

(** [d.get(k)] *)
Fixpoint get (k : string) (d : list (string * A)) : option A :=
  match d with
  | [] => None
  | (k', v) :: d' => if String.eqb k k' then Some v else get k d'
  end.

(** [k in d] *)
Definition mem (k : string) (d : list (string * A)) : bool :=
  match get k d with Some _ => true | None => false end.

(** [d[k] = v]: an existing key keeps its position. *)
Fixpoint set (k : string) (v : A) (d : list (string * A)) : list (string * A) :=
  match d with
  | [] => [(k, v)]
  | (k', v') :: d' =>
      if String.eqb k k' then (k', v) :: d' else (k', v') :: set k v d'
  end.

(** [del d[k]], the dictionary half of [d.pop(k)]. *)
Fixpoint remove (k : string) (d : list (string * A)) : list (string * A) :=
  match d with
  | [] => []
  | (k', v') :: d' =>
      if String.eqb k k' then d' else (k', v') :: remove k d'
  end.

(** [d.update(other)] *)
Definition update (d other : list (string * A)) : list (string * A) :=
  fold_left (fun acc kv => set (fst kv) (snd kv) acc) other d.

Definition keys (d : list (string * A)) : list string := map fst d.
End Generic.
End PyDict.

(** The exceptions the modelled code can raise, each with its message. *)
Inductive exn : Type :=
| AttributeError (msg : string)
| TypeError (msg : string)
| KeyError (key : string)
| FileNotFoundError (msg : string)
| OSError (msg : string)
| UnboundLocalError (msg : string)
| ValueError (msg : string)
| ExceptionMsg (msg : string).

(** [str(e)] *)
Definition exn_str (e : exn) : string :=
  match e with
  | AttributeError m | TypeError m | FileNotFoundError m | OSError m
  | UnboundLocalError m | ValueError m | ExceptionMsg m => m
  | KeyError k => PyStr.repr k
  end.

Inductive result (A : Type) : Type :=
| Ok (a : A)
| Raise (e : exn).
Arguments Ok {A} a.
Arguments Raise {A} e.

(** A record handed to [logger]. *)
Inductive log_level : Type := DEBUG | INFO | WARNING | ERROR.
Definition log_record : Type := (log_level * string)%type.

(** Computations that log and may raise: the records logged so far are
    kept when an exception is raised. *)
Definition M (A : Type) : Type := (list log_record * result A)%type.

Definition ret {A} (a : A) : M A := ([], Ok a).
Definition raise {A} (e : exn) : M A := ([], Raise e).
Definition log {A} (lvl : log_level) (msg : string) (k : M A) : M A :=
  ((lvl, msg) :: fst k, snd k).
Definition bind {A B} (m : M A) (f : A -> M B) : M B :=
  match m with
  | (l, Ok a) => ((l ++ fst (f a))%list, snd (f a))
  | (l, Raise e) => (l, Raise e)
  end.
Definition lift {A} (r : result A) : M A := ([], r).

Notation "x <- m ;; k" := (bind m (fun x => k))
  (at level 61, m at next level, right associativity).

Section Traversals.
Variables (A B : Type) (f : A -> M B).

(** [[f(x) for x in xs]] *)
Fixpoint mapM (xs : list A) : M (list B) :=
  match xs with
  | [] => ret []
  | x :: xs' => y <- f x ;; ys <- mapM xs' ;; ret (y :: ys)
  end.

(** [{k: f(v) for k, v in d.items()}] *)
Fixpoint mapM_values (d : list (string * A)) : M (list (string * B)) :=
  match d with
  | [] => ret []
  | (k, v) :: d' => y <- f v ;; ys <- mapM_values d' ;; ret ((k, y) :: ys)
  end.
End Traversals.

(* ================================================================== *)
(** ** Python built-ins on template data *)
(* ================================================================== *)

Module Py.

(** [type(v).__name__] *)
Definition type_name (v : value) : string :=
  match v with
  | VNone => "NoneType"
  | VBool _ => "bool"
  | VInt _ => "int"
  | VStr _ => "str"
  | VList _ => "list"
  | VDict _ => "dict"
  end.

(** [repr(v)] *)
Fixpoint repr (v : value) : string :=
  match v with
  | VNone => "None"
  | VBool true => "True"
  | VBool false => "False"
  | VInt n => PyStr.of_Z n
  | VStr s => PyStr.repr s
  | VList items => "[" ++ PyStr.join ", " (map repr items) ++ "]"
  | VDict entries =>
      "{" ++ PyStr.join ", "
               (map (fun kv => PyStr.repr (fst kv) ++ ": " ++ repr (snd kv)) entries)
          ++ "}"
  end.

(** [str(v)], which is what an f-string placeholder inserts. *)
Definition str (v : value) : string :=
  match v with
  | VStr s => s
  | _ => repr v
  end.

(** [bool(v)] *)
Definition truthy (v : value) : bool :=
  match v with
  | VNone => false
  | VBool b => b
  | VInt n => negb (Z.eqb n 0)
  | VStr s => negb (String.eqb s EmptyString)
  | VList items => match items with [] => false | _ => true end
  | VDict entries => match entries with [] => false | _ => true end
  end.

(** [v == s] for a string literal [s]. *)
Definition eq_str (v : value) (s : string) : bool :=
  match v with
  | VStr s' => String.eqb s' s
  | _ => false
  end.

Definition hashable (v : value) : bool :=
  match v with
  | VList _ | VDict _ => false
  | _ => true
  end.

Definition unhashable (v : value) : exn :=
  TypeError ("unhashable type: '" ++ type_name v ++ "'").

Definition no_attribute (v : value) (attr : string) : exn :=
  AttributeError ("'" ++ type_name v ++ "' object has no attribute '" ++ attr ++ "'").

(** [k in d] where [d] is a dict with string keys: hashing [k] comes
    first, and only a [str] can equal a key. *)
Definition in_dict (k : value) (d : dict) : result bool :=
  match k with
  | VStr s => Ok (PyDict.mem s d)
  | VList _ | VDict _ => Raise (unhashable k)
  | _ => Ok false
  end.

(** [len(v)] *)
Definition len (v : value) : result nat :=
  match v with
  | VStr s => Ok (String.length s)
  | VList items => Ok (List.length items)
  | VDict entries => Ok (List.length entries)
  | _ => Raise (TypeError ("object of type '" ++ type_name v ++ "' has no len()"))
  end.

(** [v.lower()] *)
Definition lower (v : value) : result string :=
  match v with
  | VStr s => Ok (PyStr.lower s)
  | _ => Raise (no_attribute v "lower")
  end.

(** [v.get(k, default)] *)
Definition get (v : value) (k : string) (default : value) : result value :=
  match v with
  | VDict d => Ok (match PyDict.get k d with Some x => x | None => default end)
  | _ => Raise (no_attribute v "get")
  end.

(** [v[k]] for a string [k]. *)
Definition getitem (v : value) (k : string) : result value :=
  match v with
  | VDict d =>
      match PyDict.get k d with
      | Some x => Ok x
      | None => Raise (KeyError k)
      end
  | VStr _ => Raise (TypeError "string indices must be integers, not 'str'")
  | VList _ => Raise (TypeError "list indices must be integers or slices, not str")
  | _ => Raise (TypeError ("'" ++ type_name v ++ "' object is not subscriptable"))
  end.

(** [k in v] for a string [k] and any container [v]. *)
Definition str_in (k : string) (v : value) : result bool :=
  match v with
  | VDict d => Ok (PyDict.mem k d)
  | VStr s => Ok (PyStr.contains k s)
  | VList items => Ok (existsb (fun x => eq_str x k) items)
  | _ => Raise (TypeError ("argument of type '" ++ type_name v ++ "' is not iterable"))
  end.

End Py.

(* ================================================================== *)
(** ** conversion.py: ResourceMapper *)
(* ================================================================== *)

Module ResourceMapper.

Definition RESOURCE_TYPE_MAPPING : list (string * string) :=
  [ ("AWS::EC2::Instance", "aws_instance");
    ("AWS::EC2::LaunchTemplate", "aws_launch_template");
    ("AWS::EC2::LaunchConfiguration", "aws_launch_configuration");
    ("AWS::AutoScaling::AutoScalingGroup", "aws_autoscaling_group");
    ("AWS::AutoScaling::LaunchConfiguration", "aws_launch_configuration");
    ("AWS::Lambda::Function", "aws_lambda_function");
    ("AWS::Lambda::Permission", "aws_lambda_permission");
    ("AWS::Lambda::Alias", "aws_lambda_alias");
    ("AWS::Lambda::Version", "aws_lambda_version");
    ("AWS::ECS::Cluster", "aws_ecs_cluster");
    ("AWS::ECS::Service", "aws_ecs_service");
    ("AWS::ECS::TaskDefinition", "aws_ecs_task_definition");
    ("AWS::EC2::VPC", "aws_vpc");
    ("AWS::EC2::Subnet", "aws_subnet");
    ("AWS::EC2::InternetGateway", "aws_internet_gateway");
    ("AWS::EC2::VPCGatewayAttachment", "aws_internet_gateway_attachment");
    ("AWS::EC2::RouteTable", "aws_route_table");
    ("AWS::EC2::Route", "aws_route");
    ("AWS::EC2::SubnetRouteTableAssociation", "aws_route_table_association");
    ("AWS::EC2::SecurityGroup", "aws_security_group");
    ("AWS::EC2::SecurityGroupIngress", "aws_security_group_rule");
    ("AWS::EC2::SecurityGroupEgress", "aws_security_group_rule");
    ("AWS::EC2::NatGateway", "aws_nat_gateway");
    ("AWS::EC2::EIP", "aws_eip");
    ("AWS::EC2::EIPAssociation", "aws_eip_association");
    ("AWS::EC2::NetworkInterface", "aws_network_interface");
    ("AWS::EC2::NetworkInterfaceAttachment", "aws_network_interface_attachment");
    ("AWS::ElasticLoadBalancing::LoadBalancer", "aws_elb");
    ("AWS::ElasticLoadBalancingV2::LoadBalancer", "aws_lb");
    ("AWS::ElasticLoadBalancingV2::TargetGroup", "aws_lb_target_group");
    ("AWS::ElasticLoadBalancingV2::Listener", "aws_lb_listener");
    ("AWS::ElasticLoadBalancingV2::ListenerRule", "aws_lb_listener_rule");
    ("AWS::S3::Bucket", "aws_s3_bucket");
    ("AWS::S3::BucketPolicy", "aws_s3_bucket_policy");
    ("AWS::S3::BucketNotification", "aws_s3_bucket_notification");
    ("AWS::EBS::Volume", "aws_ebs_volume");
    ("AWS::EC2::VolumeAttachment", "aws_volume_attachment");
    ("AWS::EFS::FileSystem", "aws_efs_file_system");
    ("AWS::EFS::MountTarget", "aws_efs_mount_target");
    ("AWS::RDS::DBInstance", "aws_db_instance");
    ("AWS::RDS::DBCluster", "aws_rds_cluster");
    ("AWS::RDS::DBSubnetGroup", "aws_db_subnet_group");
    ("AWS::RDS::DBParameterGroup", "aws_db_parameter_group");
    ("AWS::RDS::DBClusterParameterGroup", "aws_rds_cluster_parameter_group");
    ("AWS::DynamoDB::Table", "aws_dynamodb_table");
    ("AWS::ElastiCache::CacheCluster", "aws_elasticache_cluster");
    ("AWS::ElastiCache::ReplicationGroup", "aws_elasticache_replication_group");
    ("AWS::ElastiCache::SubnetGroup", "aws_elasticache_subnet_group");
    ("AWS::IAM::Role", "aws_iam_role");
    ("AWS::IAM::Policy", "aws_iam_policy");
    ("AWS::IAM::User", "aws_iam_user");
    ("AWS::IAM::Group", "aws_iam_group");
    ("AWS::IAM::InstanceProfile", "aws_iam_instance_profile");
    ("AWS::IAM::RolePolicyAttachment", "aws_iam_role_policy_attachment");
    ("AWS::IAM::UserPolicyAttachment", "aws_iam_user_policy_attachment");
    ("AWS::IAM::GroupPolicyAttachment", "aws_iam_group_policy_attachment");
    ("AWS::Route53::HostedZone", "aws_route53_zone");
    ("AWS::Route53::RecordSet", "aws_route53_record");
    ("AWS::CloudFront::Distribution", "aws_cloudfront_distribution");
    ("AWS::CloudFront::OriginAccessIdentity", "aws_cloudfront_origin_access_identity");
    ("AWS::ApiGateway::RestApi", "aws_api_gateway_rest_api");
    ("AWS::ApiGateway::Resource", "aws_api_gateway_resource");
    ("AWS::ApiGateway::Method", "aws_api_gateway_method");
    ("AWS::ApiGateway::Deployment", "aws_api_gateway_deployment");
    ("AWS::ApiGateway::Stage", "aws_api_gateway_stage");
    ("AWS::SNS::Topic", "aws_sns_topic");
    ("AWS::SNS::Subscription", "aws_sns_topic_subscription");
    ("AWS::SQS::Queue", "aws_sqs_queue");
    ("AWS::CloudWatch::Alarm", "aws_cloudwatch_metric_alarm");
    ("AWS::CloudWatch::Dashboard", "aws_cloudwatch_dashboard");
    ("AWS::Logs::LogGroup", "aws_cloudwatch_log_group");
    ("AWS::Logs::LogStream", "aws_cloudwatch_log_stream");
    ("AWS::KMS::Key", "aws_kms_key");
    ("AWS::KMS::Alias", "aws_kms_alias");
    ("AWS::SecretsManager::Secret", "aws_secretsmanager_secret");
    ("AWS::SecretsManager::SecretVersion", "aws_secretsmanager_secret_version");
    ("AWS::CloudFormation::Stack", "terraform_module") ].

Definition PROPERTY_MAPPINGS : list (string * list (string * string)) :=
  [ ("aws_instance",
      [ ("ImageId", "ami");
        ("InstanceType", "instance_type");
        ("KeyName", "key_name");
        ("SecurityGroups", "security_groups");
        ("SecurityGroupIds", "vpc_security_group_ids");
        ("SubnetId", "subnet_id");
        ("UserData", "user_data");
        ("IamInstanceProfile", "iam_instance_profile");
        ("Tags", "tags");
        ("BlockDeviceMappings", "ebs_block_device");
        ("Monitoring", "monitoring");
        ("DisableApiTermination", "disable_api_termination");
        ("EbsOptimized", "ebs_optimized");
        ("SourceDestCheck", "source_dest_check") ]);
    ("aws_vpc",
      [ ("CidrBlock", "cidr_block");
        ("EnableDnsHostnames", "enable_dns_hostnames");
        ("EnableDnsSupport", "enable_dns_support");
        ("InstanceTenancy", "instance_tenancy");
        ("Tags", "tags") ]);
    ("aws_subnet",
      [ ("VpcId", "vpc_id");
        ("CidrBlock", "cidr_block");
        ("AvailabilityZone", "availability_zone");
        ("MapPublicIpOnLaunch", "map_public_ip_on_launch");
        ("Tags", "tags") ]);
    ("aws_security_group",
      [ ("GroupDescription", "description");
        ("GroupName", "name");
        ("VpcId", "vpc_id");
        ("SecurityGroupIngress", "ingress");
        ("SecurityGroupEgress", "egress");
        ("Tags", "tags") ]);
    ("aws_s3_bucket",
      [ ("BucketName", "bucket");
        ("AccessControl", "acl");
        ("BucketEncryption", "server_side_encryption_configuration");
        ("PublicAccessBlockConfiguration", "public_access_block");
        ("VersioningConfiguration", "versioning");
        ("Tags", "tags") ]);
    ("aws_db_instance",
      [ ("DBInstanceIdentifier", "identifier");
        ("DBInstanceClass", "instance_class");
        ("Engine", "engine");
        ("EngineVersion", "engine_version");
        ("AllocatedStorage", "allocated_storage");
        ("StorageType", "storage_type");
        ("StorageEncrypted", "storage_encrypted");
        ("KmsKeyId", "kms_key_id");
        ("DBName", "db_name");
        ("MasterUsername", "username");
        ("MasterUserPassword", "password");
        ("VPCSecurityGroups", "vpc_security_group_ids");
        ("DBSubnetGroupName", "db_subnet_group_name");
        ("ParameterGroupName", "parameter_group_name");
        ("BackupRetentionPeriod", "backup_retention_period");
        ("PreferredBackupWindow", "backup_window");
        ("PreferredMaintenanceWindow", "maintenance_window");
        ("MultiAZ", "multi_az");
        ("PubliclyAccessible", "publicly_accessible");
        ("Tags", "tags") ]) ].

(** [RESOURCE_TYPE_MAPPING.get(cf_type)]: the key is hashed first. *)
Definition get_terraform_type (cf_type : value) : result (option string) :=
  match cf_type with
  | VStr s => Ok (PyDict.get s RESOURCE_TYPE_MAPPING)
  | VList _ | VDict _ => Raise (Py.unhashable cf_type)
  | _ => Ok None
  end.

(** The loop body of [map_properties]. *)
Definition map_property (property_mapping : list (string * string))
    (terraform_properties : dict) (item : string * value) : dict :=
  let (cf_prop, v) := item in
  let terraform_prop :=
    match PyDict.get cf_prop property_mapping with
    | Some p => p
    | None => PyStr.lower cf_prop
    end in
  PyDict.set terraform_prop v terraform_properties.

Definition map_properties (cf_type : value) (cf_properties : value) : result value :=
  match get_terraform_type cf_type with
  | Raise e => Raise e
  | Ok None => Ok cf_properties
  | Ok (Some terraform_type) =>
      let property_mapping :=
        match PyDict.get terraform_type PROPERTY_MAPPINGS with
        | Some m => m
        | None => []
        end in
      match cf_properties with
      | VDict items =>
          Ok (VDict (fold_left (map_property property_mapping) items []))
      | _ => Raise (Py.no_attribute cf_properties "items")
      end
  end.

End ResourceMapper.

(* ================================================================== *)
(** ** conversion.py: IntrinsicFunctionHandler *)
(* ================================================================== *)

(** [re.sub(r'\$\{([^}]+)\}', repl, s)] *)
Module Re.

(** The longest prefix free of the closing brace, and what follows it. *)
Fixpoint span_not_rbrace (s : string) : string * string :=
  match s with
  | EmptyString => (EmptyString, EmptyString)
  | String c s' =>
      if Ascii.eqb c "}"%char then (EmptyString, s)
      else let (body, rest) := span_not_rbrace s' in (String c body, rest)
  end.

(** A match of the pattern at the head of [s]: the captured group and
    the number of characters the match spans. *)
Definition match_placeholder (s : string) : option (string * nat) :=
  match s with
  | String "$"%char (String "{"%char s') =>
      match span_not_rbrace s' with
      | (String c body, String _ _) =>
          Some (String c body, 3 + String.length (String c body))
      | _ => None
      end
  | _ => None
  end.

(** Scan left to right; [skip] counts the characters of the current
    match that are still to be passed over. *)
Fixpoint sub_from (repl : string -> M string) (s : string) (skip : nat) : M string :=
  match s with
  | EmptyString => ret EmptyString
  | String c s' =>
      match skip with
      | S k => sub_from repl s' k
      | O =>
          match match_placeholder s with
          | Some (name, n) =>
              r <- repl name ;;
              rest <- sub_from repl s' (n - 1) ;;
              ret (r ++ rest)
          | None =>
              rest <- sub_from repl s' 0 ;;
              ret (String c rest)
          end
      end
  end.

Definition sub (repl : string -> M string) (s : string) : M string :=
  sub_from repl s 0.

End Re.

(** [try: body except (KeyError, TypeError): handler] *)
Definition catch_key_type_error {A} (body handler : M A) : M A :=
  match body with
  | (l, Raise (KeyError _)) | (l, Raise (TypeError _)) =>
      ((l ++ fst handler)%list, snd handler)
  | _ => body
  end.

Record IntrinsicFunctionHandler : Type := {
  parameters : dict;
  mappings : dict
}.

(** The [context] dictionary: [context.get('resources', {})] and
    [context.get('parameters', {})]. *)
Record Context : Type := {
  ctx_resources : dict;
  ctx_parameters : dict
}.

Definition empty_context : Context :=
  {| ctx_resources := []; ctx_parameters := [] |}.

Section Handler.
Variable self : IntrinsicFunctionHandler.
Variable context : Context.

Definition not_iterable (v : value) : exn :=
  TypeError ("'" ++ Py.type_name v ++ "' object is not iterable").

Definition no_len (v : value) : exn :=
  TypeError ("object of type '" ++ Py.type_name v ++ "' has no len()").

(** [if len(args) != 2: return invalid] followed by [a, b = args].
    Unpacking a [str] yields its characters and unpacking a [dict] its
    keys; these are strings, which [process_value] returns unchanged, so
    the body receives [ret] as its resolver in those two cases. *)
Definition with_args2 {A} (pv : value -> M value) (args : value) (invalid : M A)
    (body : (value -> M value) -> value -> value -> M A) : M A :=
  match args with
  | VList [a; b] => body pv a b
  | VList _ => invalid
  | VStr s =>
      match PyStr.chars s with
      | [a; b] => body ret (VStr a) (VStr b)
      | _ => invalid
      end
  | VDict [(a, _); (b, _)] => body ret (VStr a) (VStr b)
  | VDict _ => invalid
  | _ => raise (no_len args)
  end.

(** [if len(args) != 3: return invalid] followed by [a, b, c = args]. *)
Definition with_args3 {A} (pv : value -> M value) (args : value) (invalid : M A)
    (body : (value -> M value) -> value -> value -> value -> M A) : M A :=
  match args with
  | VList [a; b; c] => body pv a b c
  | VList _ => invalid
  | VStr s =>
      match PyStr.chars s with
      | [a; b; c] => body ret (VStr a) (VStr b) (VStr c)
      | _ => invalid
      end
  | VDict [(a, _); (b, _); (c, _)] => body ret (VStr a) (VStr b) (VStr c)
  | VDict _ => invalid
  | _ => raise (no_len args)
  end.

(** [aws_pseudo_params] of [_handle_ref]. *)
Definition ref_pseudo_params : list (string * string) :=
  [ ("AWS::Region", "data.aws_region.current.name");
    ("AWS::AccountId", "data.aws_caller_identity.current.account_id");
    ("AWS::StackName", "var.stack_name");
    ("AWS::StackId", "var.stack_id");
    ("AWS::Partition", "data.aws_partition.current.partition") ].

(** [context['resources'][resource_name]] once [resource_name] is known
    to be a key. *)
Definition resource_info_of (resource_name : value) : value :=
  match resource_name with
  | VStr n =>
      match PyDict.get n (ctx_resources context) with
      | Some info => info
      | None => VNone
      end
  | _ => VNone
  end.

(** The resource branch of [_handle_ref]; [None] when it falls through. *)
Definition ref_resource (resource_name : value) : M (option string) :=
  is_resource <- lift (Py.in_dict resource_name (ctx_resources context)) ;;
  if is_resource : bool then
    let resource_info := resource_info_of resource_name in
    resource_type <- lift (Py.get resource_info "Type" (VStr EmptyString)) ;;
    if Py.eq_str resource_type "AWS::EC2::Instance" then
      n <- lift (Py.lower resource_name) ;; ret (Some ("aws_instance." ++ n ++ ".id"))
    else if Py.eq_str resource_type "AWS::EC2::VPC" then
      n <- lift (Py.lower resource_name) ;; ret (Some ("aws_vpc." ++ n ++ ".id"))
    else if Py.eq_str resource_type "AWS::EC2::Subnet" then
      n <- lift (Py.lower resource_name) ;; ret (Some ("aws_subnet." ++ n ++ ".id"))
    else if Py.eq_str resource_type "AWS::EC2::SecurityGroup" then
      n <- lift (Py.lower resource_name) ;; ret (Some ("aws_security_group." ++ n ++ ".id"))
    else if Py.eq_str resource_type "AWS::S3::Bucket" then
      n <- lift (Py.lower resource_name) ;; ret (Some ("aws_s3_bucket." ++ n ++ ".id"))
    else
      terraform_type <- lift (ResourceMapper.get_terraform_type resource_type) ;;
      match terraform_type with
      | Some t =>
          n <- lift (Py.lower resource_name) ;; ret (Some (t ++ "." ++ n ++ ".id"))
      | None => ret None
      end
  else ret None.

Definition _handle_ref (resource_name : value) : M string :=
  is_parameter <- lift (Py.in_dict resource_name (parameters self)) ;;
  if is_parameter : bool then
    n <- lift (Py.lower resource_name) ;; ret ("var." ++ n)
  else
    from_resource <- ref_resource resource_name ;;
    match from_resource with
    | Some reference => ret reference
    | None =>
        is_pseudo <- lift (Py.in_dict resource_name
                             (map (fun kv => (fst kv, VStr (snd kv))) ref_pseudo_params)) ;;
        match resource_name, is_pseudo with
        | VStr n, true =>
            match PyDict.get n ref_pseudo_params with
            | Some target => ret target
            | None => ret ("# TODO: Resolve reference to " ++ n)
            end
        | _, _ => ret ("# TODO: Resolve reference to " ++ Py.str resource_name)
        end
    end.

(** [attribute_mappings] of [_handle_get_att]. *)
Definition attribute_mappings : list (string * list (string * string)) :=
  [ ("AWS::EC2::Instance",
      [ ("PrivateIp", "private_ip");
        ("PublicIp", "public_ip");
        ("PrivateDnsName", "private_dns");
        ("PublicDnsName", "public_dns");
        ("AvailabilityZone", "availability_zone") ]);
    ("AWS::EC2::VPC",
      [ ("CidrBlock", "cidr_block");
        ("DefaultNetworkAcl", "default_network_acl_id");
        ("DefaultSecurityGroup", "default_security_group_id") ]);
    ("AWS::S3::Bucket",
      [ ("Arn", "arn");
        ("DomainName", "bucket_domain_name");
        ("RegionalDomainName", "bucket_regional_domain_name") ]);
    ("AWS::RDS::DBInstance",
      [ ("Endpoint.Address", "endpoint");
        ("Endpoint.Port", "port") ]) ].

(** The resource branch of [_handle_get_att]; [None] when it falls
    through to the marker. *)
Definition get_att_resource (resource_name attribute : value) : M (option string) :=
  is_resource <- lift (Py.in_dict resource_name (ctx_resources context)) ;;
  if is_resource : bool then
    let resource_info := resource_info_of resource_name in
    resource_type <- lift (Py.get resource_info "Type" (VStr EmptyString)) ;;
    terraform_type <- lift (ResourceMapper.get_terraform_type resource_type) ;;
    match terraform_type, resource_type with
    | Some t, VStr rt =>
        match PyDict.get rt attribute_mappings with
        | Some renames =>
            default <- lift (Py.lower attribute) ;;
            let terraform_attr :=
              match attribute with
              | VStr a =>
                  match PyDict.get a renames with
                  | Some x => x
                  | None => default
                  end
              | _ => default
              end in
            n <- lift (Py.lower resource_name) ;;
            ret (Some (t ++ "." ++ n ++ "." ++ terraform_attr))
        | None => ret None
        end
    | _, _ => ret None
    end
  else ret None.

Definition _handle_get_att (args : value) : M string :=
  with_args2 ret args
    (ret ("# TODO: Invalid GetAtt arguments: " ++ Py.str args))
    (fun _ resource_name attribute =>
       from_resource <- get_att_resource resource_name attribute ;;
       match from_resource with
       | Some reference => ret reference
       | None =>
           ret ("# TODO: GetAtt " ++ Py.str resource_name ++ "." ++ Py.str attribute)
       end).

(** One element of [processed_values] in [_handle_join]. *)
Definition join_element (processed_value : value) : string :=
  match processed_value with
  | VStr s => PyStr.dquote ++ s ++ PyStr.dquote
  | _ => Py.str processed_value
  end.

Definition _handle_join (pv : value -> M value) (args : value) : M string :=
  with_args2 pv args
    (ret ("# TODO: Invalid Join arguments: " ++ Py.str args))
    (fun pv delimiter values =>
       processed_values <-
         match values with
         | VList items => mapM (fun v => p <- pv v ;; ret (join_element p)) items
         | VStr s => ret (map (fun c => join_element (VStr c)) (PyStr.chars s))
         | VDict d => ret (map (fun k => join_element (VStr k)) (PyDict.keys d))
         | _ => raise (not_iterable values)
         end ;;
       ret ("join(" ++ PyStr.dquote ++ Py.str delimiter ++ PyStr.dquote ++ ", ["
              ++ PyStr.join ", " processed_values ++ "])")).

(** [aws_pseudo_params] of [replace_var]. *)
Definition sub_pseudo_params : list (string * string) :=
  [ ("AWS::Region", "data.aws_region.current.name");
    ("AWS::AccountId", "data.aws_caller_identity.current.account_id");
    ("AWS::StackName", "var.stack_name") ].

(** The pseudo-parameter step of [replace_var]. *)
Definition sub_pseudo (var_name : string) : option string :=
  if PyStr.startswith var_name "AWS::"
  then PyDict.get var_name sub_pseudo_params
  else None.

(** The closure [replace_var] of [_handle_sub], applied to the captured
    group of a match. *)
Definition replace_var (processed_vars : dict) (var_name : string) : M string :=
  match PyDict.get var_name processed_vars with
  | Some v => ret ("${" ++ Py.str v ++ "}")
  | None =>
      match sub_pseudo var_name with
      | Some target => ret ("${" ++ target ++ "}")
      | None =>
          if PyDict.mem var_name (parameters self) then
            ret ("${var." ++ PyStr.lower var_name ++ "}")
          else if PyDict.mem var_name (ctx_resources context) then
            reference <- _handle_ref (VStr var_name) ;;
            ret ("${" ++ reference ++ "}")
          else ret ("${" ++ var_name ++ "}")
      end
  end.

(** [_handle_sub] after [template_string] and [variables] are bound. *)
Definition sub_body (pv : value -> M value) (template_string variables : value)
  : M string :=
  processed_vars <-
    match variables with
    | VDict d => mapM_values pv d
    | _ => raise (Py.no_attribute variables "items")
    end ;;
  match template_string with
  | VStr t =>
      result <- Re.sub (replace_var processed_vars) t ;;
      ret (PyStr.dquote ++ result ++ PyStr.dquote)
  | _ =>
      raise (TypeError ("expected string or bytes-like object, got '"
                          ++ Py.type_name template_string ++ "'"))
  end.

Definition _handle_sub (pv : value -> M value) (args : value) : M string :=
  match args with
  | VStr _ => sub_body pv args (VDict [])
  | VList [template_string; variables] => sub_body pv template_string variables
  | _ => ret ("# TODO: Invalid Sub arguments: " ++ Py.str args)
  end.

Definition _handle_select (pv : value -> M value) (args : value) : M string :=
  with_args2 pv args
    (ret ("# TODO: Invalid Select arguments: " ++ Py.str args))
    (fun pv index array =>
       processed_array <- pv array ;;
       ret ("element(" ++ Py.str processed_array ++ ", " ++ Py.str index ++ ")")).

Definition _handle_split (pv : value -> M value) (args : value) : M string :=
  with_args2 pv args
    (ret ("# TODO: Invalid Split arguments: " ++ Py.str args))
    (fun pv delimiter string =>
       processed_string <- pv string ;;
       ret ("split(" ++ PyStr.dquote ++ Py.str delimiter ++ PyStr.dquote ++ ", "
              ++ Py.str processed_string ++ ")")).

Definition _handle_base64 (pv : value -> M value) (v : value) : M string :=
  processed_value <- pv v ;;
  ret ("base64encode(" ++ Py.str processed_value ++ ")").

Definition _handle_get_azs (pv : value -> M value) (region : value) : M string :=
  if Py.eq_str region EmptyString then
    ret "data.aws_availability_zones.available.names"
  else
    processed_region <- pv region ;;
    ret ("# TODO: GetAZs for specific region " ++ Py.str processed_region).

(** [self.mappings[map_name][top][second]] *)
Definition static_lookup (map_name top second : string) : result value :=
  match PyDict.get map_name (mappings self) with
  | None => Raise (KeyError map_name)
  | Some table =>
      match Py.getitem table top with
      | Raise e => Raise e
      | Ok row => Py.getitem row second
      end
  end.

(** The [try] block of [_handle_find_in_map]: [Some value] when it
    returns, [None] when control leaves it without returning. *)
Definition find_in_map_static (pv : value -> M value)
    (map_name top_level_key second_level_key : value) : M (option value) :=
  is_known <- lift (Py.in_dict map_name (mappings self)) ;;
  match map_name, is_known with
  | VStr name, true =>
      catch_key_type_error
        (processed_top_key <- pv top_level_key ;;
         processed_second_key <- pv second_level_key ;;
         match processed_top_key, processed_second_key with
         | VStr top, VStr second =>
             v <- lift (static_lookup name top second) ;; ret (Some v)
         | _, _ => ret None
         end)
        (ret None)
  | _, _ => ret None
  end.

Definition _handle_find_in_map (pv : value -> M value) (args : value) : M string :=
  with_args3 pv args
    (ret ("# TODO: Invalid FindInMap arguments: " ++ Py.str args))
    (fun pv map_name top_level_key second_level_key =>
       static <- find_in_map_static pv map_name top_level_key second_level_key ;;
       match static with
       | Some v => ret (PyStr.dquote ++ Py.str v ++ PyStr.dquote)
       | None =>
           n <- lift (Py.lower map_name) ;;
           top <- pv top_level_key ;;
           second <- pv second_level_key ;;
           ret ("local." ++ n ++ "[" ++ Py.str top ++ "][" ++ Py.str second ++ "]")
       end).

Definition _handle_if (pv : value -> M value) (args : value) : M string :=
  with_args3 pv args
    (ret ("# TODO: Invalid If arguments: " ++ Py.str args))
    (fun pv condition_name true_value false_value =>
       processed_true <- pv true_value ;;
       processed_false <- pv false_value ;;
       n <- lift (Py.lower condition_name) ;;
       ret ("var." ++ n ++ " - " ++ Py.str processed_true ++ " : "
              ++ Py.str processed_false)).

Definition _handle_intrinsic_function (pv : value -> M value)
    (func_name : string) (func_args : value) : M string :=
  if String.eqb func_name "Ref" then _handle_ref func_args
  else if String.eqb func_name "Fn::GetAtt" then _handle_get_att func_args
  else if String.eqb func_name "Fn::Join" then _handle_join pv func_args
  else if String.eqb func_name "Fn::Sub" then _handle_sub pv func_args
  else if String.eqb func_name "Fn::Select" then _handle_select pv func_args
  else if String.eqb func_name "Fn::Split" then _handle_split pv func_args
  else if String.eqb func_name "Fn::Base64" then _handle_base64 pv func_args
  else if String.eqb func_name "Fn::GetAZs" then _handle_get_azs pv func_args
  else if String.eqb func_name "Fn::FindInMap" then _handle_find_in_map pv func_args
  else if String.eqb func_name "Fn::If" then _handle_if pv func_args
  else
    log WARNING ("Unsupported intrinsic function: " ++ func_name)
      (ret ("# TODO: Convert " ++ func_name ++ "(" ++ Py.str func_args ++ ")")).

(** [func_name.startswith('Fn::') or func_name == 'Ref'] *)
Definition is_function_key (func_name : string) : bool :=
  PyStr.startswith func_name "Fn::" || String.eqb func_name "Ref".

Fixpoint process_value (v : value) : M value :=
  match v with
  | VDict entries =>
      match entries with
      | [(func_name, func_args)] =>
          if is_function_key func_name then
            s <- _handle_intrinsic_function process_value func_name func_args ;;
            ret (VStr s)
          else
            d <- mapM_values process_value entries ;; ret (VDict d)
      | _ => d <- mapM_values process_value entries ;; ret (VDict d)
      end
  | VList items => l <- mapM process_value items ;; ret (VList l)
  | _ => ret v
  end.

End Handler.

(* ================================================================== *)
(** ** conversion.py: ConversionEngine *)
(* ================================================================== *)

(** [json.dumps(v)] with the default separators; exact on ASCII text. *)
Module Json.

Definition escape_char (c : ascii) : string :=
  let n := nat_of_ascii c in
  if (n =? 34)%nat then "\" ++ PyStr.dquote
  else if (n =? 92)%nat then "\\"
  else if (n =? 10)%nat then "\n"
  else if (n =? 13)%nat then "\r"
  else if (n =? 9)%nat then "\t"
  else if (n =? 8)%nat then "\b"
  else if (n =? 12)%nat then "\f"
  else if ((n <? 32) || (n =? 127))%nat
       then "\u00" ++ PyStr.hex_digit (n / 16) ++ PyStr.hex_digit (n mod 16)
  else String c EmptyString.

Fixpoint escape (s : string) : string :=
  match s with
  | EmptyString => EmptyString
  | String c s' => escape_char c ++ escape s'
  end.

Definition dumps_str (s : string) : string :=
  PyStr.dquote ++ escape s ++ PyStr.dquote.

Fixpoint dumps (v : value) : string :=
  match v with
  | VNone => "null"
  | VBool true => "true"
  | VBool false => "false"
  | VInt n => PyStr.of_Z n
  | VStr s => dumps_str s
  | VList items => "[" ++ PyStr.join ", " (map dumps items) ++ "]"
  | VDict entries =>
      "{" ++ PyStr.join ", "
               (map (fun kv => dumps_str (fst kv) ++ ": " ++ dumps (snd kv)) entries)
          ++ "}"
  end.

End Json.

Record ConversionResult : Type := {
  terraform_config : dict;
  import_commands : list string;
  variables : dict;
  outputs : dict;
  locals : dict;
  warnings : list string;
  errors : list string
}.

(** [ConversionResult(terraform_config={})] *)
Definition new_result : ConversionResult :=
  {| terraform_config := []; import_commands := []; variables := [];
     outputs := []; locals := []; warnings := []; errors := [] |}.

(** The dictionary [_convert_resource] returns, with its three keys. *)
Record ConvertedResource : Type := {
  cr_resources : dict;
  cr_import_commands : list string;
  cr_warnings : list string
}.

(** A template: its recognised sections, each [template.get(name, {})]. *)
Record Template : Type := {
  Parameters : dict;
  Mappings : dict;
  Conditions : dict;
  Resources : dict;
  Outputs : dict
}.

Record ConversionEngine : Type := {
  preserve_names : bool;
  handle_functions : bool
}.

Module Names.

(** [re.sub('([a-z0-9])([A-Z])', r'\1_\2', s)]: the second character of
    a match is upper case, so no match starts on it and the scan may
    resume there. *)
Fixpoint camel_to_snake (s : string) : string :=
  match s with
  | EmptyString => EmptyString
  | String c1 s' =>
      match s' with
      | String c2 _ =>
          if (PyStr.is_lower c1 || PyStr.is_digit c1) && PyStr.is_upper c2
          then String c1 (String "_"%char (camel_to_snake s'))
          else String c1 (camel_to_snake s')
      | EmptyString => String c1 EmptyString
      end
  end.

Definition is_name_char (c : ascii) : bool :=
  PyStr.is_lower c || PyStr.is_digit c || Ascii.eqb c "_"%char.

(** [re.sub(r'[^a-z0-9_]', '_', s)] *)
Fixpoint replace_invalid (s : string) : string :=
  match s with
  | EmptyString => EmptyString
  | String c s' =>
      String (if is_name_char c then c else "_"%char) (replace_invalid s')
  end.

(** [re.sub(r'_+', '_', s)] *)
Fixpoint collapse_underscores (s : string) : string :=
  match s with
  | EmptyString => EmptyString
  | String c s' =>
      match s' with
      | String c' _ =>
          if Ascii.eqb c "_"%char && Ascii.eqb c' "_"%char
          then collapse_underscores s'
          else String c (collapse_underscores s')
      | EmptyString => String c EmptyString
      end
  end.

Fixpoint lstrip_underscores (s : string) : string :=
  match s with
  | EmptyString => EmptyString
  | String c s' =>
      if Ascii.eqb c "_"%char then lstrip_underscores s' else s
  end.

Fixpoint rstrip_underscores (s : string) : string :=
  match s with
  | EmptyString => EmptyString
  | String c s' =>
      match rstrip_underscores s' with
      | EmptyString => if Ascii.eqb c "_"%char then EmptyString else String c EmptyString
      | rest => String c rest
      end
  end.

(** [s.strip('_')] *)
Definition strip_underscores (s : string) : string :=
  rstrip_underscores (lstrip_underscores s).

Definition _generate_resource_name (logical_id : string) : string :=
  let name := PyStr.lower (camel_to_snake logical_id) in
  let name := replace_invalid name in
  let name := collapse_underscores name in
  let name := strip_underscores name in
  if String.eqb name EmptyString then "resource" else name.

End Names.

Module Transform.

(** [if key in transformed: transformed[target] = f(transformed.pop(key))] *)
Definition rename_with (key target : string) (f : value -> value)
    (transformed : dict) : dict :=
  match PyDict.get key transformed with
  | Some v => PyDict.set target (f v) (PyDict.remove key transformed)
  | None => transformed
  end.

Definition rename (key target : string) (transformed : dict) : dict :=
  rename_with key target (fun v => v) transformed.

(** [properties.copy()] *)
Definition copy (properties : value) : M dict :=
  match properties with
  | VDict d => ret d
  | _ => raise (Py.no_attribute properties "copy")
  end.

Definition _transform_security_group_rule (properties cf_type : value) : M value :=
  transformed <- copy properties ;;
  is_ingress <- lift (Py.str_in "Ingress" cf_type) ;;
  let transformed :=
    PyDict.set "type" (VStr (if is_ingress : bool then "ingress" else "egress"))
               transformed in
  let transformed := rename "IpProtocol" "protocol" transformed in
  let transformed := rename "FromPort" "from_port" transformed in
  let transformed := rename "ToPort" "to_port" transformed in
  let transformed :=
    rename_with "CidrIp" "cidr_blocks" (fun v => VList [v]) transformed in
  ret (VDict transformed).

Definition s3_encryption (transformed : dict) : M dict :=
  match PyDict.get "BucketEncryption" transformed with
  | Some encryption_config =>
      let transformed := PyDict.remove "BucketEncryption" transformed in
      has <- lift (Py.str_in "ServerSideEncryptionConfiguration" encryption_config) ;;
      if has : bool then
        v <- lift (Py.getitem encryption_config "ServerSideEncryptionConfiguration") ;;
        ret (PyDict.set "server_side_encryption_configuration" v transformed)
      else ret transformed
  | None => ret transformed
  end.

Definition s3_versioning (transformed : dict) : M dict :=
  match PyDict.get "VersioningConfiguration" transformed with
  | Some versioning =>
      let transformed := PyDict.remove "VersioningConfiguration" transformed in
      status <- lift (Py.get versioning "Status" VNone) ;;
      ret (PyDict.set "versioning"
             (VDict [("enabled", VBool (Py.eq_str status "Enabled"))]) transformed)
  | None => ret transformed
  end.

Definition _transform_s3_bucket (properties : value) : M value :=
  transformed <- copy properties ;;
  transformed <- s3_encryption transformed ;;
  transformed <- s3_versioning transformed ;;
  ret (VDict transformed).

Definition _transform_iam_role (properties : value) : M value :=
  transformed <- copy properties ;;
  let transformed :=
    rename_with "AssumeRolePolicyDocument" "assume_role_policy"
      (fun policy_doc =>
         match policy_doc with
         | VDict _ => VStr (Json.dumps policy_doc)
         | _ => policy_doc
         end) transformed in
  let transformed := rename "ManagedPolicyArns" "managed_policy_arns" transformed in
  ret (VDict transformed).

Definition lambda_code (transformed : dict) : M dict :=
  match PyDict.get "Code" transformed with
  | Some code_config =>
      let transformed := PyDict.remove "Code" transformed in
      has_bucket <- lift (Py.str_in "S3Bucket" code_config) ;;
      has_key <- (if has_bucket : bool then lift (Py.str_in "S3Key" code_config)
                  else ret false) ;;
      if has_key : bool then
        bucket <- lift (Py.getitem code_config "S3Bucket") ;;
        let transformed := PyDict.set "s3_bucket" bucket transformed in
        key <- lift (Py.getitem code_config "S3Key") ;;
        let transformed := PyDict.set "s3_key" key transformed in
        has_version <- lift (Py.str_in "S3ObjectVersion" code_config) ;;
        if has_version : bool then
          version <- lift (Py.getitem code_config "S3ObjectVersion") ;;
          ret (PyDict.set "s3_object_version" version transformed)
        else ret transformed
      else
        has_zip <- lift (Py.str_in "ZipFile" code_config) ;;
        if has_zip : bool
        then ret (PyDict.set "filename" (VStr "lambda_function.zip") transformed)
        else ret transformed
  | None => ret transformed
  end.

Definition _transform_lambda_function (properties : value) : M value :=
  transformed <- copy properties ;;
  let transformed := rename "FunctionName" "function_name" transformed in
  let transformed := rename "Runtime" "runtime" transformed in
  let transformed := rename "Handler" "handler" transformed in
  transformed <- lambda_code transformed ;;
  ret (VDict transformed).

Definition _apply_resource_transformations (cf_type properties : value)
    (logical_id : string) : M value :=
  if Py.eq_str cf_type "AWS::EC2::SecurityGroupIngress"
     || Py.eq_str cf_type "AWS::EC2::SecurityGroupEgress"
  then _transform_security_group_rule properties cf_type
  else if Py.eq_str cf_type "AWS::S3::Bucket" then _transform_s3_bucket properties
  else if Py.eq_str cf_type "AWS::IAM::Role" then _transform_iam_role properties
  else if Py.eq_str cf_type "AWS::Lambda::Function"
  then _transform_lambda_function properties
  else ret properties.

End Transform.

Section Engine.
Variable self : ConversionEngine.

(** [import_templates.get(terraform_type)] of
    [ConversionEngine._generate_import_command]. *)
Definition import_template_types : list string :=
  [ "aws_instance"; "aws_vpc"; "aws_subnet"; "aws_security_group";
    "aws_s3_bucket"; "aws_db_instance"; "aws_iam_role"; "aws_lambda_function" ].

Definition _generate_import_command (terraform_type resource_name : string)
    (cf_type : value) : option string :=
  if existsb (String.eqb terraform_type) import_template_types
  then Some ("terraform import " ++ terraform_type ++ "." ++ resource_name
               ++ " PHYSICAL_ID")
  else None.

(** The loop body of [_convert_nested_stack]. *)
Definition nested_stack_input (func_handler : IntrinsicFunctionHandler)
    (context : Context) (module_config : M dict) (item : string * value) : M dict :=
  config <- module_config ;;
  processed_value <- process_value func_handler context (snd item) ;;
  ret (PyDict.set (PyStr.lower (fst item)) processed_value config).

Definition _convert_nested_stack (logical_id : string) (resource_config : value)
    (func_handler : IntrinsicFunctionHandler) (context : Context)
  : M ConvertedResource :=
  properties <- lift (Py.get resource_config "Properties" (VDict [])) ;;
  template_url <- lift (Py.get properties "TemplateURL" (VStr EmptyString)) ;;
  stack_parameters <- lift (Py.get properties "Parameters" (VDict [])) ;;
  let module_name := PyStr.lower logical_id in
  let module_config :=
    [("source", VStr ("# TODO: Convert nested stack template from "
                        ++ Py.str template_url))] in
  module_config <-
    match stack_parameters with
    | VDict items =>
        fold_left (nested_stack_input func_handler context) items (ret module_config)
    | _ => raise (Py.no_attribute stack_parameters "items")
    end ;;
  ret {| cr_resources := [("module", VDict [(module_name, VDict module_config)])];
         cr_import_commands := [];
         cr_warnings := ["Nested stack " ++ logical_id
                           ++ " requires manual template conversion"] |}.

Definition _convert_resource (logical_id : string) (resource_config : value)
    (func_handler : IntrinsicFunctionHandler) (context : Context)
  : M (option ConvertedResource) :=
  cf_type <- lift (Py.get resource_config "Type" VNone) ;;
  if negb (Py.truthy cf_type) then ret None
  else
    terraform_type <- lift (ResourceMapper.get_terraform_type cf_type) ;;
    match terraform_type with
    | None =>
        log WARNING ("No Terraform mapping for CloudFormation type: " ++ Py.str cf_type)
          (ret (Some {| cr_resources := [];
                        cr_warnings := ["Unsupported resource type: " ++ Py.str cf_type];
                        cr_import_commands := [] |}))
    | Some terraform_type =>
        if Py.eq_str cf_type "AWS::CloudFormation::Stack" then
          c <- _convert_nested_stack logical_id resource_config func_handler context ;;
          ret (Some c)
        else
          cf_properties <- lift (Py.get resource_config "Properties" (VDict [])) ;;
          processed_properties <-
            (if handle_functions self
             then process_value func_handler context cf_properties
             else ret cf_properties) ;;
          terraform_properties <-
            lift (ResourceMapper.map_properties cf_type processed_properties) ;;
          terraform_properties <-
            Transform._apply_resource_transformations
              cf_type terraform_properties logical_id ;;
          let resource_name :=
            if preserve_names self then PyStr.lower logical_id
            else Names._generate_resource_name logical_id in
          let terraform_resource :=
            [(terraform_type, VDict [(resource_name, terraform_properties)])] in
          let import_command :=
            _generate_import_command terraform_type resource_name cf_type in
          ret (Some {| cr_resources := terraform_resource;
                       cr_import_commands :=
                         match import_command with
                         | Some c => [c]
                         | None => []
                         end;
                       cr_warnings := [] |})
    end.

(** [type_mapping] of [_map_parameter_type]. *)
Definition parameter_type_mapping : list (string * string) :=
  [ ("String", "string");
    ("Number", "number");
    ("CommaDelimitedList", "list(string)");
    ("AWS::EC2::AvailabilityZone::Name", "string");
    ("AWS::EC2::Image::Id", "string");
    ("AWS::EC2::Instance::Id", "string");
    ("AWS::EC2::KeyPair::KeyName", "string");
    ("AWS::EC2::SecurityGroup::Id", "string");
    ("AWS::EC2::Subnet::Id", "string");
    ("AWS::EC2::VPC::Id", "string");
    ("AWS::Route53::HostedZone::Id", "string");
    ("AWS::SSM::Parameter::Value<String>", "string") ].

Definition _map_parameter_type (cf_type : value) : result string :=
  match cf_type with
  | VStr s =>
      Ok (match PyDict.get s parameter_type_mapping with
          | Some t => t
          | None => "string"
          end)
  | VList _ | VDict _ => Raise (Py.unhashable cf_type)
  | _ => Ok "string"
  end.

(** [", ".join(allowed)] *)
Definition join_allowed_values (allowed : value) : result string :=
  let fix strings (i : nat) (items : list value) : result (list string) :=
    match items with
    | [] => Ok []
    | VStr s :: rest =>
        match strings (S i) rest with
        | Ok l => Ok (s :: l)
        | Raise e => Raise e
        end
    | v :: _ =>
        Raise (TypeError ("sequence item " ++ PyStr.of_Z (Z.of_nat i)
                            ++ ": expected str instance, " ++ Py.type_name v
                            ++ " found"))
    end in
  match allowed with
  | VList items =>
      match strings 0 items with
      | Ok l => Ok (PyStr.join ", " l)
      | Raise e => Raise e
      end
  | VStr s => Ok (PyStr.join ", " (PyStr.chars s))
  | VDict d => Ok (PyStr.join ", " (PyDict.keys d))
  | _ => Raise (TypeError "can only join an iterable")
  end.

(** The loop body of [_convert_parameters]. *)
Definition convert_parameter (acc : M dict) (item : string * value) : M dict :=
  variables <- acc ;;
  let (param_name, param_config) := item in
  let variable_name := PyStr.lower param_name in
  description <-
    lift (Py.get param_config "Description"
            (VStr ("CloudFormation parameter " ++ param_name))) ;;
  cf_type <- lift (Py.get param_config "Type" (VStr "String")) ;;
  tf_type <- lift (_map_parameter_type cf_type) ;;
  let variable_def := [("description", description); ("type", VStr tf_type)] in
  has_default <- lift (Py.str_in "Default" param_config) ;;
  variable_def <-
    (if has_default : bool then
       d <- lift (Py.getitem param_config "Default") ;;
       ret (PyDict.set "default" d variable_def)
     else ret variable_def) ;;
  has_allowed <- lift (Py.str_in "AllowedValues" param_config) ;;
  variable_def <-
    (if has_allowed : bool then
       allowed <- lift (Py.getitem param_config "AllowedValues") ;;
       let condition :=
         "contains(" ++ Py.str allowed ++ ", var." ++ variable_name ++ ")" in
       joined <- lift (join_allowed_values allowed) ;;
       ret (PyDict.set "validation"
              (VDict [("condition", VStr condition);
                      ("error_message", VStr ("Value must be one of: " ++ joined))])
              variable_def)
     else ret variable_def) ;;
  ret (PyDict.set variable_name (VDict variable_def) variables).

Definition _convert_parameters (parameters : dict) : M dict :=
  fold_left convert_parameter parameters (ret []).

Definition _convert_mappings (mappings : dict) : dict :=
  fold_left (fun locals_dict item =>
               PyDict.set (PyStr.lower (fst item)) (snd item) locals_dict)
            mappings [].

Definition _convert_conditions (conditions : dict)
    (func_handler : IntrinsicFunctionHandler) : dict :=
  fold_left (fun locals_dict item =>
               PyDict.set (PyStr.lower (fst item))
                 (VStr ("# TODO: Convert condition " ++ fst item)) locals_dict)
            conditions [].

(** [output_def['description'] += suffix] *)
Definition iadd_str (description : value) (suffix : string) : result value :=
  match description with
  | VStr d => Ok (VStr (d ++ suffix))
  | VList items => Ok (VList (items ++ map VStr (PyStr.chars suffix)))
  | _ =>
      Raise (TypeError ("unsupported operand type(s) for +=: '"
                          ++ Py.type_name description ++ "' and 'str'"))
  end.

(** The loop body of [_convert_outputs]. *)
Definition convert_output (func_handler : IntrinsicFunctionHandler)
    (context : Context) (acc : M dict) (item : string * value) : M dict :=
  terraform_outputs <- acc ;;
  let (output_name, output_config) := item in
  description <-
    lift (Py.get output_config "Description"
            (VStr ("CloudFormation output " ++ output_name))) ;;
  raw <- lift (Py.get output_config "Value" VNone) ;;
  v <- process_value func_handler context raw ;;
  has_export <- lift (Py.str_in "Export" output_config) ;;
  description <-
    (if has_export : bool then
       export <- lift (Py.getitem output_config "Export") ;;
       export_name <- lift (Py.get export "Name" VNone) ;;
       if Py.truthy export_name
       then lift (iadd_str description
                    (" (exported as " ++ Py.str export_name ++ ")"))
       else ret description
     else ret description) ;;
  ret (PyDict.set (PyStr.lower output_name)
         (VDict [("description", description); ("value", v)]) terraform_outputs).

Definition _convert_outputs (outputs : dict)
    (func_handler : IntrinsicFunctionHandler) (context : Context) : M dict :=
  fold_left (convert_output func_handler context) outputs (ret []).

Definition _generate_data_sources : dict :=
  [ ("aws_region", VDict [("current", VDict [])]);
    ("aws_caller_identity", VDict [("current", VDict [])]);
    ("aws_partition", VDict [("current", VDict [])]);
    ("aws_availability_zones",
      VDict [("available", VDict [("state", VStr "available")])]) ].

End Engine.

(** In-place updates of a [ConversionResult]. *)
Definition add_error (error_msg : string) (r : ConversionResult) : ConversionResult :=
  {| terraform_config := terraform_config r; import_commands := import_commands r;
     variables := variables r; outputs := outputs r; locals := locals r;
     warnings := warnings r; errors := (errors r ++ [error_msg])%list |}.

Definition extend_converted (c : ConvertedResource) (r : ConversionResult)
  : ConversionResult :=
  {| terraform_config := terraform_config r;
     import_commands := (import_commands r ++ cr_import_commands c)%list;
     variables := variables r; outputs := outputs r; locals := locals r;
     warnings := (warnings r ++ cr_warnings c)%list; errors := errors r |}.

Definition set_variables (v : dict) (r : ConversionResult) : ConversionResult :=
  {| terraform_config := terraform_config r; import_commands := import_commands r;
     variables := v; outputs := outputs r; locals := locals r;
     warnings := warnings r; errors := errors r |}.

Definition set_outputs (o : dict) (r : ConversionResult) : ConversionResult :=
  {| terraform_config := terraform_config r; import_commands := import_commands r;
     variables := variables r; outputs := o; locals := locals r;
     warnings := warnings r; errors := errors r |}.

Definition update_locals (l : dict) (r : ConversionResult) : ConversionResult :=
  {| terraform_config := terraform_config r; import_commands := import_commands r;
     variables := variables r; outputs := outputs r;
     locals := PyDict.update (locals r) l;
     warnings := warnings r; errors := errors r |}.

Definition set_config (key : string) (v : value) (r : ConversionResult)
  : ConversionResult :=
  {| terraform_config := PyDict.set key v (terraform_config r);
     import_commands := import_commands r;
     variables := variables r; outputs := outputs r; locals := locals r;
     warnings := warnings r; errors := errors r |}.

(** What the resource loop of [convert_template] carries from one
    iteration to the next. *)
Record LoopState : Type := {
  terraform_resources : dict;
  result_so_far : ConversionResult;
  logged : list log_record
}.

(** [s.replace(old, new)]: the occurrences of [old] are replaced from
    left to right, none overlapping another; [skip] characters of the
    occurrence just replaced are still to be passed over.  An empty
    [old] matches before every character and at the end. *)
Fixpoint replace_from (old new s : string) (skip : nat) : string :=
  match s with
  | EmptyString => EmptyString
  | String c s' =>
      match skip with
      | S k => replace_from old new s' k
      | O =>
          if String.prefix old s
          then new ++ replace_from old new s' (String.length old - 1)
          else String c (replace_from old new s' 0)
      end
  end.

Fixpoint intersperse (new s : string) : string :=
  match s with
  | EmptyString => new
  | String c s' => new ++ String c (intersperse new s')
  end.

Definition str_replace (s old new : string) : string :=
  match old with
  | EmptyString => intersperse new s
  | _ => replace_from old new s 0
  end.

Section Template.
Variable self : ConversionEngine.

(** One iteration of [for logical_id, resource_config in resources.items()],
    with its own [try ... except Exception]. *)
Definition convert_resource_step (func_handler : IntrinsicFunctionHandler)
    (context : Context) (st : LoopState) (item : string * value) : LoopState :=
  let (logical_id, resource_config) := item in
  match _convert_resource self logical_id resource_config func_handler context with
  | (l, Ok (Some converted_resource)) =>
      {| terraform_resources :=
           PyDict.update (terraform_resources st) (cr_resources converted_resource);
         result_so_far := extend_converted converted_resource (result_so_far st);
         logged := (logged st ++ l)%list |}
  | (l, Ok None) =>
      {| terraform_resources := terraform_resources st;
         result_so_far := result_so_far st;
         logged := (logged st ++ l)%list |}
  | (l, Raise e) =>
      let error_msg :=
        "Failed to convert resource " ++ logical_id ++ ": " ++ exn_str e in
      {| terraform_resources := terraform_resources st;
         result_so_far := add_error error_msg (result_so_far st);
         logged := (logged st ++ l ++ [(ERROR, error_msg)])%list |}
  end.

Definition convert_resources (func_handler : IntrinsicFunctionHandler)
    (context : Context) (resources : dict) (st : LoopState) : LoopState :=
  fold_left (convert_resource_step func_handler context) resources st.

(** The statements of the outer [try] that follow the resource loop. *)
Definition after_resources (template : Template)
    (func_handler : IntrinsicFunctionHandler) (context : Context)
    (st : LoopState) : list log_record * ConversionResult * option exn :=
  let result := set_config "resource" (VDict (terraform_resources st))
                  (result_so_far st) in
  let converted_outputs :=
    match Outputs template with
    | [] => ret None
    | outs => o <- _convert_outputs outs func_handler context ;; ret (Some o)
    end in
  match converted_outputs with
  | (l, Raise e) => ((logged st ++ l)%list, result, Some e)
  | (l, Ok o) =>
      let result :=
        match o with
        | Some o => set_outputs o result
        | None => result
        end in
      let result := set_config "data" (VDict _generate_data_sources) result in
      let result :=
        match locals result with
        | [] => result
        | ls => set_config "locals" (VDict ls) result
        end in
      let completed :=
        "Template conversion completed: "
          ++ PyStr.of_Z (Z.of_nat (List.length (terraform_resources st)))
          ++ " resources converted" in
      ((logged st ++ l ++ [(INFO, completed)])%list, result, None)
  end.

(** The body of the outer [try] of [convert_template]: the log, the
    result as mutated so far, and the exception that left the block. *)
Definition convert_template_body (template : Template) (result : ConversionResult)
  : list log_record * ConversionResult * option exn :=
  let func_handler :=
    {| parameters := Parameters template; mappings := Mappings template |} in
  let converted_parameters :=
    match Parameters template with
    | [] => ret None
    | ps => v <- _convert_parameters ps ;; ret (Some v)
    end in
  match converted_parameters with
  | (l, Raise e) => (l, result, Some e)
  | (l, Ok v) =>
      let result :=
        match v with
        | Some v => set_variables v result
        | None => result
        end in
      let result :=
        match Mappings template with
        | [] => result
        | ms => update_locals (_convert_mappings ms) result
        end in
      let result :=
        match Conditions template with
        | [] => result
        | cs => update_locals (_convert_conditions cs func_handler) result
        end in
      let context :=
        {| ctx_resources := Resources template;
           ctx_parameters := Parameters template |} in
      let st :=
        convert_resources func_handler context (Resources template)
          {| terraform_resources := []; result_so_far := result; logged := l |} in
      after_resources template func_handler context st
  end.

Definition convert_template (template : Template)
  : list log_record * ConversionResult :=
  let start := (INFO, "Converting CloudFormation template to Terraform") in
  match convert_template_body template new_result with
  | (l, result, None) => (start :: l, result)
  | (l, result, Some e) =>
      let error_msg := "Template conversion failed: " ++ exn_str e in
      ((start :: l ++ [(ERROR, error_msg)])%list, add_error error_msg result)
  end.

(** The loop body of [convert_resource]:
    [if 'PHYSICAL_ID' in cmd: result.import_commands[i] = cmd.replace(...)]. *)
Definition add_physical_id (physical_id cmd : string) : string :=
  if PyStr.contains "PHYSICAL_ID" cmd
  then str_replace cmd "PHYSICAL_ID" physical_id
  else cmd.

(** [convert_resource]; [physical_id] is [None] by default.  The first
    log record evaluates [resource_config.get] outside the [try]. *)
Definition convert_resource (logical_id : string) (resource_config : value)
    (physical_id : option string) : M ConversionResult :=
  cf_type <- lift (Py.get resource_config "Type" (VStr "Unknown")) ;;
  log INFO ("Converting resource: " ++ logical_id ++ " (" ++ Py.str cf_type ++ ")")
    (let func_handler := {| parameters := []; mappings := [] |} in
     match _convert_resource self logical_id resource_config func_handler
             empty_context with
     | (l, Ok (Some converted)) =>
         let commands := cr_import_commands converted in
         (l, Ok {| terraform_config :=
                     [("resource", VDict (cr_resources converted))];
                   import_commands :=
                     match physical_id, commands with
                     | Some id, _ :: _ =>
                         if negb (String.eqb id EmptyString)
                         then map (add_physical_id id) commands
                         else commands
                     | _, _ => commands
                     end;
                   variables := []; outputs := []; locals := [];
                   warnings := cr_warnings converted;
                   errors := [] |})
     | (l, Ok None) => (l, Ok new_result)
     | (l, Raise e) =>
         let error_msg := "Resource conversion failed: " ++ exn_str e in
         ((l ++ [(ERROR, error_msg)])%list, Ok (add_error error_msg new_result))
     end).

End Template.

(* ================================================================== *)
(** ** imports.py: ImportManager (executor) *)
(* ================================================================== *)

(** The process environment the executor acts on.  A child process cannot
    change the working directory of its parent, and running [terraform]
    is taken not to remove directories: [subprocess_run] below only
    consults the oracle [terraform] and extends the trace [executed].
    Paths are absolute and are compared as written; every file can be
    read; a new entry can be made in a directory unless the directory
    is listed in [unwritable], and the name of a backup copy is taken to
    be free or to name a file that can be replaced.  Wall-clock
    durations ([execution_time], [total_time]) are not modelled. *)
Module Imports.

(** How [subprocess.run] ends. *)
Inductive process_outcome : Type :=
| Completed (returncode : Z) (stdout stderr : string)
| TimeoutExpired
| RunError (e : exn).

Record World : Type := {
  cwd : string;
  directories : list string;
  files : list (string * string);
  unwritable : list string;
  terraform : string -> nat -> process_outcome;
  executed : list string;
  timestamp : string;
  log_records : list log_record
}.

(** Commands that act on the environment and may raise. *)
Definition IO (A : Type) : Type := World -> World * result A.

Definition io_ret {A} (a : A) : IO A := fun w => (w, Ok a).
Definition io_raise {A} (e : exn) : IO A := fun w => (w, Raise e).
Definition io_bind {A B} (m : IO A) (f : A -> IO B) : IO B :=
  fun w =>
    match m w with
    | (w', Ok a) => f a w'
    | (w', Raise e) => (w', Raise e)
    end.

Notation "x <~ m ;; k" := (io_bind m (fun x => k))
  (at level 61, m at next level, right associativity).

Definition set_cwd (d : string) (w : World) : World :=
  {| cwd := d; directories := directories w; files := files w;
     unwritable := unwritable w; terraform := terraform w;
     executed := executed w; timestamp := timestamp w;
     log_records := log_records w |}.

Definition add_directory (d : string) (w : World) : World :=
  {| cwd := cwd w; directories := (directories w ++ [d])%list; files := files w;
     unwritable := unwritable w; terraform := terraform w;
     executed := executed w; timestamp := timestamp w;
     log_records := log_records w |}.

Definition write_file (path content : string) (w : World) : World :=
  {| cwd := cwd w; directories := directories w;
     files := PyDict.set path content (files w);
     unwritable := unwritable w; terraform := terraform w;
     executed := executed w; timestamp := timestamp w;
     log_records := log_records w |}.

Definition add_executed (command : string) (w : World) : World :=
  {| cwd := cwd w; directories := directories w; files := files w;
     unwritable := unwritable w; terraform := terraform w;
     executed := (executed w ++ [command])%list; timestamp := timestamp w;
     log_records := log_records w |}.

(** [logger.<level>(msg)] *)
Definition logger (lvl : log_level) (msg : string) : IO unit :=
  fun w =>
    ({| cwd := cwd w; directories := directories w; files := files w;
        unwritable := unwritable w; terraform := terraform w;
        executed := executed w; timestamp := timestamp w;
        log_records := (log_records w ++ [(lvl, msg)])%list |}, Ok tt).

Definition is_dir (d : string) (w : World) : bool :=
  existsb (String.eqb d) (directories w).

Definition is_file (p : string) (w : World) : bool :=
  PyDict.mem p (files w).

(** [Path.exists()] *)
Definition path_exists (p : string) (w : World) : bool :=
  is_file p w || is_dir p w.

Definition no_such_file (p : string) : exn :=
  FileNotFoundError ("[Errno 2] No such file or directory: '" ++ p ++ "'").

Definition permission_denied (p : string) : exn :=
  OSError ("[Errno 13] Permission denied: '" ++ p ++ "'").

Definition file_exists (p : string) : exn :=
  OSError ("[Errno 17] File exists: '" ++ p ++ "'").

Definition is_a_directory (p : string) : exn :=
  OSError ("[Errno 21] Is a directory: '" ++ p ++ "'").

Definition not_a_directory (p : string) : exn :=
  OSError ("[Errno 20] Not a directory: '" ++ p ++ "'").

(** [os.getcwd()] *)
Definition getcwd : IO string :=
  fun w => if is_dir (cwd w) w then (w, Ok (cwd w))
           else (w, Raise (no_such_file (cwd w))).

(** [os.chdir(d)] *)
Definition chdir (d : string) : IO unit :=
  fun w => if is_dir d w then (set_cwd d w, Ok tt)
           else (w, Raise (no_such_file d)).

(** [subprocess.run(command.split(), capture_output=True, text=True,
    timeout=...)]: the oracle is asked for the outcome of this run of
    [command], given how many times it ran before. *)
Definition subprocess_run (command : string) : World -> World * process_outcome :=
  fun w =>
    let earlier := count_occ string_dec (executed w) command in
    (add_executed command w, terraform w command earlier).

Record ImportResult : Type := {
  resource_address : string;
  resource_id : string;
  success : bool;
  error_message : option string;
  retry_count : Z
}.

Record ImportSummary : Type := {
  total_imports : Z;
  successful_imports : Z;
  failed_imports : Z;
  results : list ImportResult;
  errors : list string
}.

(** [ImportSummary()] *)
Definition new_summary : ImportSummary :=
  {| total_imports := 0; successful_imports := 0; failed_imports := 0;
     results := []; errors := [] |}.

Record ImportManager : Type := {
  terraform_dir : string;
  parallel : bool;
  max_workers : Z;
  timeout : Z;
  retry_failed : bool;
  max_retries : Z;
  create_backup : bool
}.

(** An entry of the list [_parse_import_script] returns. *)
Record ImportCommand : Type := {
  command : string;
  address : string;
  id : string
}.

(** The dictionary [_execute_terraform_command] returns. *)
Record ProcessResult : Type := {
  returncode : Z;
  stdout : string;
  stderr : string;
  pr_command : string
}.

(** [s.strip()], [s.split(' ', n)] and the lines of a file. *)
Definition is_space (c : ascii) : bool :=
  let n := nat_of_ascii c in
  (((9 <=? n) && (n <=? 13)) || ((28 <=? n) && (n <=? 32)))%nat.

Fixpoint lstrip (s : string) : string :=
  match s with
  | EmptyString => EmptyString
  | String c s' => if is_space c then lstrip s' else s
  end.

Fixpoint rstrip (s : string) : string :=
  match s with
  | EmptyString => EmptyString
  | String c s' =>
      match rstrip s' with
      | EmptyString => if is_space c then EmptyString else String c EmptyString
      | rest => String c rest
      end
  end.

Definition strip (s : string) : string := rstrip (lstrip s).

(** [s.split(' ', maxsplit)] *)
Fixpoint split_space (maxsplit : nat) (s : string) : list string :=
  match s with
  | EmptyString => [EmptyString]
  | String c s' =>
      if Ascii.eqb c " "%char then
        match maxsplit with
        | O => [s]
        | S n => EmptyString :: split_space n s'
        end
      else
        match split_space maxsplit s' with
        | part :: parts => String c part :: parts
        | [] => [String c EmptyString]
        end
  end.

(** [f.readlines()] of a file opened in text mode: a line ends with a
    line feed, with a carriage return, or with the two in this order,
    and each of these endings is read as a line feed. *)
Definition LF : ascii := ascii_of_nat 10.
Definition CR : ascii := ascii_of_nat 13.

Fixpoint readlines (text : string) : list string :=
  match text with
  | EmptyString => []
  | String c text' =>
      if Ascii.eqb c LF then String LF EmptyString :: readlines text'
      else if Ascii.eqb c CR then
        match text' with
        | String c' rest =>
            if Ascii.eqb c' LF then String LF EmptyString :: readlines rest
            else String LF EmptyString :: readlines text'
        | EmptyString => [String LF EmptyString]
        end
      else
        match readlines text' with
        | line :: lines => String c line :: lines
        | [] => [String c EmptyString]
        end
  end.

Section Manager.
Variable self : ImportManager.

(** The [finally] clause of [_execute_terraform_command], followed by
    what the [try] statement was about to do. *)
Definition finally_restore {A} (original_cwd : string) (pending : result A) : IO A :=
  fun w =>
    match chdir original_cwd w with
    | (w', Ok _) => (w', pending)
    | (w', Raise e) => (w', Raise e)
    end.

Definition execution_failed (command : string) (e : exn) : exn :=
  ExceptionMsg ("Failed to execute command '" ++ command ++ "': " ++ exn_str e).

Definition _execute_terraform_command (command : string) : IO ProcessResult :=
  fun w =>
    match getcwd w with
    | (w0, Raise e) =>
        (* [original_cwd] was never bound: the [finally] clause raises. *)
        (w0, Raise (UnboundLocalError
                      ("cannot access local variable 'original_cwd' "
                         ++ "where it is not associated with a value")))
    | (w0, Ok original_cwd) =>
        match chdir (terraform_dir self) w0 with
        | (w1, Raise e) =>
            finally_restore original_cwd (Raise (execution_failed command e)) w1
        | (w1, Ok _) =>
            match subprocess_run command w1 with
            | (w2, Completed rc out err) =>
                finally_restore original_cwd
                  (Ok {| returncode := rc; stdout := out; stderr := err;
                         pr_command := command |}) w2
            | (w2, TimeoutExpired) =>
                finally_restore original_cwd
                  (Raise (ExceptionMsg
                            ("Command timed out after " ++ PyStr.of_Z (timeout self)
                               ++ " seconds: " ++ command))) w2
            | (w2, RunError e) =>
                finally_restore original_cwd
                  (Raise (execution_failed command e)) w2
            end
        end
    end.

Definition _execute_single_import (cmd_info : ImportCommand) (retry : Z)
  : World -> World * ImportResult :=
  fun w =>
    match _execute_terraform_command (command cmd_info) w with
    | (w', Ok process_result) =>
        if Z.eqb (returncode process_result) 0 then
          (fst (logger DEBUG ("Successfully imported " ++ address cmd_info) w'),
           {| resource_address := address cmd_info; resource_id := id cmd_info;
              success := true; error_message := None; retry_count := retry |})
        else
          (fst (logger WARNING
                  ("Failed to import " ++ address cmd_info ++ ": "
                     ++ stderr process_result) w'),
           {| resource_address := address cmd_info; resource_id := id cmd_info;
              success := false; error_message := Some (stderr process_result);
              retry_count := retry |})
    | (w', Raise e) =>
        (fst (logger ERROR ("Exception during import: " ++ exn_str e) w'),
         {| resource_address := address cmd_info; resource_id := id cmd_info;
            success := false; error_message := Some (exn_str e);
            retry_count := retry |})
    end.

(** Updates of the summary the loops make. *)
Definition record_result (r : ImportResult) (s : ImportSummary) : ImportSummary :=
  {| total_imports := total_imports s;
     successful_imports :=
       if success r then successful_imports s + 1 else successful_imports s;
     failed_imports :=
       if success r then failed_imports s else failed_imports s + 1;
     results := (results s ++ [r])%list;
     errors := errors s |}.

Definition record_retry (r : ImportResult) (s : ImportSummary) : ImportSummary :=
  {| total_imports := total_imports s;
     successful_imports :=
       if success r then successful_imports s + 1 else successful_imports s;
     failed_imports :=
       if success r then failed_imports s - 1 else failed_imports s + 1;
     results := (results s ++ [r])%list;
     errors := errors s |}.

(** One iteration of the loop of [_execute_sequential_imports].  The
    [except] clause of the loop body is never entered:
    [_execute_single_import] catches every exception itself. *)
Definition sequential_step (acc : World * ImportSummary) (cmd_info : ImportCommand)
  : World * ImportSummary :=
  let (w, summary) := acc in
  let (w, result) := _execute_single_import cmd_info 0 w in
  let summary := record_result result summary in
  if success result then (w, summary)
  else if retry_failed self && Z.ltb (retry_count result) (max_retries self) then
    let w := fst (logger INFO ("Retrying import for " ++ resource_address result) w) in
    let (w, retry_result) :=
      _execute_single_import cmd_info (retry_count result + 1) w in
    (w, record_retry retry_result summary)
  else (w, summary).

Definition with_total (n : nat) (s : ImportSummary) : ImportSummary :=
  {| total_imports := Z.of_nat n; successful_imports := successful_imports s;
     failed_imports := failed_imports s; results := results s;
     errors := errors s |}.

Definition _execute_sequential_imports (import_commands : list ImportCommand)
  : World -> World * ImportSummary :=
  fun w =>
    fold_left sequential_step import_commands
      (w, with_total (List.length import_commands) new_summary).

(** The worker threads of [_execute_parallel_imports] share the
    process's working directory, the processes run and the log, and
    their calls of [_execute_single_import] interleave.  A task is a call
    in progress; each step of it below is one access to what is shared:
    [os.getcwd()], [os.chdir(self.terraform_dir)], [subprocess.run(...)],
    the [finally] clause, and the log record with which the call
    returns its result. *)
Inductive Task : Type :=
| Queued
| Entered (original_cwd : string)
| Changed (original_cwd : string)
| Leaving (original_cwd : string) (pending : result ProcessResult)
| Returned (outcome : result ProcessResult)
| Finished (result : ImportResult).

(** What [_execute_single_import] does once [_execute_terraform_command]
    has returned or raised. *)
Definition report (cmd_info : ImportCommand) (retry : Z)
    (outcome : result ProcessResult) : World -> World * ImportResult :=
  fun w' =>
    match outcome with
    | Ok process_result =>
        if Z.eqb (returncode process_result) 0 then
          (fst (logger DEBUG ("Successfully imported " ++ address cmd_info) w'),
           {| resource_address := address cmd_info; resource_id := id cmd_info;
              success := true; error_message := None; retry_count := retry |})
        else
          (fst (logger WARNING
                  ("Failed to import " ++ address cmd_info ++ ": "
                     ++ stderr process_result) w'),
           {| resource_address := address cmd_info; resource_id := id cmd_info;
              success := false; error_message := Some (stderr process_result);
              retry_count := retry |})
    | Raise e =>
        (fst (logger ERROR ("Exception during import: " ++ exn_str e) w'),
         {| resource_address := address cmd_info; resource_id := id cmd_info;
            success := false; error_message := Some (exn_str e);
            retry_count := retry |})
    end.

Definition task_step (cmd_info : ImportCommand) (task : Task)
  : World -> World * Task :=
  fun w =>
    match task with
    | Queued =>
        match getcwd w with
        | (w0, Ok original_cwd) => (w0, Entered original_cwd)
        | (w0, Raise _) =>
            (w0, Returned
                   (Raise (UnboundLocalError
                             ("cannot access local variable 'original_cwd' "
                                ++ "where it is not associated with a value"))))
        end
    | Entered original_cwd =>
        match chdir (terraform_dir self) w with
        | (w1, Ok _) => (w1, Changed original_cwd)
        | (w1, Raise e) =>
            (w1, Leaving original_cwd
                   (Raise (execution_failed (command cmd_info) e)))
        end
    | Changed original_cwd =>
        match subprocess_run (command cmd_info) w with
        | (w2, Completed rc out err) =>
            (w2, Leaving original_cwd
                   (Ok {| returncode := rc; stdout := out; stderr := err;
                          pr_command := command cmd_info |}))
        | (w2, TimeoutExpired) =>
            (w2, Leaving original_cwd
                   (Raise (ExceptionMsg
                             ("Command timed out after " ++ PyStr.of_Z (timeout self)
                                ++ " seconds: " ++ command cmd_info))))
        | (w2, RunError e) =>
            (w2, Leaving original_cwd
                   (Raise (execution_failed (command cmd_info) e)))
        end
    | Leaving original_cwd pending =>
        let (w3, outcome) := finally_restore original_cwd pending w in
        (w3, Returned outcome)
    | Returned outcome =>
        let (w4, result) := report cmd_info 0 outcome w in
        (w4, Finished result)
    | Finished result => (w, Finished result)
    end.

Definition unfinished (task : Task) : bool :=
  match task with
  | Finished _ => false
  | _ => true
  end.

(** The executor hands the tasks to its workers in the order of their
    submission and has at most [workers] of them in hand: the task [i]
    can take its first step when fewer than [workers] of the tasks
    before it are unfinished. *)
Definition runnable (workers : nat) (tasks : list Task) (i : nat) : bool :=
  match nth_error tasks i with
  | None => false
  | Some (Finished _) => false
  | Some Queued =>
      (List.length (filter unfinished (firstn i tasks)) <? workers)%nat
  | Some _ => true
  end.

(** [tasks[i] = task] *)
Fixpoint set_nth (i : nat) (task : Task) (tasks : list Task) : list Task :=
  match tasks, i with
  | [], _ => []
  | _ :: rest, O => task :: rest
  | first :: rest, S i' => first :: set_nth i' task rest
  end.

(** The next step of the task [i], if it can take one. *)
Definition pool_step (workers : nat) (import_commands : list ImportCommand)
    (acc : World * list Task) (i : nat) : World * list Task :=
  let (w, tasks) := acc in
  if runnable workers tasks i then
    match nth_error import_commands i, nth_error tasks i with
    | Some cmd_info, Some task =>
        let (w', task') := task_step cmd_info task w in
        (w', set_nth i task' tasks)
    | _, _ => acc
    end
  else acc.

(** How a run of the pool goes: [steps] names, one after the other, the
    task that takes its next step (a task that cannot is passed over),
    and [collected] lists the tasks in the order in which [as_completed]
    yields their futures (what is no task, or is listed before, is
    passed over; the tasks not listed follow in the order of
    submission). *)
Record Scheduling : Type := {
  steps : list nat;
  collected : list nat
}.

(** Leaving the [with] block waits for every task: after [steps], the
    tasks still unfinished run to their end, in the order of
    submission. *)
Definition completing (n : nat) : list nat :=
  flat_map (fun i => repeat i 5) (seq 0 n).

Definition results_of (tasks : list Task) : list ImportResult :=
  flat_map (fun task => match task with
                        | Finished result => [result]
                        | _ => []
                        end) tasks.

Definition collection_order (collected : list nat) (n : nat) : list nat :=
  let listed := nodup Nat.eq_dec (filter (fun i => (i <? n)%nat) collected) in
  (listed ++ filter (fun i => negb (existsb (Nat.eqb i) listed)) (seq 0 n))%list.

Definition as_completed (collected : list nat) (futures : list ImportResult)
  : list ImportResult :=
  flat_map (fun i => match nth_error futures i with
                     | Some result => [result]
                     | None => []
                     end)
    (collection_order collected (List.length futures)).

(** [ThreadPoolExecutor(max_workers=...)] raises [ValueError] unless
    [max_workers] is positive; [future.result()] cannot raise, since
    [_execute_single_import] catches every exception itself, so the
    [except] clause of the collecting loop is never entered. *)
Definition _execute_parallel_imports (import_commands : list ImportCommand)
    (scheduling : Scheduling) : World -> World * result ImportSummary :=
  fun w =>
    if (max_workers self <=? 0)%Z
    then (w, Raise (ValueError "max_workers must be greater than 0"))
    else
      let n := List.length import_commands in
      let (w', tasks) :=
        fold_left (pool_step (Z.to_nat (max_workers self)) import_commands)
          (steps scheduling ++ completing n)%list (w, repeat Queued n) in
      (w', Ok (fold_left (fun summary result => record_result result summary)
                 (as_completed (collected scheduling) (results_of tasks))
                 (with_total n new_summary))).

(** [self.terraform_dir / name] *)
Definition in_terraform_dir (name : string) : string :=
  terraform_dir self ++ "/" ++ name.

(** [backup_dir.mkdir(exist_ok=True)]: an existing directory is left
    as it is; a file of that name makes it raise [FileExistsError], a
    parent that is a file [NotADirectoryError], a missing parent
    [FileNotFoundError]. *)
Definition mkdir_exist_ok (d parent : string) : IO unit :=
  fun w =>
    if is_dir d w then (w, Ok tt)
    else if is_file d w then (w, Raise (file_exists d))
    else if is_dir parent w then
      if existsb (String.eqb parent) (unwritable w)
      then (w, Raise (permission_denied d))
      else (add_directory d w, Ok tt)
    else if is_file parent w then (w, Raise (not_a_directory d))
    else (w, Raise (no_such_file d)).

(** [shutil.copy2(src, dst)] into the directory [dst_dir]. *)
Definition copy2 (src dst dst_dir : string) : IO unit :=
  fun w =>
    match PyDict.get src (files w) with
    | None =>
        if is_dir src w then (w, Raise (is_a_directory src))
        else (w, Raise (no_such_file src))
    | Some content =>
        if existsb (String.eqb dst_dir) (unwritable w)
        then (w, Raise (permission_denied dst))
        else (write_file dst content w, Ok tt)
    end.

(** The loop body of [_create_state_backup]. *)
Definition backup_state_file (backup_dir state_file : string) : IO unit :=
  fun w =>
    let state_path := in_terraform_dir state_file in
    if path_exists state_path w then
      let backup_path := backup_dir ++ "/" ++ state_file ++ "." ++ timestamp w in
      (_ <~ copy2 state_path backup_path backup_dir ;;
       logger INFO ("Created state backup: " ++ backup_path)) w
    else (w, Ok tt).

Definition _create_state_backup : IO unit :=
  let backup_dir := in_terraform_dir "state_backups" in
  _ <~ mkdir_exist_ok backup_dir (terraform_dir self) ;;
  _ <~ backup_state_file backup_dir "terraform.tfstate" ;;
  backup_state_file backup_dir "terraform.tfstate.backup".

(** The loop body of [_parse_import_script]. *)
Definition parse_line (line : string) : list ImportCommand :=
  let line := strip line in
  if PyStr.startswith line "terraform import " then
    match split_space 3 line with
    | _ :: _ :: resource_address :: more =>
        [{| command := line; address := resource_address;
            id := match more with
                  | resource_id :: _ => resource_id
                  | [] => EmptyString
                  end |}]
    | _ => []
    end
  else [].

Definition _parse_import_script (script_path : string) : IO (list ImportCommand) :=
  fun w =>
    match PyDict.get script_path (files w) with
    | Some text => (w, Ok (flat_map parse_line (readlines text)))
    | None =>
        if is_dir script_path w then (w, Raise (is_a_directory script_path))
        else (w, Raise (no_such_file script_path))
    end.

(** [execute_import_script]; [scheduling] gives the run of the worker
    pool for the commands of the script.  [summary] is the local variable
    of that name: the [except] clause adds its message to the summary as
    it stands when the exception arrives. *)
Definition execute_import_script (import_script : string)
    (scheduling : list ImportCommand -> Scheduling) : IO ImportSummary :=
  _ <~ logger INFO ("Executing import script: " ++ import_script) ;;
  fun w =>
    if negb (path_exists import_script w) then
      (w, Raise (FileNotFoundError ("Import script not found: " ++ import_script)))
    else
      (_ <~ (if create_backup self then _create_state_backup else io_ret tt) ;;
       fun w =>
         let failed (summary : ImportSummary) (e : exn) : IO ImportSummary :=
           let error_msg := "Import script execution failed: " ++ exn_str e in
           _ <~ logger ERROR error_msg ;;
           io_ret {| total_imports := total_imports summary;
                     successful_imports := successful_imports summary;
                     failed_imports := failed_imports summary;
                     results := results summary;
                     errors := (errors summary ++ [error_msg])%list |} in
         let completed (summary : ImportSummary) : IO ImportSummary :=
           _ <~ logger INFO
                  ("Import execution completed: "
                     ++ PyStr.of_Z (successful_imports summary) ++ "/"
                     ++ PyStr.of_Z (total_imports summary) ++ " successful") ;;
           io_ret summary in
         match _parse_import_script import_script w with
         | (w, Ok import_commands) =>
             let summary := with_total (List.length import_commands) new_summary in
             if parallel self && (1 <? List.length import_commands)%nat then
               match _execute_parallel_imports import_commands
                       (scheduling import_commands) w with
               | (w, Ok summary) => completed summary w
               | (w, Raise e) => failed summary e w
               end
             else
               let (w, summary) := _execute_sequential_imports import_commands w in
               completed summary w
         | (w, Raise e) => failed new_summary e w
         end) w.

(** [import_resource]; the optional [resource_type] is not used. *)
Definition import_resource (resource_address resource_id : string)
  : World -> World * ImportResult :=
  fun w =>
    let w := fst (logger DEBUG ("Importing resource: " ++ resource_address
                                  ++ " -> " ++ resource_id) w) in
    let import_cmd := "terraform import " ++ resource_address ++ " " ++ resource_id in
    match _execute_terraform_command import_cmd w with
    | (w', Ok process_result) =>
        if Z.eqb (returncode process_result) 0 then
          (fst (logger DEBUG ("Successfully imported " ++ resource_address) w'),
           {| resource_address := resource_address; resource_id := resource_id;
              success := true; error_message := None; retry_count := 0 |})
        else
          (fst (logger WARNING
                  ("Failed to import " ++ resource_address ++ ": "
                     ++ stderr process_result) w'),
           {| resource_address := resource_address; resource_id := resource_id;
              success := false; error_message := Some (stderr process_result);
              retry_count := 0 |})
    | (w', Raise e) =>
        (fst (logger ERROR ("Exception during import of " ++ resource_address
                              ++ ": " ++ exn_str e) w'),
         {| resource_address := resource_address; resource_id := resource_id;
            success := false; error_message := Some (exn_str e);
            retry_count := 0 |})
    end.

End Manager.

Definition IMPORT_TEMPLATES : list (string * string) :=
  [ ("aws_instance", "terraform import {address} {id}");
    ("aws_vpc", "terraform import {address} {id}");
    ("aws_subnet", "terraform import {address} {id}");
    ("aws_security_group", "terraform import {address} {id}");
    ("aws_security_group_rule", "terraform import {address} {id}");
    ("aws_internet_gateway", "terraform import {address} {id}");
    ("aws_internet_gateway_attachment", "terraform import {address} {vpc_id}/{igw_id}");
    ("aws_route_table", "terraform import {address} {id}");
    ("aws_route", "terraform import {address} {route_table_id}_{destination}");
    ("aws_route_table_association", "terraform import {address} {subnet_id}/{route_table_id}");
    ("aws_nat_gateway", "terraform import {address} {id}");
    ("aws_eip", "terraform import {address} {id}");
    ("aws_eip_association", "terraform import {address} {id}");
    ("aws_network_interface", "terraform import {address} {id}");
    ("aws_network_interface_attachment", "terraform import {address} {eni_id}:{instance_id}");
    ("aws_elb", "terraform import {address} {id}");
    ("aws_lb", "terraform import {address} {arn}");
    ("aws_lb_target_group", "terraform import {address} {arn}");
    ("aws_lb_listener", "terraform import {address} {arn}");
    ("aws_lb_listener_rule", "terraform import {address} {arn}");
    ("aws_s3_bucket", "terraform import {address} {id}");
    ("aws_s3_bucket_policy", "terraform import {address} {id}");
    ("aws_s3_bucket_notification", "terraform import {address} {id}");
    ("aws_ebs_volume", "terraform import {address} {id}");
    ("aws_volume_attachment", "terraform import {address} {device_name}:{volume_id}:{instance_id}");
    ("aws_efs_file_system", "terraform import {address} {id}");
    ("aws_efs_mount_target", "terraform import {address} {id}");
    ("aws_db_instance", "terraform import {address} {id}");
    ("aws_rds_cluster", "terraform import {address} {id}");
    ("aws_db_subnet_group", "terraform import {address} {id}");
    ("aws_db_parameter_group", "terraform import {address} {id}");
    ("aws_rds_cluster_parameter_group", "terraform import {address} {id}");
    ("aws_dynamodb_table", "terraform import {address} {id}");
    ("aws_elasticache_cluster", "terraform import {address} {id}");
    ("aws_elasticache_replication_group", "terraform import {address} {id}");
    ("aws_elasticache_subnet_group", "terraform import {address} {id}");
    ("aws_iam_role", "terraform import {address} {id}");
    ("aws_iam_policy", "terraform import {address} {arn}");
    ("aws_iam_user", "terraform import {address} {id}");
    ("aws_iam_group", "terraform import {address} {id}");
    ("aws_iam_instance_profile", "terraform import {address} {id}");
    ("aws_iam_role_policy_attachment", "terraform import {address} {role_name}/{policy_arn}");
    ("aws_iam_user_policy_attachment", "terraform import {address} {user_name}/{policy_arn}");
    ("aws_iam_group_policy_attachment", "terraform import {address} {group_name}/{policy_arn}");
    ("aws_route53_zone", "terraform import {address} {id}");
    ("aws_route53_record", "terraform import {address} {zone_id}_{name}_{type}");
    ("aws_cloudfront_distribution", "terraform import {address} {id}");
    ("aws_cloudfront_origin_access_identity", "terraform import {address} {id}");
    ("aws_api_gateway_rest_api", "terraform import {address} {id}");
    ("aws_api_gateway_resource", "terraform import {address} {rest_api_id}/{id}");
    ("aws_api_gateway_method", "terraform import {address} {rest_api_id}/{resource_id}/{http_method}");
    ("aws_api_gateway_deployment", "terraform import {address} {rest_api_id}/{id}");
    ("aws_api_gateway_stage", "terraform import {address} {rest_api_id}/{stage_name}");
    ("aws_sns_topic", "terraform import {address} {arn}");
    ("aws_sns_topic_subscription", "terraform import {address} {arn}");
    ("aws_sqs_queue", "terraform import {address} {url}");
    ("aws_cloudwatch_metric_alarm", "terraform import {address} {id}");
    ("aws_cloudwatch_dashboard", "terraform import {address} {id}");
    ("aws_cloudwatch_log_group", "terraform import {address} {id}");
    ("aws_cloudwatch_log_stream", "terraform import {address} {log_group_name}:{log_stream_name}");
    ("aws_kms_key", "terraform import {address} {id}");
    ("aws_kms_alias", "terraform import {address} {name}");
    ("aws_secretsmanager_secret", "terraform import {address} {arn}");
    ("aws_secretsmanager_secret_version", "terraform import {address} {arn}|{version_id}");
    ("aws_lambda_function", "terraform import {address} {id}");
    ("aws_lambda_permission", "terraform import {address} {function_name}/{statement_id}");
    ("aws_lambda_alias", "terraform import {address} {function_name}:{name}");
    ("aws_lambda_version", "terraform import {address} {function_name}:{version}");
    ("aws_autoscaling_group", "terraform import {address} {id}");
    ("aws_launch_configuration", "terraform import {address} {id}");
    ("aws_launch_template", "terraform import {address} {id}");
    ("aws_ecs_cluster", "terraform import {address} {id}");
    ("aws_ecs_service", "terraform import {address} {cluster}/{service}");
    ("aws_ecs_task_definition", "terraform import {address} {arn}") ].

Definition io_lift {A} (r : result A) : IO A := fun w => (w, r).

(** [template.format(...)], the keyword arguments in [kwargs], for a template made of literal text and
    replacement fields [{name}], as those of [IMPORT_TEMPLATES] all are:
    the fields are filled from left to right, the first name missing
    from [kwargs] raises [KeyError].  [field] is the part read so far of
    the field name, once the scan is inside a field.  A field left open
    makes [format] raise [ValueError]; no template of the table has
    one. *)
Fixpoint format_from (template : string) (kwargs : dict) (field : option string)
  : result string :=
  match template with
  | EmptyString =>
      match field with
      | None => Ok EmptyString
      | Some _ => Raise (ValueError "expected '}' before end of string")
      end
  | String c template' =>
      match field with
      | None =>
          if Ascii.eqb c "{"%char then format_from template' kwargs (Some EmptyString)
          else
            match format_from template' kwargs None with
            | Ok rest => Ok (String c rest)
            | Raise e => Raise e
            end
      | Some name =>
          if Ascii.eqb c "}"%char then
            match PyDict.get name kwargs with
            | Some v =>
                match format_from template' kwargs None with
                | Ok rest => Ok (Py.str v ++ rest)
                | Raise e => Raise e
                end
            | None => Raise (KeyError name)
            end
          else format_from template' kwargs (Some (name ++ String c EmptyString))
      end
  end.

Definition format (template : string) (kwargs : dict) : result string :=
  format_from template kwargs None.

(** [resource_info.get(key, default)] on a dictionary. *)
Definition info_get (resource_info : dict) (key : string) (default : value) : value :=
  match PyDict.get key resource_info with
  | Some v => v
  | None => default
  end.

(** [_generate_compound_import_command]: no [value] has an attribute
    [resource_id], so the dictionary branch is the one taken. *)
Definition _generate_compound_import_command (terraform_type : string)
    (resource_info : value) : IO (option string) :=
  let resource_id :=
    match resource_info with
    | VDict d => info_get d "resource_id" (VStr EmptyString)
    | _ => VStr EmptyString
    end in
  let properties :=
    match resource_info with
    | VDict d => info_get d "properties" (VDict [])
    | _ => VDict []
    end in
  if String.eqb terraform_type "aws_internet_gateway_attachment" then
    vpc_id <~ io_lift (Py.get properties "VpcId" (VStr EmptyString)) ;;
    igw_id <~ io_lift (Py.get properties "InternetGatewayId" resource_id) ;;
    if Py.truthy vpc_id && Py.truthy igw_id then
      name <~ io_lift (Py.lower resource_id) ;;
      io_ret (Some ("terraform import aws_internet_gateway_attachment." ++ name
                      ++ " " ++ Py.str vpc_id ++ "/" ++ Py.str igw_id))
    else io_ret None
  else if String.eqb terraform_type "aws_route_table_association" then
    subnet_id <~ io_lift (Py.get properties "SubnetId" (VStr EmptyString)) ;;
    route_table_id <~ io_lift (Py.get properties "RouteTableId" (VStr EmptyString)) ;;
    if Py.truthy subnet_id && Py.truthy route_table_id then
      name <~ io_lift (Py.lower resource_id) ;;
      io_ret (Some ("terraform import aws_route_table_association." ++ name
                      ++ " " ++ Py.str subnet_id ++ "/" ++ Py.str route_table_id))
    else io_ret None
  else io_ret None.

(** [_generate_import_command]: no [value] has an attribute
    [resource_type] or [arn], so a dictionary is read with [get] and
    anything else yields [None]. *)
Definition _generate_import_command (resource_info : value) : IO (option string) :=
  match resource_info with
  | VDict d =>
      let resource_type := info_get d "resource_type" (VStr EmptyString) in
      let resource_id := info_get d "resource_id" (VStr EmptyString) in
      let logical_id := info_get d "logical_id" (VStr EmptyString) in
      if negb (Py.truthy resource_type) || negb (Py.truthy resource_id)
      then io_ret None
      else
        terraform_type <~ io_lift (ResourceMapper.get_terraform_type resource_type) ;;
        match terraform_type with
        | None =>
            _ <~ logger WARNING ("No Terraform mapping for resource type: "
                                   ++ Py.str resource_type) ;;
            io_ret None
        | Some terraform_type =>
            match PyDict.get terraform_type IMPORT_TEMPLATES with
            | None =>
                _ <~ logger WARNING ("No import template for Terraform type: "
                                       ++ terraform_type) ;;
                io_ret None
            | Some import_template =>
                resource_name <~
                  io_lift (if Py.truthy logical_id then Py.lower logical_id
                           else Py.lower resource_id) ;;
                let resource_address := terraform_type ++ "." ++ resource_name in
                if existsb (String.eqb terraform_type)
                     ["aws_internet_gateway_attachment"; "aws_route_table_association"]
                then _generate_compound_import_command terraform_type resource_info
                else
                  let arn := info_get d "arn" resource_id in
                  let name := info_get d "name" resource_id in
                  match format import_template
                          [("address", VStr resource_address); ("id", resource_id);
                           ("arn", arn); ("name", name)] with
                  | Ok import_cmd => io_ret (Some import_cmd)
                  | Raise (KeyError k) =>
                      _ <~ logger WARNING
                             ("Missing parameter for import template: "
                                ++ exn_str (KeyError k)) ;;
                      io_ret (Some ("terraform import " ++ resource_address ++ " "
                                      ++ Py.str resource_id))
                  | Raise e => io_raise e
                  end
            end
        end
  | _ => io_ret None
  end.

End Imports.

(* ================================================================== *)
(** * Vocabulary of the properties *)
(* ================================================================== *)

Unset Implicit Arguments.

(** The ten names [_handle_intrinsic_function] dispatches on. *)
Definition intrinsic_functions : list string :=
  [ "Ref"; "Fn::GetAtt"; "Fn::Join"; "Fn::Sub"; "Fn::Select"; "Fn::Split";
    "Fn::Base64"; "Fn::GetAZs"; "Fn::FindInMap"; "Fn::If" ].

(** The entry of the mapping tables under a map name and two keys, as
    the template gives it: the table, then its row, then the value. *)
Definition table_entry (tables : dict) (map_name top second : string)
  : option value :=
  match PyDict.get map_name tables with
  | Some (VDict rows) =>
      match PyDict.get top rows with
      | Some (VDict row) => PyDict.get second row
      | _ => None
      end
  | _ => None
  end.

(** The lookup left to Terraform: [local.<map>[<key>][<key>]]. *)
Definition runtime_lookup (map_name : string) (top second : value) : string :=
  "local." ++ PyStr.lower map_name ++ "[" ++ Py.str top ++ "][" ++ Py.str second
    ++ "]".

(** What a map lookup with resolved keys stands for: the entry as a
    quoted literal when both keys are strings and the tables hold one,
    and the runtime lookup otherwise. *)
Definition lookup_text (tables : dict) (map_name : string) (top second : value)
  : string :=
  match top, second with
  | VStr a, VStr b =>
      match table_entry tables map_name a b with
      | Some v => PyStr.dquote ++ Py.str v ++ PyStr.dquote
      | None => runtime_lookup map_name top second
      end
  | _, _ => runtime_lookup map_name top second
  end.

(** The map names that cannot be looked up in a dictionary. *)
Definition is_container (v : value) : bool :=
  match v with
  | VList _ | VDict _ => true
  | _ => false
  end.

Definition is_string (v : value) : bool :=
  match v with
  | VStr _ => true
  | _ => false
  end.

(** Text free of the closing brace: what the group [[^}]+] matches. *)
Fixpoint no_rbrace (s : string) : bool :=
  match s with
  | EmptyString => true
  | String c s' => negb (Ascii.eqb c "}"%char) && no_rbrace s'
  end.

(** *** Templates and their placeholders *)








(** The engine as [ConversionEngine()] builds it. *)
Definition default_engine : ConversionEngine :=
  {| preserve_names := true; handle_functions := true |}.

(** A template whose only resource has a type without mapping. *)
Definition unsupported_template : Template :=
  {| Parameters := []; Mappings := []; Conditions := [];
     Resources :=
       [("UnknownResource",
         VDict [("Type", VStr "AWS::Unknown::Resource");
                ("Properties", VDict [("SomeProperty", VStr "value")])])];
     Outputs := [] |}.

(** A template whose only resource refers to a name declared nowhere. *)
Definition undeclared_ref_template : Template :=
  {| Parameters := []; Mappings := []; Conditions := [];
     Resources :=
       [("MySubnet",
         VDict [("Type", VStr "AWS::EC2::Subnet");
                ("Properties", VDict [("VpcId", VDict [("Ref", VStr "Undeclared")])])])];
     Outputs := [] |}.

(** Whether a string holds an upper-case ASCII letter. *)
Fixpoint has_upper (s : string) : bool :=
  match s with
  | EmptyString => false
  | String c s' => PyStr.is_upper c || has_upper s'
  end.

(** The target name [map_properties] gives the source property [cf_prop]
    of a resource of target type [terraform_type]. *)
Definition terraform_property (terraform_type cf_prop : string) : string :=
  let property_mapping :=
    match PyDict.get terraform_type ResourceMapper.PROPERTY_MAPPINGS with
    | Some m => m
    | None => []
    end in
  match PyDict.get cf_prop property_mapping with
  | Some p => p
  | None => PyStr.lower cf_prop
  end.

(** The name [_convert_resource] gives the target resource. *)
Definition terraform_name (self : ConversionEngine) (logical_id : string) : string :=
  if preserve_names self then PyStr.lower logical_id
  else Names._generate_resource_name logical_id.

(** The two source types of security-group rules. *)
Definition is_rule_type (cf_type : string) : bool :=
  String.eqb cf_type "AWS::EC2::SecurityGroupIngress"
  || String.eqb cf_type "AWS::EC2::SecurityGroupEgress".

(** [{"Ref": name}], and the marker left for a reference that cannot be
    resolved. *)
Definition ref_to (name : string) : value := VDict [("Ref", VStr name)].

Definition unresolved_marker (name : string) : value :=
  VStr ("# TODO: Resolve reference to " ++ name).

(** A mapping the resolver takes for a function call: one key, and a
    reserved one. *)
Definition is_function_call (entries : dict) : bool :=
  match entries with
  | [(k, _)] => is_function_key k
  | _ => false
  end.

(** The resolver returns on [v]: it does not raise. *)
Definition resolves (self : IntrinsicFunctionHandler) (context : Context)
    (v : value) : Prop :=
  exists l r, process_value self context v = (l, Ok r).

(** The handler and the context [convert_template] builds for a template. *)
Definition handler_of (t : Template) : IntrinsicFunctionHandler :=
  {| parameters := Parameters t; mappings := Mappings t |}.

Definition context_of (t : Template) : Context :=
  {| ctx_resources := Resources t; ctx_parameters := Parameters t |}.

(** The parameter phase of [convert_template]. *)
Definition parameters_phase (t : Template) : M (option dict) :=
  match Parameters t with
  | [] => ret None
  | ps => v <- _convert_parameters ps ;; ret (Some v)
  end.

(** The result as it stands when the resource loop starts, the parameter
    phase having produced [v]. *)
Definition before_resources (t : Template) (v : option dict) : ConversionResult :=
  let result :=
    match v with
    | Some v => set_variables v new_result
    | None => new_result
    end in
  let result :=
    match Mappings t with
    | [] => result
    | ms => update_locals (_convert_mappings ms) result
    end in
  match Conditions t with
  | [] => result
  | cs => update_locals (_convert_conditions cs (handler_of t)) result
  end.

(** The state the resource loop of [convert_template] ends in. *)
Definition after_loop (self : ConversionEngine) (t : Template)
    (l : list log_record) (v : option dict) : LoopState :=
  convert_resources self (handler_of t) (context_of t) (Resources t)
    {| terraform_resources := []; result_so_far := before_resources t v;
       logged := l |}.

(** The output phase of [convert_template]. *)
Definition outputs_phase (t : Template) : M (option dict) :=
  match Outputs t with
  | [] => ret None
  | outs => o <- _convert_outputs outs (handler_of t) (context_of t) ;; ret (Some o)
  end.

(** What the handler of the outer [try] makes of the outcome of its body. *)
Definition close_template (body : list log_record * ConversionResult * option exn)
  : ConversionResult :=
  match body with
  | (_, result, None) => result
  | (_, result, Some e) =>
      add_error ("Template conversion failed: " ++ exn_str e) result
  end.

(** The loop only ever adds: to the warnings, the errors, the import
    commands and the target types of the resource set; it leaves the
    variables, the outputs and the locals alone. *)
Definition grows (st st' : LoopState) : Prop :=
  incl (warnings (result_so_far st)) (warnings (result_so_far st'))
  /\ incl (errors (result_so_far st)) (errors (result_so_far st'))
  /\ incl (import_commands (result_so_far st)) (import_commands (result_so_far st'))
  /\ (forall ty, PyDict.mem ty (terraform_resources st) = true ->
                 PyDict.mem ty (terraform_resources st') = true)
  /\ variables (result_so_far st') = variables (result_so_far st)
  /\ outputs (result_so_far st') = outputs (result_so_far st)
  /\ locals (result_so_far st') = locals (result_so_far st).

(** A template with a resource whose conversion raises ([Fn::GetAtt]
    applied to a number) between two resources that convert. *)
Definition failing_resource_template : Template :=
  {| Parameters := []; Mappings := []; Conditions := [];
     Resources :=
       [("MyVPC",
         VDict [("Type", VStr "AWS::EC2::VPC");
                ("Properties", VDict [("CidrBlock", VStr "10.0.0.0/16")])]);
        ("Bad",
         VDict [("Type", VStr "AWS::EC2::Subnet");
                ("Properties", VDict [("VpcId", VDict [("Fn::GetAtt", VInt 3)])])]);
        ("MySubnet",
         VDict [("Type", VStr "AWS::EC2::Subnet");
                ("Properties", VDict [("VpcId", VDict [("Ref", VStr "MyVPC")])])])];
     Outputs := [("VPCId", VDict [("Value", VDict [("Ref", VStr "MyVPC")])])] |}.

(** The import batch of three commands, the second of which fails on its
    first two runs and succeeds on the third. *)
Definition import_vpc : Imports.ImportCommand :=
  {| Imports.command := "terraform import aws_vpc.a vpc-1";
     Imports.address := "aws_vpc.a"; Imports.id := "vpc-1" |}.

Definition import_subnet : Imports.ImportCommand :=
  {| Imports.command := "terraform import aws_subnet.b subnet-2";
     Imports.address := "aws_subnet.b"; Imports.id := "subnet-2" |}.

Definition import_bucket : Imports.ImportCommand :=
  {| Imports.command := "terraform import aws_s3_bucket.c bucket-3";
     Imports.address := "aws_s3_bucket.c"; Imports.id := "bucket-3" |}.

Definition batch : list Imports.ImportCommand :=
  [import_vpc; import_subnet; import_bucket].

Definition fails_twice (command : string) (earlier : nat) : Imports.process_outcome :=
  if String.eqb command (Imports.command import_subnet) && (earlier <? 2)%nat
  then Imports.Completed 1 EmptyString "Error: resource not ready"
  else Imports.Completed 0 EmptyString EmptyString.

Definition batch_world : Imports.World :=
  {| Imports.cwd := "/home/user";
     Imports.directories := ["/home/user"; "/tf"];
     Imports.files := [];
     Imports.unwritable := [];
     Imports.terraform := fails_twice;
     Imports.executed := [];
     Imports.timestamp := "20240101_000000";
     Imports.log_records := [] |}.

Definition batch_manager (in_parallel : bool) : Imports.ImportManager :=
  {| Imports.terraform_dir := "/tf";
     Imports.parallel := in_parallel;
     Imports.max_workers := 2;
     Imports.timeout := 300;
     Imports.retry_failed := true;
     Imports.max_retries := 2;
     Imports.create_backup := false |}.

(** The address and the retry count of each recorded attempt. *)
Definition attempts (s : Imports.ImportSummary) : list (string * Z) :=
  map (fun r => (Imports.resource_address r, Imports.retry_count r))
      (Imports.results s).

(** An environment in which the state file exists but the backup
    directory admits no new entry, so that the copy fails, and a manager
    with the backup enabled. *)
Definition script_text : string :=
  "terraform import aws_vpc.a vpc-1".

Definition read_only_world : Imports.World :=
  {| Imports.cwd := "/home/user";
     Imports.directories := ["/home/user"; "/tf"; "/tf/state_backups"];
     Imports.files := [("/tf/import_resources.sh", script_text);
                       ("/tf/terraform.tfstate", "{}")];
     Imports.unwritable := ["/tf/state_backups"];
     Imports.terraform := fun _ _ => Imports.Completed 0 EmptyString EmptyString;
     Imports.executed := [];
     Imports.timestamp := "20240101_000000";
     Imports.log_records := [] |}.

Definition backup_manager : Imports.ImportManager :=
  {| Imports.terraform_dir := "/tf";
     Imports.parallel := false;
     Imports.max_workers := 5;
     Imports.timeout := 300;
     Imports.retry_failed := true;
     Imports.max_retries := 3;
     Imports.create_backup := true |}.

(** The records of level [WARNING] among those logged. *)
Definition logged_warnings (w : Imports.World) : list log_record :=
  filter (fun r => match fst r with WARNING => true | _ => false end)
         (Imports.log_records w).

(** A template with one VPC and nothing else. *)
Definition vpc_template : Template :=
  {| Parameters := []; Mappings := []; Conditions := [];
     Resources :=
       [("MyVPC",
         VDict [("Type", VStr "AWS::EC2::VPC");
                ("Properties", VDict [("CidrBlock", VStr "10.0.0.0/16")])])];
     Outputs := [] |}.

(** The worker pool.  How far a task is from its end, and what its
    result has to say of its command. *)
Definition task_rank (task : Imports.Task) : nat :=
  match task with
  | Imports.Queued => 5
  | Imports.Entered _ => 4
  | Imports.Changed _ => 3
  | Imports.Leaving _ _ => 2
  | Imports.Returned _ => 1
  | Imports.Finished _ => 0
  end.

Definition reports (cmd_info : Imports.ImportCommand) (r : Imports.ImportResult)
  : Prop :=
  Imports.resource_address r = Imports.address cmd_info
  /\ Imports.resource_id r = Imports.id cmd_info
  /\ Imports.retry_count r = 0%Z.

Definition task_ok (cmd_info : Imports.ImportCommand) (task : Imports.Task) : Prop :=
  match task with
  | Imports.Finished r => reports cmd_info r
  | _ => True
  end.

(** The run of the pool in which every task runs to its end before the
    next one starts, the results collected in the order of submission;
    and a run in which the steps of the tasks alternate and the results
    are collected last to first. *)
Definition in_turn : Imports.Scheduling :=
  {| Imports.steps := []; Imports.collected := [] |}.

Definition alternating : Imports.Scheduling :=
  {| Imports.steps := [1; 0; 1; 0; 0; 1; 0; 1; 2; 0; 1; 2; 2; 2; 2]%nat;
     Imports.collected := [2; 1; 0]%nat |}.

(** What the state backup leaves as it was: the commands run and the
    warnings logged. *)
Definition backup_frame (w w' : Imports.World) : Prop :=
  Imports.executed w' = Imports.executed w
  /\ logged_warnings w' = logged_warnings w.

(** A template with two resources of one type, and between them a
    resource whose conversion raises. *)
Definition same_type_template : Template :=
  {| Parameters := []; Mappings := []; Conditions := [];
     Resources :=
       [("First",
         VDict [("Type", VStr "AWS::EC2::VPC");
                ("Properties", VDict [("CidrBlock", VStr "10.0.0.0/16")])]);
        ("Bad",
         VDict [("Type", VStr "AWS::EC2::Subnet");
                ("Properties", VDict [("VpcId", VDict [("Fn::GetAtt", VInt 3)])])]);
        ("Second",
         VDict [("Type", VStr "AWS::EC2::VPC");
                ("Properties", VDict [("CidrBlock", VStr "10.1.0.0/16")])])];
     Outputs := [] |}.

(** Data in which no mapping is a function call: no mapping with exactly
    one key has a reserved key. *)
Fixpoint function_free (v : value) : bool :=
  match v with
  | VList items => forallb function_free items
  | VDict entries =>
      match entries with
      | [(k, _)] => negb (is_function_key k)
      | _ => true
      end
      && forallb (fun kv => function_free (snd kv)) entries
  | _ => true
  end.

(** Induction on template data, with the hypothesis available for every
    element of a list and every value of a dictionary. *)
Fixpoint value_induction (P : value -> Prop)
    (scalar : forall v, (match v with VList _ | VDict _ => False | _ => True end) -> P v)
    (list_case : forall items, Forall P items -> P (VList items))
    (dict_case : forall entries, Forall (fun kv => P (snd kv)) entries ->
                                 P (VDict entries))
    (v : value) {struct v} : P v :=
  match v with
  | VList items =>
      list_case items
        ((fix all (l : list value) : Forall P l :=
            match l with
            | [] => Forall_nil P
            | x :: l' =>
                Forall_cons x (value_induction P scalar list_case dict_case x) (all l')
            end) items)
  | VDict entries =>
      dict_case entries
        ((fix all (l : list (string * value)) : Forall (fun kv => P (snd kv)) l :=
            match l with
            | [] => Forall_nil _
            | kv :: l' =>
                Forall_cons kv
                  (value_induction P scalar list_case dict_case (snd kv)) (all l')
            end) entries)
  | other => scalar other I
  end.

(** The functions of two arguments and of three, with the name each goes
    by in its marker. *)
Definition binary_functions : list (string * string) :=
  [ ("Fn::GetAtt", "GetAtt"); ("Fn::Join", "Join");
    ("Fn::Select", "Select"); ("Fn::Split", "Split") ].

Definition ternary_functions : list (string * string) :=
  [ ("Fn::FindInMap", "FindInMap"); ("Fn::If", "If") ].

(** [s[n:]] *)
Fixpoint drop (n : nat) (s : string) : string :=
  match n, s with
  | S n', String _ s' => drop n' s'
  | _, _ => s
  end.

(** The placeholders of a template: [name] occurs in [t] as [${name}]. *)
Definition placeholder_in (name t : string) : Prop :=
  exists pre post,
    t = pre ++ "${" ++ name ++ "}" ++ post
    /\ name <> EmptyString /\ no_rbrace name = true.

(** Shape of a generated resource name. *)
Fixpoint all_chars (p : ascii -> bool) (s : string) : bool :=
  match s with
  | EmptyString => true
  | String c s' => p c && all_chars p s'
  end.

Definition is_underscore (c : ascii) : bool := Ascii.eqb c "_"%char.

Definition first_char (s : string) : option ascii :=
  match s with
  | EmptyString => None
  | String c _ => Some c
  end.

Fixpoint last_char (s : string) : option ascii :=
  match s with
  | EmptyString => None
  | String c EmptyString => Some c
  | String _ s' => last_char s'
  end.

Fixpoint no_double_underscore (s : string) : bool :=
  match s with
  | EmptyString => true
  | String c s' =>
      negb (is_underscore c
            && match first_char s' with
               | Some c' => is_underscore c'
               | None => false
               end)
      && no_double_underscore s'
  end.

(** Lower-case letters and digits, in groups separated by single
    underscores: [[a-z0-9]+(_[a-z0-9]+)*]. *)
Definition well_formed_name (s : string) : Prop :=
  s <> EmptyString
  /\ all_chars Names.is_name_char s = true
  /\ no_double_underscore s = true
  /\ first_char s <> Some "_"%char
  /\ last_char s <> Some "_"%char.

(** An import command as [convert_template] emits it, the live
    identifier still to be filled in. *)
Definition is_import_command (c : string) : Prop :=
  exists terraform_type name,
    In terraform_type import_template_types
    /\ c = "terraform import " ++ terraform_type ++ "." ++ name ++ " PHYSICAL_ID".

(** Strings without the space character, and strings of white space
    only. *)
Definition not_space (c : ascii) : bool := negb (Ascii.eqb c " "%char).

Definition no_space (s : string) : bool := all_chars not_space s.

Definition whitespace (s : string) : bool := all_chars Imports.is_space s.

(** A command the script parser reads back whole, as an import of
    [PHYSICAL_ID]. *)
Definition parses_back (c : string) : Prop :=
  exists resource_address,
    c = "terraform import " ++ resource_address ++ " PHYSICAL_ID"
    /\ Imports.parse_line c =
         [{| Imports.command := c; Imports.address := resource_address;
             Imports.id := "PHYSICAL_ID" |}].

(** Counts over the attempts a summary records. *)
Definition successes (rs : list Imports.ImportResult) : Z :=
  Z.of_nat (List.length (filter Imports.success rs)).

Definition failures (rs : list Imports.ImportResult) : Z :=
  Z.of_nat (List.length (filter (fun r => negb (Imports.success r)) rs)).

(** The retries that succeeded. *)
Definition successful_retries (rs : list Imports.ImportResult) : Z :=
  Z.of_nat
    (List.length
       (filter (fun r => Imports.success r && negb (Imports.retry_count r =? 0)%Z)
          rs)).

(** The outcome of the next run of [command] in [w]. *)
Definition next_outcome (w : Imports.World) (command : string)
  : Imports.process_outcome :=
  Imports.terraform w command
    (count_occ string_dec (Imports.executed w) command).

(** The summary [s'] is [s] with the attempts [rs] recorded and
    counted. *)
Definition accounts_for (s s' : Imports.ImportSummary)
    (rs : list Imports.ImportResult) : Prop :=
  Imports.results s' = (Imports.results s ++ rs)%list
  /\ Imports.successful_imports s' = (Imports.successful_imports s + successes rs)%Z
  /\ Imports.failed_imports s' =
       (Imports.failed_imports s + failures rs - successful_retries rs)%Z
  /\ Imports.total_imports s' = Imports.total_imports s
  /\ Imports.errors s' = Imports.errors s.

(** Where [_create_state_backup] copies a state file to. *)
Definition backup_path (self : Imports.ImportManager) (w : Imports.World)
    (state_file : string) : string :=
  Imports.in_terraform_dir self "state_backups" ++ "/" ++ state_file ++ "."
    ++ Imports.timestamp w.

(** The command [c] is the placeholder command [c0] with the live
    identifier [id] filled in. *)
Definition filled_in (id c0 c : string) : Prop :=
  exists terraform_type name,
    In terraform_type import_template_types
    /\ c0 = "terraform import " ++ terraform_type ++ "." ++ name ++ " PHYSICAL_ID"
    /\ c = "terraform import " ++ terraform_type ++ "." ++ name ++ " " ++ id.

(** Two environments that differ at most in what has been logged. *)
Definition same_environment (w1 w2 : Imports.World) : Prop :=
  Imports.cwd w1 = Imports.cwd w2
  /\ Imports.directories w1 = Imports.directories w2
  /\ Imports.files w1 = Imports.files w2
  /\ Imports.unwritable w1 = Imports.unwritable w2
  /\ Imports.terraform w1 = Imports.terraform w2
  /\ Imports.executed w1 = Imports.executed w2
  /\ Imports.timestamp w1 = Imports.timestamp w2.

(** The types [_map_parameter_type] yields, and what it is for a
    dictionary of variables to declare [k]: an entry with a description
    and one of these types. *)
Definition variable_types : list string := ["string"; "number"; "list(string)"].

Definition declares (vars : dict) (k : string) : Prop :=
  exists d ty,
    PyDict.get k vars = Some (VDict d)
    /\ PyDict.get "type" d = Some (VStr ty)
    /\ In ty variable_types
    /\ PyDict.mem "description" d = true.

(** The identifier an import template takes from what the manager
    supplies: the [arn] entry for the template that asks for it alone,
    the [name] entry likewise, and the physical identifier for every
    other template of the table (those that ask for [{id}], and those
    with a field the manager does not supply, for which the command
    falls back to the identifier). *)
Definition template_identifier (import_template : string)
    (resource_id arn name : value) : value :=
  if String.eqb import_template "terraform import {address} {arn}" then arn
  else if String.eqb import_template "terraform import {address} {name}" then name
  else resource_id.

(* ================================================================== *)
(** * Properties *)
(* ================================================================== *)

(** ** The embedding on small inputs *)

Example str_of_values :
  Py.str (VList [VStr "it's"; VInt 3; VDict [("a", VNone)]]) =
    "[" ++ PyStr.dquote ++ "it's" ++ PyStr.dquote ++ ", 3, {'a': None}]"
  /\ Py.str (VInt (-7)) = "-7"
  /\ Py.str (VBool true) = "True".
Proof. repeat split. Qed.

Example generated_resource_name :
  Names._generate_resource_name "MyVPC__x-Y9Z_" = "my_vpc_x_y9_z".
Proof. reflexivity. Qed.

Example one_vpc_converts :
  terraform_config (snd (convert_template default_engine vpc_template)) =
    [("resource",
      VDict [("aws_vpc", VDict [("myvpc", VDict [("cidr_block", VStr "10.0.0.0/16")])])]);
     ("data", VDict _generate_data_sources)]
  /\ import_commands (snd (convert_template default_engine vpc_template)) =
       ["terraform import aws_vpc.myvpc PHYSICAL_ID"]
  /\ errors (snd (convert_template default_engine vpc_template)) = [].
Proof. repeat split. Qed.

Example get_att_of_number_raises :
  process_value {| parameters := []; mappings := [] |} empty_context
    (VDict [("Fn::GetAtt", VInt 3)]) =
    ([], Raise (TypeError "object of type 'int' has no len()")).
Proof. reflexivity. Qed.

Example placeholders_in_a_template :
  snd (process_value {| parameters := [("Env", VDict [])]; mappings := [] |}
         empty_context
         (VDict [("Fn::Sub", VStr "a${AWS::Region}b${Env}c${Nope}d${}e${open")])) =
    Ok (VStr (PyStr.dquote
                ++ "a${data.aws_region.current.name}b${var.env}c${Nope}d${}e${open"
                ++ PyStr.dquote)).
Proof. reflexivity. Qed.

Example script_line_parsed :
  Imports.parse_line "  terraform import aws_s3_bucket.c my bucket  " =
    [{| Imports.command := "terraform import aws_s3_bucket.c my bucket";
        Imports.address := "aws_s3_bucket.c";
        Imports.id := "my bucket" |}]
  /\ Imports.parse_line "echo 'terraform import x y'" = [].
Proof. split; reflexivity. Qed.

Example nested_and_open_placeholders :
  Re.sub (fun name => ret ("<" ++ name ++ ">")) "${${a}}$${b}${}${" =
    ret "<${a>}$<b>${}${".
Proof. reflexivity. Qed.

(** ** Laws of the logging monad *)

Lemma bind_ret_l : forall (A B : Type) (a : A) (f : A -> M B),
  bind (ret a) f = f a.
Proof.
  intros A B a f. unfold bind, ret. simpl. destruct (f a); reflexivity.
Qed.

Lemma bind_ret_r : forall (A : Type) (m : M A), bind m (fun a => ret a) = m.
Proof.
  intros A [l [a | e]]; unfold bind, ret; simpl; try reflexivity.
  now rewrite app_nil_r.
Qed.

Lemma bind_raise : forall (A B : Type) (e : exn) (f : A -> M B),
  bind (raise e) f = raise e.
Proof. reflexivity. Qed.

Lemma bind_assoc : forall (A B C : Type) (m : M A) (f : A -> M B) (g : B -> M C),
  bind (bind m f) g = bind m (fun a => bind (f a) g).
Proof.
  intros A B C [l [a | e]] f g; unfold bind; simpl; try reflexivity.
  destruct (f a) as [l1 [b | e1]]; simpl; try reflexivity.
  destruct (g b) as [l2 r2]; simpl. now rewrite app_assoc.
Qed.

Lemma bind_ext : forall (A B : Type) (m : M A) (f g : A -> M B),
  (forall a, f a = g a) -> bind m f = bind m g.
Proof.
  intros A B [l [a | e]] f g H; unfold bind; [now rewrite H | reflexivity].
Qed.

Lemma bind_ok : forall (A B : Type) (l : list log_record) (a : A) (f : A -> M B),
  bind (l, Ok a) f = ((l ++ fst (f a))%list, snd (f a)).
Proof. reflexivity. Qed.

Lemma bind_lift_ok : forall (A B : Type) (a : A) (f : A -> M B),
  bind (lift (Ok a)) f = f a.
Proof. intros. apply bind_ret_l. Qed.

(** ** Strings *)

Lemma append_assoc : forall s t u : string, (s ++ t) ++ u = s ++ t ++ u.
Proof.
  induction s as [| c s IH]; intros t u; simpl; [reflexivity | now rewrite IH].
Qed.

Lemma append_nil_r : forall s : string, s ++ EmptyString = s.
Proof.
  induction s as [| c s IH]; simpl; [reflexivity | now rewrite IH].
Qed.

Lemma prefix_app : forall s t, String.prefix s (s ++ t) = true.
Proof.
  induction s as [| c s IH]; intros t; simpl.
  - now destruct t.
  - destruct (ascii_dec c c) as [_ | n]; [apply IH | now elim n].
Qed.

Lemma contains_of_prefix : forall sub s,
  String.prefix sub s = true -> PyStr.contains sub s = true.
Proof.
  intros sub s H. destruct s; cbn [PyStr.contains]; rewrite H; reflexivity.
Qed.

Lemma contains_app : forall sub pre post,
  PyStr.contains sub (pre ++ sub ++ post) = true.
Proof.
  intros sub pre post. induction pre as [| c pre IH].
  - cbn [append]. apply contains_of_prefix, prefix_app.
  - cbn [append PyStr.contains]. rewrite IH. apply orb_true_r.
Qed.

(** ** Single-key mappings *)

Lemma is_function_key_spec : forall k,
  is_function_key k = true <-> (String.prefix "Fn::" k = true \/ k = "Ref").
Proof.
  intros k. unfold is_function_key, PyStr.startswith.
  rewrite orb_true_iff, String.eqb_eq. reflexivity.
Qed.

(** How [process_value] treats a mapping with exactly one key. *)
Lemma process_value_single_key :
  forall (self : IntrinsicFunctionHandler) (context : Context)
         (func_name : string) (func_args : value),
    process_value self context (VDict [(func_name, func_args)]) =
      if is_function_key func_name then
        s <- _handle_intrinsic_function self context
               (process_value self context) func_name func_args ;;
        ret (VStr s)
      else
        v <- process_value self context func_args ;;
        ret (VDict [(func_name, v)]).
Proof.
  intros self context func_name func_args.
  cbn [process_value]. destruct (is_function_key func_name); [reflexivity |].
  cbn [mapM_values]. rewrite bind_assoc. f_equal.
Qed.

(** C3. A mapping with exactly one key is handed to the function
    dispatcher exactly when its key is reserved, that is, when it starts
    with [Fn::] or is [Ref]; any other single-key mapping is resolved as
    data: its value is resolved recursively and put back under the same
    key, so that the result, when there is one, is again a mapping with
    that one key. *)
Theorem single_key_mapping_dispatch :
  forall (self : IntrinsicFunctionHandler) (context : Context)
         (func_name : string) (func_args : value),
    (is_function_key func_name = true <->
       (String.prefix "Fn::" func_name = true \/ func_name = "Ref"))
    /\ process_value self context (VDict [(func_name, func_args)]) =
         (if is_function_key func_name then
            s <- _handle_intrinsic_function self context
                   (process_value self context) func_name func_args ;;
            ret (VStr s)
          else
            v <- process_value self context func_args ;;
            ret (VDict [(func_name, v)]))
    /\ (is_function_key func_name = false ->
          forall l r,
            process_value self context (VDict [(func_name, func_args)]) = (l, Ok r) ->
            exists v, r = VDict [(func_name, v)]
                      /\ process_value self context func_args = (l, Ok v)).
Proof.
  intros self context func_name func_args. split; [| split].
  - apply is_function_key_spec.
  - apply process_value_single_key.
  - intros Hk l r H. rewrite process_value_single_key, Hk in H.
    destruct (process_value self context func_args) as [l' [v | e]];
      cbn in H; [| discriminate H].
    injection H as <- <-. exists v. now rewrite app_nil_r.
Qed.

Lemma single_key_mapping_dispatch_witness :
  exists v,
    VDict [("Value", VList [VInt 1])] = VDict [("Value", v)]
    /\ process_value {| parameters := []; mappings := [] |} empty_context
         (VList [VInt 1]) = ([], Ok v).
Proof.
  exact (proj2 (proj2 (single_key_mapping_dispatch
                         {| parameters := []; mappings := [] |} empty_context
                         "Value" (VList [VInt 1])))
               eq_refl [] (VDict [("Value", VList [VInt 1])]) eq_refl).
Defined.

(** ** Unrecognised function names *)

Lemma eqb_of_not_in : forall (x y : string) (l : list string),
  ~ In x l -> In y l -> String.eqb x y = false.
Proof.
  intros x y l Hx Hy. apply String.eqb_neq. intros ->. exact (Hx Hy).
Qed.

Lemma dispatch_unrecognised :
  forall (self : IntrinsicFunctionHandler) (context : Context)
         (pv : value -> M value) (func_name : string) (func_args : value),
    ~ In func_name intrinsic_functions ->
    _handle_intrinsic_function self context pv func_name func_args =
      ([(WARNING, "Unsupported intrinsic function: " ++ func_name)],
       Ok ("# TODO: Convert " ++ func_name ++ "(" ++ Py.str func_args ++ ")")).
Proof.
  intros self context pv func_name func_args Hn.
  unfold _handle_intrinsic_function.
  repeat (rewrite (@eqb_of_not_in func_name _ intrinsic_functions Hn);
          [| unfold intrinsic_functions; simpl; tauto]).
  reflexivity.
Qed.

(** C8. A function-call node whose name is none of the ten recognised
    functions does not raise: it resolves to the marker string
    [# TODO: Convert name(args)], which holds the function name and the
    text of the raw arguments, and one warning is logged. *)
Theorem unsupported_function_marker :
  forall (self : IntrinsicFunctionHandler) (context : Context)
         (func_name : string) (func_args : value),
    is_function_key func_name = true ->
    ~ In func_name intrinsic_functions ->
    let marker := "# TODO: Convert " ++ func_name ++ "(" ++ Py.str func_args ++ ")" in
    process_value self context (VDict [(func_name, func_args)]) =
      ([(WARNING, "Unsupported intrinsic function: " ++ func_name)], Ok (VStr marker))
    /\ PyStr.contains func_name marker = true
    /\ PyStr.contains (Py.str func_args) marker = true.
Proof.
  intros self context func_name func_args Hkey Hn marker. split; [| split].
  - rewrite process_value_single_key, Hkey, dispatch_unrecognised by exact Hn.
    reflexivity.
  - apply (contains_app func_name "# TODO: Convert ").
  - unfold marker.
    replace ("# TODO: Convert " ++ func_name ++ "(" ++ Py.str func_args ++ ")")
      with (("# TODO: Convert " ++ func_name ++ "(") ++ Py.str func_args ++ ")").
    + apply contains_app.
    + repeat rewrite append_assoc. reflexivity.
Qed.

Lemma unsupported_function_marker_witness :
  process_value {| parameters := []; mappings := [] |} empty_context
    (VDict [("Fn::ImportValue", VStr "SharedVpcId")]) =
    ([(WARNING, "Unsupported intrinsic function: Fn::ImportValue")],
     Ok (VStr "# TODO: Convert Fn::ImportValue(SharedVpcId)")).
Proof.
  refine (proj1 (@unsupported_function_marker
                   {| parameters := []; mappings := [] |} empty_context
                   "Fn::ImportValue" (VStr "SharedVpcId") _ _)).
  - reflexivity.
  - simpl. intros H.
    repeat (destruct H as [H | H]; [discriminate H |]). exact H.
Defined.

(** ** Map lookups *)

Lemma catch_ok : forall (A : Type) (l : list log_record) (a : A) (h : M A),
  catch_key_type_error (l, Ok a) h = (l, Ok a).
Proof. reflexivity. Qed.

Lemma catch_caught : forall (A : Type) (l : list log_record) (e : exn) (h : M A),
  (exists m, e = KeyError m) \/ (exists m, e = TypeError m) ->
  catch_key_type_error (l, Raise e) h = ((l ++ fst h)%list, snd h).
Proof.
  intros A l e h [[m ->] | [m ->]]; reflexivity.
Qed.

Lemma static_lookup_entry : forall self map_name a b,
  match static_lookup self map_name a b with
  | Ok v => table_entry (mappings self) map_name a b = Some v
  | Raise e =>
      table_entry (mappings self) map_name a b = None
      /\ ((exists m, e = KeyError m) \/ (exists m, e = TypeError m))
  end.
Proof.
  intros self map_name a b. unfold static_lookup, table_entry.
  destruct (PyDict.get map_name (mappings self)) as [table |];
    [| split; [reflexivity | left; eexists; reflexivity]].
  destruct table as [| | | | | rows]; cbn [Py.getitem];
    try (split; [reflexivity | right; eexists; reflexivity]).
  destruct (PyDict.get a rows) as [row |];
    [| split; [reflexivity | left; eexists; reflexivity]].
  destruct row as [| | | | | row]; cbn [Py.getitem];
    try (split; [reflexivity | right; eexists; reflexivity]).
  destruct (PyDict.get b row);
    [reflexivity | split; [reflexivity | left; eexists; reflexivity]].
Qed.

Lemma unknown_table_no_entry : forall tables map_name a b,
  PyDict.mem map_name tables = false ->
  table_entry tables map_name a b = None.
Proof.
  intros tables map_name a b H. unfold table_entry.
  unfold PyDict.mem in H. now destruct (PyDict.get map_name tables).
Qed.

Lemma find_in_map_call : forall self context args,
  process_value self context (VDict [("Fn::FindInMap", args)]) =
    (s <- _handle_find_in_map self (process_value self context) args ;;
     ret (VStr s)).
Proof.
  intros self context args. rewrite process_value_single_key. reflexivity.
Qed.

(** C9 (as stated, refuted). A map lookup that cannot be settled does
    not always become a runtime lookup: with two arguments it becomes a
    marker, and with a list as the map name it raises. *)
Lemma find_in_map_without_lookup :
  snd (process_value
         {| parameters := [];
            mappings := [("RegionMap",
                          VDict [("us-east-1", VDict [("AMI", VStr "ami-123")])])] |}
         empty_context
         (VDict [("Fn::FindInMap", VList [VStr "RegionMap"; VStr "us-east-1"])])) =
    Ok (VStr "# TODO: Invalid FindInMap arguments: ['RegionMap', 'us-east-1']")
  /\ snd (process_value
            {| parameters := [];
               mappings := [("RegionMap",
                             VDict [("us-east-1", VDict [("AMI", VStr "ami-123")])])] |}
            empty_context
            (VDict [("Fn::FindInMap",
                     VList [VList [VStr "RegionMap"]; VStr "us-east-1";
                            VStr "AMI"])])) =
      Raise (TypeError "unhashable type: 'list'").
Proof. split; vm_compute; reflexivity. Qed.

(** C9 (amended). A map lookup with three arguments, a string as the map
    name and keys that resolve yields the entry of the tables as a quoted
    literal when both resolved keys are strings and the tables hold an
    entry under the map name and them, and the runtime lookup
    [local.<map>[<key>][<key>]] in every other case.  With another number
    of arguments it yields the marker of invalid arguments; with a list
    or a mapping as the map name it raises [TypeError], with any other
    map name that is no string [AttributeError]; and a key whose
    resolution raises makes the lookup raise the same exception. *)
Theorem find_in_map_static_or_dynamic :
  forall (self : IntrinsicFunctionHandler) (context : Context),
    (forall (map_name : string) (top second : value)
            (l1 l2 : list log_record) (r1 r2 : value),
        process_value self context top = (l1, Ok r1) ->
        process_value self context second = (l2, Ok r2) ->
        snd (process_value self context
               (VDict [("Fn::FindInMap", VList [VStr map_name; top; second])])) =
          Ok (VStr (lookup_text (mappings self) map_name r1 r2)))
    /\ (forall (items : list value),
          List.length items <> 3 ->
          snd (process_value self context
                 (VDict [("Fn::FindInMap", VList items)])) =
            Ok (VStr ("# TODO: Invalid FindInMap arguments: "
                        ++ Py.str (VList items))))
    /\ (forall (map_name top second : value),
          is_container map_name = true ->
          snd (process_value self context
                 (VDict [("Fn::FindInMap", VList [map_name; top; second])])) =
            Raise (Py.unhashable map_name))
    /\ (forall (map_name top second : value),
          is_container map_name = false ->
          is_string map_name = false ->
          snd (process_value self context
                 (VDict [("Fn::FindInMap", VList [map_name; top; second])])) =
            Raise (Py.no_attribute map_name "lower"))
    /\ (forall (map_name : string) (top second : value)
               (l1 : list log_record) (e : exn),
          process_value self context top = (l1, Raise e) ->
          snd (process_value self context
                 (VDict [("Fn::FindInMap", VList [VStr map_name; top; second])])) =
            Raise e)
    /\ (forall (map_name : string) (top second : value)
               (l1 l2 : list log_record) (r1 : value) (e : exn),
          process_value self context top = (l1, Ok r1) ->
          process_value self context second = (l2, Raise e) ->
          snd (process_value self context
                 (VDict [("Fn::FindInMap", VList [VStr map_name; top; second])])) =
            Raise e).
Proof.
  intros self context.
  split; [| split; [| split; [| split; [| split]]]].
  - intros map_name top second l1 l2 r1 r2 H1 H2.
    rewrite find_in_map_call.
    unfold _handle_find_in_map, with_args3, find_in_map_static, lookup_text,
      runtime_lookup.
    cbn [Py.in_dict Py.lower]. rewrite !bind_lift_ok.
    destruct (PyDict.mem map_name (mappings self)) eqn:K.
    + rewrite H1, H2. rewrite !bind_ok. cbn [fst snd].
      destruct r1 as [| | | k1 | |]; destruct r2 as [| | | k2 | |];
        try (cbn; rewrite ?H1, ?H2; reflexivity).
      pose proof (static_lookup_entry self map_name k1 k2) as S.
      destruct (static_lookup self map_name k1 k2) as [v | e] eqn:E.
      * rewrite S. reflexivity.
      * destruct S as [S C]. rewrite S. cbn [lift bind fst snd app].
        rewrite catch_caught by exact C.
        reflexivity.
    + rewrite bind_ret_l, H1, H2.
      destruct r1 as [| | | k1 | |]; destruct r2 as [| | | k2 | |];
        try reflexivity.
      now rewrite (unknown_table_no_entry _ _ k1 k2 K).
  - intros items H. rewrite find_in_map_call.
    unfold _handle_find_in_map, with_args3.
    destruct items as [| a [| b [| c [| d items]]]]; try reflexivity.
    cbn in H. lia.
  - intros map_name top second H. rewrite find_in_map_call.
    unfold _handle_find_in_map, with_args3, find_in_map_static.
    destruct map_name; try discriminate H; reflexivity.
  - intros map_name top second H1 H2. rewrite find_in_map_call.
    unfold _handle_find_in_map, with_args3, find_in_map_static.
    destruct map_name; try discriminate H1; try discriminate H2; reflexivity.
  - intros map_name top second l1 e H. rewrite find_in_map_call.
    unfold _handle_find_in_map, with_args3, find_in_map_static.
    cbn [Py.in_dict Py.lower]. rewrite !bind_lift_ok.
    destruct (PyDict.mem map_name (mappings self)).
    + rewrite H. cbn [bind fst snd].
      destruct e; cbn; rewrite ?H; reflexivity.
    + rewrite bind_ret_l, H. reflexivity.
  - intros map_name top second l1 l2 r1 e H1 H2. rewrite find_in_map_call.
    unfold _handle_find_in_map, with_args3, find_in_map_static.
    cbn [Py.in_dict Py.lower]. rewrite !bind_lift_ok.
    destruct (PyDict.mem map_name (mappings self)).
    + rewrite H1, H2. cbn [bind fst snd].
      destruct e; cbn; rewrite ?H1, ?H2; reflexivity.
    + rewrite bind_ret_l, H1, H2. reflexivity.
Qed.

Lemma find_in_map_static_or_dynamic_witness :
  snd (process_value
         {| parameters := [];
            mappings := [("RegionMap",
                          VDict [("us-east-1", VDict [("AMI", VStr "ami-123")])])] |}
         empty_context
         (VDict [("Fn::FindInMap",
                  VList [VStr "RegionMap"; VStr "us-east-1"; VStr "AMI"])])) =
    Ok (VStr (PyStr.dquote ++ "ami-123" ++ PyStr.dquote))
  /\ snd (process_value
            {| parameters := [];
               mappings := [("RegionMap",
                             VDict [("us-east-1", VDict [("AMI", VStr "ami-123")])])] |}
            empty_context
            (VDict [("Fn::FindInMap",
                     VList [VStr "RegionMap"; VStr "eu-west-1"; VStr "AMI"])])) =
       Ok (VStr "local.regionmap[eu-west-1][AMI]").
Proof.
  split.
  - exact (proj1 (find_in_map_static_or_dynamic
                    {| parameters := [];
                       mappings := [("RegionMap",
                                     VDict [("us-east-1",
                                             VDict [("AMI", VStr "ami-123")])])] |}
                    empty_context)
             "RegionMap" (VStr "us-east-1") (VStr "AMI")
             [] [] (VStr "us-east-1") (VStr "AMI") eq_refl eq_refl).
  - exact (proj1 (find_in_map_static_or_dynamic
                    {| parameters := [];
                       mappings := [("RegionMap",
                                     VDict [("us-east-1",
                                             VDict [("AMI", VStr "ami-123")])])] |}
                    empty_context)
             "RegionMap" (VStr "eu-west-1") (VStr "AMI")
             [] [] (VStr "eu-west-1") (VStr "AMI") eq_refl eq_refl).
Defined.

(** ** Template interpolation *)



Lemma span_not_rbrace_spec : forall s a b,
  Re.span_not_rbrace s = (a, b) -> s = a ++ b /\ no_rbrace a = true.
Proof.
  induction s as [| c s IH]; intros a b H; cbn [Re.span_not_rbrace] in H.
  - injection H as <- <-. split; reflexivity.
  - destruct (Ascii.eqb c "}") eqn:E.
    + injection H as <- <-. split; reflexivity.
    + destruct (Re.span_not_rbrace s) as [body rest].
      injection H as <- <-. destruct (IH body rest eq_refl) as [-> Hn].
      split; [reflexivity |]. cbn [no_rbrace]. now rewrite E, Hn.
Qed.

Lemma span_rest_starts_with_rbrace : forall s a c b,
  Re.span_not_rbrace s = (a, String c b) -> c = "}"%char.
Proof.
  induction s as [| d s IH]; intros a c b H; cbn [Re.span_not_rbrace] in H.
  - discriminate H.
  - destruct (Ascii.eqb_spec d "}") as [-> | _].
    + now injection H as _ <- _.
    + destruct (Re.span_not_rbrace s) as [body rest] eqn:E.
      injection H as _ ->. eapply IH. reflexivity.
Qed.

Lemma match_placeholder_inv : forall s name n,
  Re.match_placeholder s = Some (name, n) ->
  exists rest,
    s = "${" ++ name ++ "}" ++ rest
    /\ n = 3 + String.length name
    /\ name <> EmptyString /\ no_rbrace name = true.
Proof.
  intros s name n H. unfold Re.match_placeholder in H.
  destruct s as [| c1 [| c2 s]]; try discriminate H;
    try (destruct c1 as [[] [] [] [] [] [] [] []]; discriminate H).
  destruct (Ascii.eqb_spec c1 "$") as [-> | N1];
    [| destruct c1 as [[] [] [] [] [] [] [] []]; try discriminate H;
       now elim N1].
  destruct (Ascii.eqb_spec c2 "{") as [-> | N2];
    [| destruct c2 as [[] [] [] [] [] [] [] []]; try discriminate H;
       now elim N2].
  destruct (Re.span_not_rbrace s) as [a b] eqn:E.
  destruct (span_not_rbrace_spec s a b E) as [Es Hn].
  destruct a as [| c a]; [discriminate H |].
  destruct b as [| c' b]; [discriminate H |].
  pose proof (span_rest_starts_with_rbrace s _ _ _ E) as ->.
  injection H as <- <-. subst s.
  exists b. repeat split; try reflexivity; try assumption. discriminate.
Qed.




Lemma sub_pseudo_is_lookup : forall name,
  sub_pseudo name = PyDict.get name sub_pseudo_params.
Proof.
  intros name. unfold sub_pseudo, PyStr.startswith.
  destruct (String.prefix "AWS::" name) eqn:P; [reflexivity |].
  unfold sub_pseudo_params. cbn [PyDict.get].
  repeat match goal with
         | |- context [String.eqb name ?k] =>
             destruct (String.eqb_spec name k) as [-> | _]; [discriminate P |]
         end.
  reflexivity.
Qed.














(** ** Resources without a target type *)

(** C4 (as stated, refuted). The warning recorded for a resource of an
    unmapped type names the type, not the resource: converting
    [unsupported_template] records one warning, and the logical name
    [UnknownResource] does not occur in it. *)
Lemma unsupported_warning_omits_logical_name :
  warnings (snd (convert_template default_engine unsupported_template)) =
    ["Unsupported resource type: AWS::Unknown::Resource"]
  /\ existsb (PyStr.contains "UnknownResource")
       (warnings (snd (convert_template default_engine unsupported_template))) = false.
Proof. split; reflexivity. Qed.

(** C4 (amended). Converting a resource whose type is a non-empty string
    without mapping adds nothing to the resource set, to the import
    commands or to the errors, records exactly one warning, which names
    the type, and the loop goes on with the remaining resources. *)
Theorem unsupported_type_one_warning :
  forall (self : ConversionEngine) (func_handler : IntrinsicFunctionHandler)
         (context : Context) (st : LoopState) (logical_id : string)
         (config : dict) (cf_type : string) (rest : dict),
    PyDict.get "Type" config = Some (VStr cf_type) ->
    cf_type <> EmptyString ->
    PyDict.get cf_type ResourceMapper.RESOURCE_TYPE_MAPPING = None ->
    let st' := convert_resource_step self func_handler context st
                 (logical_id, VDict config) in
    terraform_resources st' = terraform_resources st
    /\ warnings (result_so_far st') =
         (warnings (result_so_far st)
            ++ [("Unsupported resource type: " ++ cf_type)%string])%list
    /\ import_commands (result_so_far st') = import_commands (result_so_far st)
    /\ errors (result_so_far st') = errors (result_so_far st)
    /\ convert_resources self func_handler context
         ((logical_id, VDict config) :: rest) st =
       convert_resources self func_handler context rest st'.
Proof.
  intros self func_handler context st logical_id config cf_type rest Ht Hne Hu st'.
  assert (E : _convert_resource self logical_id (VDict config) func_handler context =
              ([(WARNING, "No Terraform mapping for CloudFormation type: " ++ cf_type)],
               Ok (Some {| cr_resources := [];
                           cr_import_commands := [];
                           cr_warnings := ["Unsupported resource type: " ++ cf_type] |}))).
  { unfold _convert_resource. cbn [Py.get]. rewrite Ht, bind_lift_ok.
    cbn [Py.truthy]. apply String.eqb_neq in Hne. rewrite Hne. cbn [negb].
    cbn [ResourceMapper.get_terraform_type]. rewrite Hu, bind_lift_ok.
    reflexivity. }
  assert (S : st' =
              {| terraform_resources := terraform_resources st;
                 result_so_far :=
                   extend_converted
                     {| cr_resources := [];
                        cr_import_commands := [];
                        cr_warnings := ["Unsupported resource type: " ++ cf_type] |}
                     (result_so_far st);
                 logged :=
                   (logged st
                      ++ [(WARNING,
                           ("No Terraform mapping for CloudFormation type: "
                              ++ cf_type)%string)])%list |}).
  { unfold st', convert_resource_step. rewrite E. reflexivity. }
  split; [| split; [| split; [| split]]].
  - now rewrite S.
  - now rewrite S.
  - rewrite S. cbn. apply app_nil_r.
  - now rewrite S.
  - reflexivity.
Qed.

Lemma unsupported_type_one_warning_witness :
  warnings
    (result_so_far
       (convert_resource_step default_engine
          {| parameters := []; mappings := [] |} empty_context
          {| terraform_resources := []; result_so_far := new_result; logged := [] |}
          ("UnknownResource", VDict [("Type", VStr "AWS::Unknown::Resource")]))) =
    ["Unsupported resource type: AWS::Unknown::Resource"].
Proof.
  refine (proj1 (proj2 (unsupported_type_one_warning
                          default_engine {| parameters := []; mappings := [] |}
                          empty_context
                          {| terraform_resources := []; result_so_far := new_result;
                             logged := [] |}
                          "UnknownResource"
                          [("Type", VStr "AWS::Unknown::Resource")]
                          "AWS::Unknown::Resource" [] eq_refl _ eq_refl))).
  discriminate.
Defined.

(** ** Dictionaries *)

Lemma get_set_same : forall (A : Type) (k : string) (v : A) (d : list (string * A)),
  PyDict.get k (PyDict.set k v d) = Some v.
Proof.
  intros A k v d. induction d as [| [k' v'] d IH]; cbn [PyDict.set PyDict.get].
  - now rewrite String.eqb_refl.
  - destruct (String.eqb k k') eqn:E; cbn [PyDict.get]; rewrite E; [reflexivity | exact IH].
Qed.

Lemma get_set_other : forall (A : Type) (k k' : string) (v : A) (d : list (string * A)),
  String.eqb k k' = false ->
  PyDict.get k (PyDict.set k' v d) = PyDict.get k d.
Proof.
  intros A k k' v d Hk. induction d as [| [k0 v0] d IH]; cbn [PyDict.set PyDict.get].
  - now rewrite Hk.
  - destruct (String.eqb k' k0) eqn:E; cbn [PyDict.get].
    + apply String.eqb_eq in E. subst k0. now rewrite Hk.
    + destruct (String.eqb k k0); [reflexivity | exact IH].
Qed.

Lemma get_in : forall (A : Type) (k : string) (v : A) (d : list (string * A)),
  PyDict.get k d = Some v -> In (k, v) d.
Proof.
  intros A k v d. induction d as [| [k' v'] d IH]; cbn [PyDict.get]; [discriminate |].
  destruct (String.eqb_spec k k') as [-> | _].
  - intros [= ->]. now left.
  - intros H. right. exact (IH H).
Qed.

(** ** Letter case of target property names *)

Lemma lower_char_not_upper : forall c, PyStr.is_upper (PyStr.lower_char c) = false.
Proof.
  intros [[] [] [] [] [] [] [] []]; reflexivity.
Qed.

Lemma lower_no_upper : forall s, has_upper (PyStr.lower s) = false.
Proof.
  induction s as [| c s IH]; cbn [PyStr.lower has_upper]; [reflexivity |].
  now rewrite lower_char_not_upper, IH.
Qed.

Lemma property_tables_lower :
  forallb (fun table => forallb (fun e => negb (has_upper (snd e))) (snd table))
          ResourceMapper.PROPERTY_MAPPINGS = true.
Proof. vm_compute. reflexivity. Qed.

Lemma terraform_property_no_upper : forall terraform_type cf_prop,
  has_upper (terraform_property terraform_type cf_prop) = false.
Proof.
  intros terraform_type cf_prop. unfold terraform_property.
  destruct (PyDict.get terraform_type ResourceMapper.PROPERTY_MAPPINGS)
    as [m |] eqn:Em.
  - destruct (PyDict.get cf_prop m) as [p |] eqn:Ep; [| apply lower_no_upper].
    apply get_in in Em. apply get_in in Ep.
    pose proof property_tables_lower as T.
    rewrite forallb_forall in T. specialize (T _ Em). cbn [snd] in T.
    rewrite forallb_forall in T. specialize (T _ Ep). cbn [snd] in T.
    now apply negb_true_iff in T.
  - cbn [PyDict.get]. apply lower_no_upper.
Qed.

Lemma eqb_upper_lower : forall s t,
  has_upper s = true -> has_upper t = false -> String.eqb s t = false.
Proof.
  intros s t Hs Ht. apply String.eqb_neq. intros ->. congruence.
Qed.

Lemma rename_with_absent : forall key target f (d : dict),
  PyDict.get key d = None -> Transform.rename_with key target f d = d.
Proof.
  intros key target f d H. unfold Transform.rename_with. now rewrite H.
Qed.

(** ** References to undeclared names *)

Lemma bind_ok_inv : forall (A B : Type) (m : M A) (f : A -> M B)
                           (l : list log_record) (b : B),
  bind m f = (l, Ok b) ->
  exists l1 a l2, m = (l1, Ok a) /\ f a = (l2, Ok b) /\ l = (l1 ++ l2)%list.
Proof.
  intros A B [l1 [a | e]] f l b H; unfold bind in H; [| discriminate H].
  destruct (f a) as [l2 r] eqn:E. cbn [fst snd] in H. injection H as <- ->.
  exists l1, a, l2. repeat split. exact E.
Qed.

Lemma ret_inv : forall (A : Type) (a b : A) (l : list log_record),
  ret a = (l, Ok b) -> a = b.
Proof. intros A a b l H. now injection H. Qed.

Lemma mem_map_values : forall (A B : Type) (f : A -> B) (k : string)
                              (d : list (string * A)),
  PyDict.mem k (map (fun kv => (fst kv, f (snd kv))) d) = PyDict.mem k d.
Proof.
  intros A B f k d. unfold PyDict.mem.
  induction d as [| [k' v'] d IH]; cbn [map PyDict.get fst snd]; [reflexivity |].
  destruct (String.eqb k k'); [reflexivity | exact IH].
Qed.

Lemma handle_ref_undeclared :
  forall (self : IntrinsicFunctionHandler) (context : Context) (name : string),
    PyDict.mem name (parameters self) = false ->
    PyDict.mem name (ctx_resources context) = false ->
    PyDict.mem name ref_pseudo_params = false ->
    _handle_ref self context (VStr name) =
      ret ("# TODO: Resolve reference to " ++ name).
Proof.
  intros self context name Hp Hr Hs.
  unfold _handle_ref, ref_resource. cbn [Py.in_dict].
  rewrite Hp, bind_lift_ok, Hr, bind_lift_ok, bind_ret_l.
  rewrite mem_map_values, Hs, bind_lift_ok. reflexivity.
Qed.

Lemma mem_set : forall (A : Type) (k k' : string) (v : A) (d : list (string * A)),
  PyDict.mem k (PyDict.set k' v d) = String.eqb k k' || PyDict.mem k d.
Proof.
  intros A k k' v d. unfold PyDict.mem.
  destruct (String.eqb k k') eqn:E.
  - apply String.eqb_eq in E. subst k'. now rewrite get_set_same.
  - now rewrite (get_set_other A k k' v d E).
Qed.

Lemma process_value_dict_data :
  forall (self : IntrinsicFunctionHandler) (context : Context) (entries : dict),
    match entries with
    | [(k, _)] => negb (is_function_key k)
    | _ => true
    end = true ->
    process_value self context (VDict entries) =
      (d <- mapM_values (process_value self context) entries ;; ret (VDict d)).
Proof.
  intros self context entries H.
  destruct entries as [| [k a] [| kv rest]]; try reflexivity.
  apply negb_true_iff in H. cbn [process_value]. now rewrite H.
Qed.

Lemma set_keys_forall :
  forall (P : string -> Prop) (k : string) (v : value) (d : dict),
    Forall (fun kv => P (fst kv)) d -> P k ->
    Forall (fun kv => P (fst kv)) (PyDict.set k v d).
Proof.
  intros P k v d H Hk. induction H as [| [k' v'] d Hx Hd IH]; cbn [PyDict.set].
  - constructor; [exact Hk | constructor].
  - destruct (String.eqb k k'); constructor; auto.
Qed.

Lemma set_length : forall (k : string) (v : value) (d : dict),
  List.length (PyDict.set k v d) <= S (List.length d).
Proof.
  intros k v d. induction d as [| [k' v'] d IH]; cbn [PyDict.set List.length].
  - lia.
  - destruct (String.eqb k k'); cbn [List.length]; lia.
Qed.

Lemma map_property_fold :
  forall (terraform_type : string) (items acc : dict),
    let property_mapping :=
      match PyDict.get terraform_type ResourceMapper.PROPERTY_MAPPINGS with
      | Some m => m
      | None => []
      end in
    let d := fold_left (ResourceMapper.map_property property_mapping) items acc in
    (Forall (fun kv => has_upper (fst kv) = false) acc ->
     Forall (fun kv => has_upper (fst kv) = false) d)
    /\ List.length d <= List.length acc + List.length items
    /\ (forall k, PyDict.mem k acc = true -> PyDict.mem k d = true)
    /\ (forall cf_prop v, In (cf_prop, v) items ->
          PyDict.mem (terraform_property terraform_type cf_prop) d = true).
Proof.
  intros terraform_type items.
  induction items as [| [cf_prop v] items IH]; intros acc property_mapping d.
  - subst d. cbn [fold_left List.length].
    repeat split; auto; try lia; try (intros ? ? []).
  - subst d. cbn [fold_left].
    specialize (IH (ResourceMapper.map_property property_mapping acc (cf_prop, v))).
    cbv zeta in IH. fold property_mapping in IH.
    destruct IH as (I1 & I2 & I3 & I4).
    assert (E : ResourceMapper.map_property property_mapping acc (cf_prop, v) =
                PyDict.set (terraform_property terraform_type cf_prop) v acc)
      by reflexivity.
    rewrite E in *. repeat split.
    + intros H. apply I1.
      apply (set_keys_forall (fun k => has_upper k = false)); [exact H |].
      apply terraform_property_no_upper.
    + pose proof (set_length (terraform_property terraform_type cf_prop) v acc).
      cbn [List.length]. lia.
    + intros k Hk. apply I3. rewrite mem_set, Hk. apply orb_true_r.
    + intros p w [Hin | Hin].
      * injection Hin as <- <-. apply I3. rewrite mem_set, String.eqb_refl.
        reflexivity.
      * eapply I4. exact Hin.
Qed.

Lemma get_upper_absent : forall (key : string) (d : dict),
  has_upper key = true ->
  Forall (fun kv => has_upper (fst kv) = false) d ->
  PyDict.get key d = None.
Proof.
  intros key d Hk H. induction H as [| [k v] d Hx _ IH]; cbn [PyDict.get];
    [reflexivity |].
  cbn [fst] in Hx. now rewrite (eqb_upper_lower key k Hk Hx).
Qed.

(** On properties whose names hold no upper-case letter the
    resource-specific transformations find none of the names they look
    for; a security-group rule only gains its [type]. *)
Lemma transformations_on_mapped :
  forall (cf_type logical_id : string) (d : dict),
    Forall (fun kv => has_upper (fst kv) = false) d ->
    Transform._apply_resource_transformations (VStr cf_type) (VDict d) logical_id =
      ret (VDict
             (if is_rule_type cf_type
              then PyDict.set "type"
                     (VStr (if PyStr.contains "Ingress" cf_type
                            then "ingress" else "egress")) d
              else d)).
Proof.
  intros cf_type logical_id d H.
  assert (U : forall key (d' : dict),
             has_upper key = true ->
             Forall (fun kv => has_upper (fst kv) = false) d' ->
             PyDict.get key d' = None) by (intros; now apply get_upper_absent).
  unfold Transform._apply_resource_transformations. cbn [Py.eq_str].
  fold (is_rule_type cf_type).
  destruct (is_rule_type cf_type).
  { unfold Transform._transform_security_group_rule, Transform.copy.
    rewrite bind_ret_l. cbn [Py.str_in]. rewrite bind_lift_ok.
    assert (H' : Forall (fun kv => has_upper (fst kv) = false)
                   (PyDict.set "type"
                      (VStr (if PyStr.contains "Ingress" cf_type
                             then "ingress" else "egress")) d))
      by (apply (set_keys_forall (fun k => has_upper k = false));
          [exact H | reflexivity]).
    unfold Transform.rename.
    repeat match goal with
           | |- context [Transform.rename_with ?key ?t ?f (PyDict.set ?a ?b d)] =>
               rewrite (rename_with_absent key t f (PyDict.set a b d))
                 by (apply U; [reflexivity | exact H'])
           end.
    reflexivity. }
  destruct (String.eqb cf_type "AWS::S3::Bucket").
  { unfold Transform._transform_s3_bucket, Transform.copy,
      Transform.s3_encryption, Transform.s3_versioning.
    rewrite bind_ret_l, U by (reflexivity || exact H).
    rewrite bind_ret_l, U by (reflexivity || exact H).
    now rewrite bind_ret_l. }
  destruct (String.eqb cf_type "AWS::IAM::Role").
  { unfold Transform._transform_iam_role, Transform.copy, Transform.rename.
    rewrite bind_ret_l.
    repeat match goal with
           | |- context [Transform.rename_with ?key ?t ?f d] =>
               rewrite (rename_with_absent key t f d)
                 by (apply U; [reflexivity | exact H])
           end.
    reflexivity. }
  destruct (String.eqb cf_type "AWS::Lambda::Function").
  { unfold Transform._transform_lambda_function, Transform.copy, Transform.rename,
      Transform.lambda_code.
    rewrite bind_ret_l.
    repeat match goal with
           | |- context [Transform.rename_with ?key ?t ?f d] =>
               rewrite (rename_with_absent key t f d)
                 by (apply U; [reflexivity | exact H])
           end.
    rewrite U by (reflexivity || exact H). now rewrite bind_ret_l. }
  reflexivity.
Qed.


(** ** The phases of [convert_template] *)

Lemma convert_template_phases :
  forall (self : ConversionEngine) (t : Template)
         (l : list log_record) (v : option dict),
    parameters_phase t = (l, Ok v) ->
    snd (convert_template self t) =
      close_template
        (after_resources t (handler_of t) (context_of t) (after_loop self t l v)).
Proof.
  intros self t l v H. unfold convert_template, convert_template_body.
  fold (parameters_phase t). rewrite H.
  fold (handler_of t). fold (context_of t).
  fold (before_resources t v). fold (after_loop self t l v).
  destruct (after_resources t (handler_of t) (context_of t) (after_loop self t l v))
    as [[l' r] [e |]]; reflexivity.
Qed.

Lemma convert_template_parameters_raise :
  forall (self : ConversionEngine) (t : Template) (l : list log_record) (e : exn),
    parameters_phase t = (l, Raise e) ->
    snd (convert_template self t) =
      add_error ("Template conversion failed: " ++ exn_str e) new_result.
Proof.
  intros self t l e H. unfold convert_template, convert_template_body.
  fold (parameters_phase t). rewrite H. reflexivity.
Qed.

Lemma before_resources_fields : forall (t : Template) (v : option dict),
  warnings (before_resources t v) = []
  /\ errors (before_resources t v) = []
  /\ import_commands (before_resources t v) = []
  /\ terraform_config (before_resources t v) = []
  /\ variables (before_resources t v) = match v with Some d => d | None => [] end.
Proof.
  intros t v. unfold before_resources.
  destruct v, (Mappings t), (Conditions t); repeat split.
Qed.

(** What the statements after the loop leave untouched, and what they
    store. *)
Lemma after_resources_frame :
  forall (t : Template) (func_handler : IntrinsicFunctionHandler)
         (context : Context) (st : LoopState),
    let r := snd (fst (after_resources t func_handler context st)) in
    warnings r = warnings (result_so_far st)
    /\ errors r = errors (result_so_far st)
    /\ import_commands r = import_commands (result_so_far st)
    /\ variables r = variables (result_so_far st)
    /\ locals r = locals (result_so_far st)
    /\ PyDict.get "resource" (terraform_config r) =
         Some (VDict (terraform_resources st)).
Proof.
  intros t func_handler context st. unfold after_resources.
  destruct (match Outputs t with
            | [] => ret None
            | p :: l => o <- _convert_outputs (p :: l) func_handler context ;;
                        ret (Some o)
            end) as [l [o | e]].
  - destruct o as [o |];
      (destruct (locals (result_so_far st)) as [| p ls] eqn:L;
       cbn; rewrite ?L; cbn;
       repeat split; try (symmetry; exact L); try exact L;
       repeat (rewrite get_set_other by reflexivity);
       apply get_set_same).
  - cbn. repeat split. apply get_set_same.
Qed.

Lemma close_template_frame :
  forall (body : list log_record * ConversionResult * option exn),
    warnings (close_template body) = warnings (snd (fst body))
    /\ import_commands (close_template body) = import_commands (snd (fst body))
    /\ variables (close_template body) = variables (snd (fst body))
    /\ locals (close_template body) = locals (snd (fst body))
    /\ terraform_config (close_template body) = terraform_config (snd (fst body))
    /\ (forall msg, In msg (errors (snd (fst body))) ->
                    In msg (errors (close_template body))).
Proof.
  intros [[l r] [e |]]; cbn; repeat split; auto.
  intros msg H. apply in_or_app. now left.
Qed.

(** ** References to undeclared names, end to end *)

(** C5 (as stated, refuted). Converting [undeclared_ref_template] puts the
    unresolved marker in the property, but records no warning at all. *)
Lemma undeclared_ref_records_no_warning :
  PyDict.get "resource"
    (terraform_config (snd (convert_template default_engine undeclared_ref_template))) =
    Some (VDict
            [("aws_subnet",
              VDict [("mysubnet",
                      VDict [("vpc_id",
                              VStr "# TODO: Resolve reference to Undeclared")])])])
  /\ List.length
       (warnings (snd (convert_template default_engine undeclared_ref_template))) <> 1.
Proof. split; [reflexivity | cbn; discriminate]. Qed.

Lemma mapM_values_app :
  forall (A B : Type) (f : A -> M B) (a b : list (string * A)),
    mapM_values f (a ++ b) =
      (a' <- mapM_values f a ;; b' <- mapM_values f b ;; ret (a' ++ b')%list).
Proof.
  intros A B f a b. induction a as [| [k v] a IH]; cbn [app mapM_values].
  - rewrite bind_ret_l. symmetry. apply bind_ret_r.
  - rewrite IH, !bind_assoc. apply bind_ext; intros y.
    rewrite !bind_assoc. apply bind_ext; intros ys.
    rewrite bind_ret_l, bind_assoc. apply bind_ext; intros b'.
    now rewrite bind_ret_l.
Qed.

Lemma mapM_values_resolved :
  forall (A B : Type) (f : A -> M B) (d : list (string * A)),
    Forall (fun kv => exists l r, f (snd kv) = (l, Ok r)) d ->
    exists l d', mapM_values f d = (l, Ok d') /\ map fst d' = map fst d.
Proof.
  intros A B f d H.
  induction H as [| [k v] d (l & r & E) _ (l' & d' & E' & K)]; cbn [mapM_values].
  - exists [], []. split; reflexivity.
  - cbn [snd] in E. rewrite E, E'. eexists; eexists.
    split; [reflexivity |]. cbn [map fst]. now rewrite K.
Qed.

Lemma snd_bind_ok :
  forall (A B : Type) (m : M A) (f : A -> M B) (l : list log_record) (a : A),
    m = (l, Ok a) -> snd (bind m f) = snd (f a).
Proof. intros A B m f l a ->. reflexivity. Qed.

(** A target name no later property maps to keeps its entry. *)
Lemma map_property_absent :
  forall (terraform_type : string) (items acc : dict) (k : string),
    (forall p, In p (map fst items) -> terraform_property terraform_type p <> k) ->
    PyDict.get k
      (fold_left
         (ResourceMapper.map_property
            match PyDict.get terraform_type ResourceMapper.PROPERTY_MAPPINGS with
            | Some m => m
            | None => []
            end) items acc) = PyDict.get k acc.
Proof.
  intros terraform_type items.
  induction items as [| [p v] items IH]; intros acc k H; cbn [fold_left];
    [reflexivity |].
  rewrite IH by (intros q Hq; apply H; now right).
  change (ResourceMapper.map_property _ acc (p, v))
    with (PyDict.set (terraform_property terraform_type p) v acc).
  apply get_set_other. apply String.eqb_neq. intros ->.
  apply (H p); [now left | reflexivity].
Qed.

Lemma map_property_last :
  forall (terraform_type : string) (before after : dict) (cf_prop : string)
         (m : value),
    (forall p, In p (map fst after) ->
               terraform_property terraform_type p <>
                 terraform_property terraform_type cf_prop) ->
    PyDict.get (terraform_property terraform_type cf_prop)
      (fold_left
         (ResourceMapper.map_property
            match PyDict.get terraform_type ResourceMapper.PROPERTY_MAPPINGS with
            | Some m => m
            | None => []
            end) (before ++ (cf_prop, m) :: after)%list []) = Some m.
Proof.
  intros terraform_type before after cf_prop m H.
  rewrite fold_left_app. cbn [fold_left].
  rewrite (map_property_absent terraform_type after _ _ H).
  change (ResourceMapper.map_property _ ?acc (cf_prop, m))
    with (PyDict.set (terraform_property terraform_type cf_prop) m acc).
  apply get_set_same.
Qed.

Lemma process_ref_undeclared :
  forall (self : IntrinsicFunctionHandler) (context : Context) (name : string),
    PyDict.mem name (parameters self) = false ->
    PyDict.mem name (ctx_resources context) = false ->
    PyDict.mem name ref_pseudo_params = false ->
    process_value self context (ref_to name) = ret (unresolved_marker name).
Proof.
  intros self context name Hp Hr Hs. unfold ref_to.
  rewrite process_value_single_key.
  change (is_function_key "Ref") with true. cbv iota.
  change (_handle_intrinsic_function self context (process_value self context)
            "Ref" (VStr name))
    with (_handle_ref self context (VStr name)).
  rewrite (handle_ref_undeclared self context name Hp Hr Hs).
  now rewrite bind_ret_l.
Qed.

Lemma not_call_is_data : forall entries,
  is_function_call entries = false ->
  match entries with
  | [(k, _)] => negb (is_function_key k)
  | _ => true
  end = true.
Proof.
  intros [| [k a] [| kv rest]] H; try reflexivity.
  cbn [is_function_call] in H. now rewrite H.
Qed.

(** The properties of a resource after the resolver: the reference has
    become the marker, the names are the same. *)
Lemma properties_with_marker :
  forall (self : IntrinsicFunctionHandler) (context : Context)
         (before after : dict) (cf_prop name : string),
    is_function_call (before ++ (cf_prop, ref_to name) :: after)%list = false ->
    Forall (fun kv => resolves self context (snd kv)) (before ++ after)%list ->
    PyDict.mem name (parameters self) = false ->
    PyDict.mem name (ctx_resources context) = false ->
    PyDict.mem name ref_pseudo_params = false ->
    exists l before' after',
      process_value self context (VDict (before ++ (cf_prop, ref_to name) :: after)%list) =
        (l, Ok (VDict (before' ++ (cf_prop, unresolved_marker name) :: after')%list))
      /\ map fst after' = map fst after.
Proof.
  intros self context before after cf_prop name Hc Hres Hp Hr Hs.
  apply Forall_app in Hres as [Hb Ha].
  destruct (mapM_values_resolved _ _ (process_value self context) _ Hb)
    as (lb & before' & Eb & _).
  destruct (mapM_values_resolved _ _ (process_value self context) _ Ha)
    as (la & after' & Ea & Ka).
  exists (lb ++ la ++ [])%list, before', after'. split; [| exact Ka].
  rewrite (process_value_dict_data self context _ (not_call_is_data _ Hc)).
  rewrite mapM_values_app. cbn [mapM_values].
  rewrite (process_ref_undeclared self context name Hp Hr Hs), Eb, Ea.
  cbn. now rewrite !app_nil_r.
Qed.

(** The conversion of a resource one of whose properties refers to an
    undeclared name. *)
Lemma convert_resource_marker :
  forall (self : ConversionEngine) (func_handler : IntrinsicFunctionHandler)
         (context : Context) (logical_id : string) (resource_config : dict)
         (cf_type terraform_type : string) (before after : dict)
         (cf_prop name : string),
    handle_functions self = true ->
    PyDict.get "Type" resource_config = Some (VStr cf_type) ->
    PyDict.get cf_type ResourceMapper.RESOURCE_TYPE_MAPPING = Some terraform_type ->
    cf_type <> "AWS::CloudFormation::Stack" ->
    PyDict.get "Properties" resource_config =
      Some (VDict (before ++ (cf_prop, ref_to name) :: after)%list) ->
    is_function_call (before ++ (cf_prop, ref_to name) :: after)%list = false ->
    Forall (fun kv => resolves func_handler context (snd kv)) (before ++ after)%list ->
    (forall p, In p (map fst after) ->
               terraform_property terraform_type p <>
                 terraform_property terraform_type cf_prop) ->
    (is_rule_type cf_type = true ->
     terraform_property terraform_type cf_prop <> "type") ->
    PyDict.mem name (parameters func_handler) = false ->
    PyDict.mem name (ctx_resources context) = false ->
    PyDict.mem name ref_pseudo_params = false ->
    exists properties commands,
      snd (_convert_resource self logical_id (VDict resource_config)
             func_handler context) =
        Ok (Some {| cr_resources :=
                      [(terraform_type,
                        VDict [(terraform_name self logical_id, VDict properties)])];
                    cr_import_commands := commands;
                    cr_warnings := [] |})
      /\ PyDict.get (terraform_property terraform_type cf_prop) properties =
           Some (unresolved_marker name).
Proof.
  intros self func_handler context logical_id resource_config cf_type
         terraform_type before after cf_prop name
         Hf HT Hm Hs HP Hc Hres Hlater Hrule Hp Hr Hps.
  assert (Hne : String.eqb cf_type EmptyString = false).
  { apply String.eqb_neq. intros ->. discriminate Hm. }
  destruct (properties_with_marker func_handler context before after cf_prop name
              Hc Hres Hp Hr Hps) as (l & before' & after' & Epv & Ka).
  set (mapped :=
         fold_left
           (ResourceMapper.map_property
              match PyDict.get terraform_type ResourceMapper.PROPERTY_MAPPINGS with
              | Some m => m
              | None => []
              end)
           (before' ++ (cf_prop, unresolved_marker name) :: after')%list []).
  assert (Hmapped : PyDict.get (terraform_property terraform_type cf_prop) mapped =
                    Some (unresolved_marker name)).
  { apply map_property_last. now rewrite Ka. }
  assert (Hlower : Forall (fun kv => has_upper (fst kv) = false) mapped).
  { destruct (map_property_fold terraform_type
                (before' ++ (cf_prop, unresolved_marker name) :: after')%list [])
      as (F1 & _). apply F1. constructor. }
  exists (if is_rule_type cf_type
          then PyDict.set "type"
                 (VStr (if PyStr.contains "Ingress" cf_type
                        then "ingress" else "egress")) mapped
          else mapped).
  eexists. split.
  - unfold _convert_resource. cbn [Py.get]. rewrite HT, bind_lift_ok.
    cbn [Py.truthy]. rewrite Hne. cbn [negb].
    cbn [ResourceMapper.get_terraform_type]. rewrite Hm, bind_lift_ok.
    cbn [Py.eq_str]. apply String.eqb_neq in Hs. rewrite Hs.
    rewrite HP, bind_lift_ok, Hf.
    rewrite (snd_bind_ok _ _ _ _ _ _ Epv).
    unfold ResourceMapper.map_properties.
    cbn [ResourceMapper.get_terraform_type]. rewrite Hm.
    fold mapped. rewrite bind_lift_ok.
    rewrite (transformations_on_mapped cf_type logical_id mapped Hlower),
      bind_ret_l.
    fold (terraform_name self logical_id). reflexivity.
  - destruct (is_rule_type cf_type); [| exact Hmapped].
    rewrite get_set_other; [exact Hmapped |].
    apply String.eqb_neq. now apply Hrule.
Qed.

(** A resource of a mapped type, other than a nested stack, comes back
    without warning, if it comes back. *)
Lemma mapped_resource_outcome :
  forall (self : ConversionEngine) (func_handler : IntrinsicFunctionHandler)
         (context : Context) (logical_id : string) (resource_config : dict)
         (cf_type terraform_type : string) (l : list log_record)
         (r : result (option ConvertedResource)),
    PyDict.get "Type" resource_config = Some (VStr cf_type) ->
    PyDict.get cf_type ResourceMapper.RESOURCE_TYPE_MAPPING = Some terraform_type ->
    cf_type <> "AWS::CloudFormation::Stack" ->
    _convert_resource self logical_id (VDict resource_config) func_handler context =
      (l, r) ->
    match r with
    | Ok (Some c) => cr_warnings c = []
    | Ok None => False
    | Raise _ => True
    end.
Proof.
  intros self func_handler context logical_id resource_config cf_type
         terraform_type l r HT Hm Hs H.
  assert (Hne : String.eqb cf_type EmptyString = false).
  { apply String.eqb_neq. intros ->. discriminate Hm. }
  destruct r as [c | e]; [| exact I].
  unfold _convert_resource in H. cbn [Py.get] in H.
  rewrite HT, bind_lift_ok in H. cbn [Py.truthy] in H. rewrite Hne in H.
  cbn [negb ResourceMapper.get_terraform_type] in H.
  rewrite Hm, bind_lift_ok in H. cbn [Py.eq_str] in H.
  apply String.eqb_neq in Hs. rewrite Hs in H.
  apply bind_ok_inv in H as (l5 & cf_properties & l6 & _ & H & _).
  apply bind_ok_inv in H as (l7 & processed & l8 & _ & H & _).
  apply bind_ok_inv in H as (l9 & mapped & l10 & _ & H & _).
  apply bind_ok_inv in H as (l11 & transformed & l12 & _ & H & _).
  apply ret_inv in H. now subst c.
Qed.

(** C5 (amended). Take a template whose only resource has a mapped type
    other than a nested stack.  Its conversion records no warning,
    whatever the resource holds.  When moreover the functions are
    resolved, the parameters convert, and a property of the resource is a
    reference to a name that is neither a parameter, nor the resource,
    nor a pseudo-value known to the reference handler, while the other
    properties resolve, then the converted resource carries the marker
    [# TODO: Resolve reference to name] under the target name of that
    property (provided the properties are not one function call, no later
    property has the same target name, and the name is not the [type] of
    a security-group rule). *)
Theorem undeclared_ref_marker_no_warning :
  forall (self : ConversionEngine)
         (parameters mappings conditions outputs : dict)
         (logical_id : string) (resource_config : dict)
         (cf_type terraform_type : string),
    let template :=
      {| Parameters := parameters; Mappings := mappings; Conditions := conditions;
         Resources := [(logical_id, VDict resource_config)];
         Outputs := outputs |} in
    PyDict.get "Type" resource_config = Some (VStr cf_type) ->
    PyDict.get cf_type ResourceMapper.RESOURCE_TYPE_MAPPING = Some terraform_type ->
    cf_type <> "AWS::CloudFormation::Stack" ->
    warnings (snd (convert_template self template)) = []
    /\ (forall (l : list log_record) (v : option dict) (before after : dict)
               (cf_prop name : string),
          handle_functions self = true ->
          parameters_phase template = (l, Ok v) ->
          PyDict.get "Properties" resource_config =
            Some (VDict (before ++ (cf_prop, ref_to name) :: after)%list) ->
          is_function_call (before ++ (cf_prop, ref_to name) :: after)%list = false ->
          Forall (fun kv => resolves (handler_of template) (context_of template)
                              (snd kv)) (before ++ after)%list ->
          (forall p, In p (map fst after) ->
                     terraform_property terraform_type p <>
                       terraform_property terraform_type cf_prop) ->
          (is_rule_type cf_type = true ->
           terraform_property terraform_type cf_prop <> "type") ->
          PyDict.mem name parameters = false ->
          name <> logical_id ->
          PyDict.mem name ref_pseudo_params = false ->
          exists properties,
            PyDict.get "resource"
              (terraform_config (snd (convert_template self template))) =
              Some (VDict [(terraform_type,
                            VDict [(terraform_name self logical_id,
                                    VDict properties)])])
            /\ PyDict.get (terraform_property terraform_type cf_prop) properties =
                 Some (unresolved_marker name)).
Proof.
  intros self parameters mappings conditions outputs logical_id resource_config
         cf_type terraform_type template HT Hm Hs.
  assert (Frames :
            forall l v,
              parameters_phase template = (l, Ok v) ->
              warnings (snd (convert_template self template)) =
                warnings (result_so_far (after_loop self template l v))
              /\ PyDict.get "resource"
                   (terraform_config (snd (convert_template self template))) =
                   Some (VDict (terraform_resources (after_loop self template l v)))).
  { intros l v Hpar.
    rewrite (convert_template_phases self template l v Hpar).
    pose proof (after_resources_frame template (handler_of template)
                  (context_of template) (after_loop self template l v)) as F.
    cbv zeta in F. destruct F as [Fw [_ [_ [_ [_ Fr]]]]].
    pose proof (close_template_frame
                  (after_resources template (handler_of template)
                     (context_of template) (after_loop self template l v))) as C.
    destruct C as [Cw [_ [_ [_ [Cc _]]]]].
    rewrite Cw, Cc, Fw, Fr. split; reflexivity. }
  assert (Loop :
            forall l v,
              after_loop self template l v =
                convert_resource_step self (handler_of template)
                  (context_of template)
                  {| terraform_resources := [];
                     result_so_far := before_resources template v;
                     logged := l |}
                  (logical_id, VDict resource_config)) by reflexivity.
  split.
  - destruct (parameters_phase template) as [l [v | e]] eqn:Hpar.
    + destruct (Frames l v eq_refl) as [-> _]. rewrite Loop.
      unfold convert_resource_step.
      destruct (before_resources_fields template v) as [Bw _].
      destruct (_convert_resource self logical_id (VDict resource_config)
                  (handler_of template) (context_of template))
        as [lr r] eqn:E.
      pose proof (mapped_resource_outcome self (handler_of template)
                    (context_of template) logical_id resource_config cf_type
                    terraform_type lr r HT Hm Hs E) as O.
      destruct r as [[c |] | e]; cbn [result_so_far extend_converted add_error
                                      warnings].
      * now rewrite Bw, O.
      * contradiction.
      * exact Bw.
    + now rewrite (convert_template_parameters_raise self template l e Hpar).
  - intros l v before after cf_prop name Hf Hpar HP Hc Hres Hlater Hrule Hp Hn Hps.
    assert (Hr : PyDict.mem name (ctx_resources (context_of template)) = false).
    { unfold PyDict.mem. cbn. apply String.eqb_neq in Hn. now rewrite Hn. }
    destruct (convert_resource_marker self (handler_of template)
                (context_of template) logical_id resource_config cf_type
                terraform_type before after cf_prop name
                Hf HT Hm Hs HP Hc Hres Hlater Hrule Hp Hr Hps)
      as (properties & commands & E & Eg).
    exists properties. split; [| exact Eg].
    destruct (Frames l v Hpar) as [_ ->]. rewrite Loop.
    unfold convert_resource_step.
    destruct (_convert_resource self logical_id (VDict resource_config)
                (handler_of template) (context_of template)) as [lr r].
    cbn [snd] in E. subst r. reflexivity.
Qed.

Lemma undeclared_ref_marker_no_warning_witness :
  warnings (snd (convert_template default_engine undeclared_ref_template)) = []
  /\ exists properties,
       PyDict.get "resource"
         (terraform_config
            (snd (convert_template default_engine undeclared_ref_template))) =
         Some (VDict [("aws_subnet", VDict [("mysubnet", VDict properties)])])
       /\ PyDict.get "vpc_id" properties =
            Some (VStr "# TODO: Resolve reference to Undeclared").
Proof.
  assert (N : "AWS::EC2::Subnet" <> "AWS::CloudFormation::Stack") by discriminate.
  pose proof (undeclared_ref_marker_no_warning default_engine [] [] [] []
                "MySubnet"
                [("Type", VStr "AWS::EC2::Subnet");
                 ("Properties", VDict [("VpcId", VDict [("Ref", VStr "Undeclared")])])]
                "AWS::EC2::Subnet" "aws_subnet" eq_refl eq_refl N) as [W P].
  split; [exact W |].
  apply (P [] None [] [] "VpcId" "Undeclared"); try reflexivity.
  - constructor.
  - intros p [].
  - discriminate.
  - discriminate.
Defined.

(** ** The resource loop *)

Lemma mem_update : forall (A : Type) (k : string) (other d : list (string * A)),
  PyDict.mem k (PyDict.update d other) = PyDict.mem k d || PyDict.mem k other.
Proof.
  intros A k other. unfold PyDict.update.
  induction other as [| [k' v'] other IH]; intros d; cbn [fold_left fst snd].
  - unfold PyDict.mem at 3. cbn. now rewrite orb_false_r.
  - rewrite IH, mem_set. unfold PyDict.mem at 4. cbn [PyDict.get].
    destruct (String.eqb k k'); cbn.
    + now rewrite orb_true_r.
    + fold (PyDict.mem k other). now destruct (PyDict.mem k d).
Qed.

Lemma get_update_absent :
  forall (A : Type) (k : string) (other d : list (string * A)),
    PyDict.mem k other = false ->
    PyDict.get k (PyDict.update d other) = PyDict.get k d.
Proof.
  intros A k other. unfold PyDict.update.
  induction other as [| [k' v'] other IH]; intros d H; cbn [fold_left fst snd].
  - reflexivity.
  - unfold PyDict.mem in H. cbn [PyDict.get] in H.
    destruct (String.eqb k k') eqn:E; [discriminate H |].
    rewrite IH by exact H. apply get_set_other. exact E.
Qed.

Lemma grows_refl : forall st, grows st st.
Proof.
  intros st. unfold grows. repeat split; auto using incl_refl.
Qed.

Lemma grows_trans : forall st1 st2 st3,
  grows st1 st2 -> grows st2 st3 -> grows st1 st3.
Proof.
  intros st1 st2 st3 (W1 & E1 & I1 & T1 & V1 & O1 & L1)
         (W2 & E2 & I2 & T2 & V2 & O2 & L2).
  unfold grows. repeat split; eauto using incl_tran; congruence.
Qed.

Lemma step_grows :
  forall (self : ConversionEngine) (func_handler : IntrinsicFunctionHandler)
         (context : Context) (st : LoopState) (item : string * value),
    grows st (convert_resource_step self func_handler context st item).
Proof.
  intros self func_handler context st [logical_id resource_config].
  unfold convert_resource_step.
  destruct (_convert_resource self logical_id resource_config func_handler context)
    as [l [[c |] | e]]; unfold grows; cbn;
    repeat split; auto using incl_refl, incl_appl.
  intros ty H. rewrite mem_update, H. reflexivity.
Qed.

Lemma loop_grows :
  forall (self : ConversionEngine) (func_handler : IntrinsicFunctionHandler)
         (context : Context) (resources : dict) (st : LoopState),
    grows st (convert_resources self func_handler context resources st).
Proof.
  intros self func_handler context resources. unfold convert_resources.
  induction resources as [| item resources IH]; intros st; cbn [fold_left].
  - apply grows_refl.
  - eapply grows_trans; [apply step_grows | apply IH].
Qed.

(** What the iteration for one resource contributes is found in the
    state the loop ends in, whatever happens to the other resources. *)
Lemma loop_keeps_step :
  forall (self : ConversionEngine) (func_handler : IntrinsicFunctionHandler)
         (context : Context) (resources : dict) (st : LoopState)
         (item : string * value),
    In item resources ->
    exists before,
      grows st before
      /\ grows (convert_resource_step self func_handler context before item)
               (convert_resources self func_handler context resources st).
Proof.
  intros self func_handler context resources. unfold convert_resources.
  induction resources as [| first resources IH]; intros st item Hin;
    [contradiction |].
  cbn [fold_left]. destruct Hin as [-> | Hin].
  - exists st. split; [apply grows_refl | apply loop_grows].
  - destruct (IH (convert_resource_step self func_handler context st first)
                 item Hin) as [before [G1 G2]].
    exists before. split; [| exact G2].
    eapply grows_trans; [apply step_grows | exact G1].
Qed.

(** A target type no later resource converts to keeps the body it has. *)
Lemma loop_keeps_type :
  forall (self : ConversionEngine) (func_handler : IntrinsicFunctionHandler)
         (context : Context) (ty : string) (resources : dict) (st : LoopState),
    (forall other config lo c,
        In (other, config) resources ->
        _convert_resource self other config func_handler context = (lo, Ok (Some c)) ->
        PyDict.mem ty (cr_resources c) = false) ->
    PyDict.get ty
      (terraform_resources
         (convert_resources self func_handler context resources st)) =
      PyDict.get ty (terraform_resources st).
Proof.
  intros self func_handler context ty resources. unfold convert_resources.
  induction resources as [| [other config] resources IH]; intros st H;
    cbn [fold_left]; [reflexivity |].
  rewrite IH by (intros o c lo c' Hin; apply H; now right).
  unfold convert_resource_step.
  destruct (_convert_resource self other config func_handler context)
    as [lo [[c |] | e]] eqn:E; cbn [terraform_resources]; try reflexivity.
  apply get_update_absent. apply (H other config lo c); [now left | exact E].
Qed.

Lemma after_resources_outputs :
  forall (t : Template) (st : LoopState),
    match outputs_phase t with
    | (_, Ok o) =>
        snd (after_resources t (handler_of t) (context_of t) st) = None
        /\ outputs (snd (fst (after_resources t (handler_of t) (context_of t) st))) =
             match o with
             | Some d => d
             | None => outputs (result_so_far st)
             end
    | (_, Raise e) =>
        snd (after_resources t (handler_of t) (context_of t) st) = Some e
    end.
Proof.
  intros t st. unfold after_resources. fold (outputs_phase t).
  destruct (outputs_phase t) as [l [o | e]]; [| reflexivity].
  destruct o as [o |];
    (destruct (locals (result_so_far st)) as [| p ls] eqn:L;
     cbn; rewrite ?L; cbn; split; reflexivity).
Qed.

(** ** Failure of one resource *)

(** When the parameter phase has gone through and converting one
    resource raises, [convert_template] still returns its result: the
    failure is recorded in it as an error string; every other resource is
    converted and merged (its warnings, its import commands and its
    target types are in the result, and so is its body unless a later
    resource of the same target type takes its place); the variables and
    the locals are those of the phases before the loop; and the output
    phase runs, giving the outputs or, if it raises in turn, one more
    recorded error. *)
Theorem resource_failure_is_isolated :
  forall (self : ConversionEngine) (t : Template)
         (l : list log_record) (v : option dict)
         (logical_id : string) (resource_config : value)
         (lr : list log_record) (e : exn),
    parameters_phase t = (l, Ok v) ->
    In (logical_id, resource_config) (Resources t) ->
    _convert_resource self logical_id resource_config (handler_of t) (context_of t) =
      (lr, Raise e) ->
    In ("Failed to convert resource " ++ logical_id ++ ": " ++ exn_str e)
       (errors (snd (convert_template self t)))
    /\ (forall (other : string) (config : value) (lo : list log_record)
               (c : ConvertedResource),
          In (other, config) (Resources t) ->
          _convert_resource self other config (handler_of t) (context_of t) =
            (lo, Ok (Some c)) ->
          incl (cr_warnings c) (warnings (snd (convert_template self t)))
          /\ incl (cr_import_commands c)
                  (import_commands (snd (convert_template self t)))
          /\ exists resources,
               PyDict.get "resource" (terraform_config (snd (convert_template self t))) =
                 Some (VDict resources)
               /\ forall ty, PyDict.mem ty (cr_resources c) = true ->
                             PyDict.mem ty resources = true)
    /\ (forall (earlier later : dict) (other : string) (config : value)
               (lo : list log_record) (c : ConvertedResource)
               (ty : string) (body : value),
          Resources t = (earlier ++ (other, config) :: later)%list ->
          _convert_resource self other config (handler_of t) (context_of t) =
            (lo, Ok (Some c)) ->
          cr_resources c = [(ty, body)] ->
          (forall id' config' l' c',
              In (id', config') later ->
              _convert_resource self id' config' (handler_of t) (context_of t) =
                (l', Ok (Some c')) ->
              PyDict.mem ty (cr_resources c') = false) ->
          exists resources,
            PyDict.get "resource" (terraform_config (snd (convert_template self t))) =
              Some (VDict resources)
            /\ PyDict.get ty resources = Some body)
    /\ variables (snd (convert_template self t)) =
         match v with Some d => d | None => [] end
    /\ locals (snd (convert_template self t)) = locals (before_resources t v)
    /\ match outputs_phase t with
       | (_, Ok o) =>
           outputs (snd (convert_template self t)) =
             match o with Some d => d | None => [] end
       | (_, Raise e') =>
           In ("Template conversion failed: " ++ exn_str e')
              (errors (snd (convert_template self t)))
       end.
Proof.
  intros self t l v logical_id resource_config lr e Hpar Hin Hraise.
  rewrite (convert_template_phases self t l v Hpar).
  set (st0 := {| terraform_resources := []; result_so_far := before_resources t v;
                 logged := l |}).
  set (st := after_loop self t l v).
  assert (Est : st = convert_resources self (handler_of t) (context_of t)
                       (Resources t) st0) by reflexivity.
  set (body := after_resources t (handler_of t) (context_of t) st).
  destruct (after_resources_frame t (handler_of t) (context_of t) st)
    as (Fw & Fe & Fi & Fv & Fl & Fr). fold body in Fw, Fe, Fi, Fv, Fl, Fr.
  destruct (close_template_frame body) as (Cw & Ci & Cv & Cl & Cc & Ce).
  destruct (before_resources_fields t v) as (_ & _ & _ & _ & Bv).
  pose proof (loop_grows self (handler_of t) (context_of t) (Resources t) st0) as G.
  rewrite <- Est in G.
  destruct G as (_ & _ & _ & _ & Gv & Go & Gl). cbn [result_so_far st0] in Gv, Go, Gl.
  split; [| split; [| split; [| split; [| split]]]].
  - apply Ce. rewrite Fe.
    destruct (loop_keeps_step self (handler_of t) (context_of t) (Resources t)
                st0 (logical_id, resource_config) Hin) as [before [_ G2]].
    rewrite <- Est in G2. destruct G2 as (_ & E2 & _). apply E2.
    unfold convert_resource_step. rewrite Hraise. cbn.
    apply in_or_app. right. now left.
  - intros other config lo c Hother Hok.
    destruct (loop_keeps_step self (handler_of t) (context_of t) (Resources t)
                st0 (other, config) Hother) as [before [_ G2]].
    rewrite <- Est in G2. destruct G2 as (W2 & _ & I2 & T2 & _).
    unfold convert_resource_step in W2, I2, T2. rewrite Hok in W2, I2, T2.
    cbn in W2, I2, T2.
    split; [| split].
    + rewrite Cw, Fw. intros w Hw. apply W2, in_or_app. now right.
    + rewrite Ci, Fi. intros w Hw. apply I2, in_or_app. now right.
    + exists (terraform_resources st). rewrite Cc. split; [exact Fr |].
      intros ty Hty. apply T2. rewrite mem_update, Hty. apply orb_true_r.
  - intros earlier later other config lo c ty body0 Hsplit Hok Hshape Hlater.
    exists (terraform_resources st). rewrite Cc. split; [exact Fr |].
    rewrite Est, Hsplit. unfold convert_resources.
    rewrite fold_left_app. cbn [fold_left].
    fold (convert_resources self (handler_of t) (context_of t) earlier st0).
    fold (convert_resources self (handler_of t) (context_of t) later
            (convert_resource_step self (handler_of t) (context_of t)
               (convert_resources self (handler_of t) (context_of t) earlier st0)
               (other, config))).
    rewrite (loop_keeps_type self (handler_of t) (context_of t) ty later _ Hlater).
    unfold convert_resource_step. rewrite Hok, Hshape.
    cbn [terraform_resources PyDict.update fold_left fst snd].
    apply get_set_same.
  - rewrite Cv, Fv, Gv. exact Bv.
  - rewrite Cl, Fl, Gl. reflexivity.
  - pose proof (after_resources_outputs t st) as O. fold body in O.
    destruct (outputs_phase t) as [lo [o | e']].
    + destruct O as [On Oo]. unfold close_template.
      destruct body as [[lb rb] eb]. cbn [fst snd] in On, Oo. subst eb.
      rewrite Oo. destruct o; [reflexivity |].
      rewrite Go. unfold before_resources.
      destruct v, (Mappings t), (Conditions t); reflexivity.
    + unfold close_template. destruct body as [[lb rb] eb]. cbn [snd] in O.
      subst eb. cbn. apply in_or_app. right. now left.
Qed.

Lemma resource_failure_is_isolated_witness :
  In "Failed to convert resource Bad: object of type 'int' has no len()"
     (errors (snd (convert_template default_engine failing_resource_template))).
Proof.
  refine (proj1 (resource_failure_is_isolated default_engine
                   failing_resource_template [] None "Bad"
                   (VDict [("Type", VStr "AWS::EC2::Subnet");
                           ("Properties",
                            VDict [("VpcId", VDict [("Fn::GetAtt", VInt 3)])])])
                   [] (TypeError "object of type 'int' has no len()")
                   eq_refl _ eq_refl)).
  right. left. reflexivity.
Defined.

(** ** The import executor *)

Lemma is_dir_set_cwd : forall d d' w,
  Imports.is_dir d (Imports.set_cwd d' w) = Imports.is_dir d w.
Proof. reflexivity. Qed.

Lemma finally_restore_cwd :
  forall (A : Type) (original_cwd : string) (pending : result A) (w : Imports.World),
    Imports.is_dir original_cwd w = true ->
    Imports.cwd (fst (Imports.finally_restore original_cwd pending w)) = original_cwd.
Proof.
  intros A original_cwd pending w H.
  unfold Imports.finally_restore, Imports.chdir. rewrite H. reflexivity.
Qed.

(** C10. Whatever the command does (it completes with any return code,
    times out, or cannot be started, or the configuration root cannot be
    entered), the working directory after [_execute_terraform_command]
    is the one before it. *)
Theorem command_restores_cwd :
  forall (self : Imports.ImportManager) (command : string) (w : Imports.World),
    Imports.cwd (fst (Imports._execute_terraform_command self command w)) =
      Imports.cwd w.
Proof.
  intros self command w. unfold Imports._execute_terraform_command, Imports.getcwd.
  destruct (Imports.is_dir (Imports.cwd w) w) eqn:D; [| reflexivity].
  unfold Imports.chdir at 1.
  destruct (Imports.is_dir (Imports.terraform_dir self) w) eqn:T.
  - unfold Imports.subprocess_run.
    destruct (Imports.terraform (Imports.set_cwd (Imports.terraform_dir self) w)
                command
                (count_occ string_dec
                   (Imports.executed (Imports.set_cwd (Imports.terraform_dir self) w))
                   command));
      apply finally_restore_cwd; exact D.
  - apply finally_restore_cwd; exact D.
Qed.

(** ** The worker pool *)

Lemma report_reports : forall cmd_info outcome w,
  reports cmd_info (snd (Imports.report cmd_info 0 outcome w)).
Proof.
  intros cmd_info [p | e] w; unfold Imports.report;
    [destruct (Z.eqb (Imports.returncode p) 0) |]; repeat split.
Qed.

Lemma task_step_ok : forall self cmd_info task w,
  task_ok cmd_info task ->
  task_ok cmd_info (snd (Imports.task_step self cmd_info task w)).
Proof.
  intros self cmd_info task w H. destruct task; cbn [Imports.task_step].
  - destruct (Imports.getcwd w) as [w0 [c | e]]; exact I.
  - destruct (Imports.chdir (Imports.terraform_dir self) w) as [w1 [[] | e]]; exact I.
  - destruct (Imports.subprocess_run (Imports.command cmd_info) w)
      as [w2 [rc out err | | e]]; exact I.
  - destruct (Imports.finally_restore original_cwd pending w) as [w3 outcome].
    exact I.
  - pose proof (report_reports cmd_info outcome w) as R.
    destruct (Imports.report cmd_info 0 outcome w) as [w4 r]. exact R.
  - exact H.
Qed.

Lemma task_step_rank : forall self cmd_info task w,
  Imports.unfinished task = true ->
  task_rank (snd (Imports.task_step self cmd_info task w)) < task_rank task.
Proof.
  intros self cmd_info task w H. destruct task; cbn [Imports.task_step].
  - destruct (Imports.getcwd w) as [w0 [c | e]]; cbn; lia.
  - destruct (Imports.chdir (Imports.terraform_dir self) w) as [w1 [[] | e]];
      cbn; lia.
  - destruct (Imports.subprocess_run (Imports.command cmd_info) w)
      as [w2 [rc out err | | e]]; cbn; lia.
  - destruct (Imports.finally_restore original_cwd pending w) as [w3 outcome].
    cbn. lia.
  - destruct (Imports.report cmd_info 0 outcome w) as [w4 r]. cbn. lia.
  - discriminate H.
Qed.

Lemma rank_finished : forall task,
  task_rank task = 0 <-> Imports.unfinished task = false.
Proof. intros []; cbn; split; intros H; try reflexivity; discriminate H. Qed.

Lemma set_nth_length : forall i task tasks,
  List.length (Imports.set_nth i task tasks) = List.length tasks.
Proof.
  intros i task tasks. revert i.
  induction tasks as [| first rest IH]; intros [| i]; cbn; auto.
Qed.

Lemma set_nth_same : forall i task tasks,
  i < List.length tasks ->
  nth_error (Imports.set_nth i task tasks) i = Some task.
Proof.
  intros i task tasks. revert i.
  induction tasks as [| first rest IH]; intros [| i] H; cbn in *; try lia;
    [reflexivity | apply IH; lia].
Qed.

Lemma set_nth_firstn : forall i k task tasks,
  k <= i -> firstn k (Imports.set_nth i task tasks) = firstn k tasks.
Proof.
  intros i k task tasks. revert i k.
  induction tasks as [| first rest IH]; intros [| i] [| k] H; cbn;
    try reflexivity; try lia.
  f_equal. apply IH. lia.
Qed.

Lemma set_nth_forall2 :
  forall (P : Imports.ImportCommand -> Imports.Task -> Prop)
         (commands : list Imports.ImportCommand) (tasks : list Imports.Task)
         (i : nat) (cmd_info : Imports.ImportCommand) (task : Imports.Task),
    Forall2 P commands tasks ->
    nth_error commands i = Some cmd_info ->
    P cmd_info task ->
    Forall2 P commands (Imports.set_nth i task tasks).
Proof.
  intros P commands tasks i cmd_info task H. revert i.
  induction H as [| c t commands tasks Hc Hr IH]; intros [| i] Hn Hp; cbn in *;
    try discriminate.
  - injection Hn as ->. now constructor.
  - constructor; [exact Hc | now apply IH].
Qed.

Lemma forall2_nth :
  forall (P : Imports.ImportCommand -> Imports.Task -> Prop)
         (commands : list Imports.ImportCommand) (tasks : list Imports.Task)
         (i : nat) (cmd_info : Imports.ImportCommand) (task : Imports.Task),
    Forall2 P commands tasks ->
    nth_error commands i = Some cmd_info ->
    nth_error tasks i = Some task ->
    P cmd_info task.
Proof.
  intros P commands tasks i cmd_info task H. revert i.
  induction H as [| c t commands tasks Hc _ IH]; intros [| i] Hn Ht; cbn in *;
    try discriminate.
  - injection Hn as <-. injection Ht as <-. exact Hc.
  - now apply (IH i).
Qed.

(** A step of the pool keeps the number of tasks and what the finished
    ones report. *)
Lemma pool_step_ok :
  forall self workers commands w tasks i,
    Forall2 task_ok commands tasks ->
    Forall2 task_ok commands
      (snd (Imports.pool_step self workers commands (w, tasks) i)).
Proof.
  intros self workers commands w tasks i H. unfold Imports.pool_step.
  destruct (Imports.runnable workers tasks i); [| exact H].
  destruct (nth_error commands i) as [cmd_info |] eqn:C; [| exact H].
  destruct (nth_error tasks i) as [task |] eqn:T; [| exact H].
  pose proof (task_step_ok self cmd_info task w (forall2_nth _ _ _ _ _ _ H C T)) as S.
  destruct (Imports.task_step self cmd_info task w) as [w' task']. cbn [snd] in *.
  now apply (set_nth_forall2 _ _ _ _ cmd_info).
Qed.

Lemma pool_steps_ok :
  forall self workers commands schedule w tasks,
    Forall2 task_ok commands tasks ->
    Forall2 task_ok commands
      (snd (fold_left (Imports.pool_step self workers commands) schedule (w, tasks))).
Proof.
  intros self workers commands. induction schedule as [| i schedule IH];
    intros w tasks H; cbn [fold_left]; [exact H |].
  pose proof (pool_step_ok self workers commands w tasks i H) as S.
  destruct (Imports.pool_step self workers commands (w, tasks) i) as [w' tasks'].
  now apply IH.
Qed.

(** How far the task [i] is from its end. *)
Lemma finished_prefix_runnable :
  forall workers tasks i task,
    0 < workers ->
    Forall (fun t => Imports.unfinished t = false) (firstn i tasks) ->
    nth_error tasks i = Some task ->
    Imports.runnable workers tasks i = Imports.unfinished task.
Proof.
  intros workers tasks i task Hw Hp Ht. unfold Imports.runnable. rewrite Ht.
  destruct task; try reflexivity. cbn [Imports.unfinished].
  assert (E : filter Imports.unfinished (firstn i tasks) = []).
  { induction Hp as [| t l Ht' _ IH]; [reflexivity |].
    cbn [filter]. now rewrite Ht'. }
  rewrite E. cbn [List.length]. now apply Nat.ltb_lt.
Qed.

Lemma pool_step_advances :
  forall self workers commands w tasks i task,
    0 < workers ->
    List.length commands = List.length tasks ->
    Forall (fun t => Imports.unfinished t = false) (firstn i tasks) ->
    nth_error tasks i = Some task ->
    exists task',
      snd (Imports.pool_step self workers commands (w, tasks) i) =
        Imports.set_nth i task' tasks
      /\ task_rank task' <= task_rank task - 1.
Proof.
  intros self workers commands w tasks i task Hw Hl Hp Ht.
  assert (Hi : i < List.length tasks) by (apply nth_error_Some; congruence).
  unfold Imports.pool_step.
  rewrite (finished_prefix_runnable workers tasks i task Hw Hp Ht), Ht.
  destruct (Imports.unfinished task) eqn:U.
  - destruct (nth_error commands i) as [cmd_info |] eqn:C.
    + pose proof (task_step_rank self cmd_info task w U) as R.
      destruct (Imports.task_step self cmd_info task w) as [w' task'].
      cbn [snd] in *. exists task'. split; [reflexivity | lia].
    + apply nth_error_None in C. lia.
  - exists task. cbn [snd]. split.
    + clear - Ht. revert i Ht. induction tasks as [| t l IH]; intros [| i] Ht;
        cbn in *; try discriminate; [now injection Ht as -> |].
      f_equal. now apply IH.
    + apply rank_finished in U. lia.
Qed.

Lemma task_runs_to_its_end :
  forall self workers commands i n w tasks task,
    0 < workers ->
    List.length commands = List.length tasks ->
    Forall (fun t => Imports.unfinished t = false) (firstn i tasks) ->
    nth_error tasks i = Some task ->
    exists task',
      snd (fold_left (Imports.pool_step self workers commands) (repeat i n)
             (w, tasks)) = Imports.set_nth i task' tasks
      /\ task_rank task' <= task_rank task - n.
Proof.
  intros self workers commands i n. induction n as [| n IH];
    intros w tasks task Hw Hl Hp Ht; cbn [repeat fold_left].
  - exists task. cbn [snd]. split; [| lia].
    clear - Ht. revert i Ht. induction tasks as [| t l IH]; intros [| i] Ht;
      cbn in *; try discriminate; [now injection Ht as -> |].
    f_equal. now apply IH.
  - assert (Hi : i < List.length tasks) by (apply nth_error_Some; congruence).
    destruct (pool_step_advances self workers commands w tasks i task Hw Hl Hp Ht)
      as (task1 & E1 & R1).
    destruct (Imports.pool_step self workers commands (w, tasks) i) as [w1 tasks1].
    cbn [snd] in E1. subst tasks1.
    destruct (IH w1 (Imports.set_nth i task1 tasks) task1 Hw) as (task' & E & R).
    + now rewrite set_nth_length.
    + now rewrite set_nth_firstn.
    + now apply set_nth_same.
    + exists task'. split; [| lia]. rewrite E.
      clear. revert i. induction tasks as [| t l IH]; intros [| i]; cbn;
        try reflexivity. f_equal. apply IH.
Qed.

Lemma firstn_S_set_nth : forall i task tasks,
  i < List.length tasks ->
  firstn (S i) (Imports.set_nth i task tasks) = (firstn i tasks ++ [task])%list.
Proof.
  intros i task tasks. revert i.
  induction tasks as [| first rest IH]; intros [| i] H; cbn in *; try lia;
    [reflexivity |].
  f_equal. apply IH. lia.
Qed.

(** Once the tasks before [k] are finished, the steps that wait for the
    pool finish the others. *)
Lemma completing_finishes :
  forall self workers commands m k w tasks,
    0 < workers ->
    Forall2 task_ok commands tasks ->
    k + m = List.length tasks ->
    Forall (fun t => Imports.unfinished t = false) (firstn k tasks) ->
    Forall (fun t => Imports.unfinished t = false)
      (snd (fold_left (Imports.pool_step self workers commands)
              (flat_map (fun i => repeat i 5) (seq k m)) (w, tasks))).
Proof.
  intros self workers commands. induction m as [| m IH];
    intros k w tasks Hw Hok Hk Hp.
  - cbn. replace k with (List.length tasks) in Hp by lia.
    now rewrite firstn_all in Hp.
  - cbn [seq flat_map]. rewrite fold_left_app.
    assert (Hl : List.length commands = List.length tasks)
      by (eapply Forall2_length; eassumption).
    destruct (nth_error tasks k) as [task |] eqn:T;
      [| apply nth_error_None in T; lia].
    destruct (task_runs_to_its_end self workers commands k 5 w tasks task
                Hw Hl Hp T) as (task' & E & R).
    pose proof (pool_steps_ok self workers commands (repeat k 5) w tasks Hok) as Hok'.
    destruct (fold_left (Imports.pool_step self workers commands) (repeat k 5)
                (w, tasks)) as [w1 tasks1].
    cbn [snd] in E, Hok'. subst tasks1.
    apply IH; try assumption.
    + rewrite set_nth_length. lia.
    + rewrite firstn_S_set_nth by lia. apply Forall_app. split; [exact Hp |].
      constructor; [| constructor]. apply rank_finished.
      assert (task_rank task <= 5) by (destruct task; cbn; lia). lia.
Qed.

Lemma queued_ok : forall commands,
  Forall2 task_ok commands (repeat Imports.Queued (List.length commands)).
Proof.
  induction commands as [| c commands IH]; cbn [List.length repeat];
    constructor; [exact I | exact IH].
Qed.

Lemma results_of_finished : forall commands tasks,
  Forall2 task_ok commands tasks ->
  Forall (fun t => Imports.unfinished t = false) tasks ->
  Forall2 reports commands (Imports.results_of tasks).
Proof.
  intros commands tasks H. induction H as [| c t commands tasks Hc Hr IH];
    intros F; [constructor |].
  inversion F as [| t' l Ht Hl]; subst.
  destruct t; try discriminate Ht.
  cbn [Imports.results_of flat_map app]. constructor; [exact Hc | now apply IH].
Qed.

(** Whatever the interleaving of the steps, the pool ends with one
    result for each command. *)
Lemma pool_run :
  forall self workers commands schedule w,
    0 < workers ->
    Forall2 reports commands
      (Imports.results_of
         (snd (fold_left (Imports.pool_step self workers commands)
                 (schedule ++ Imports.completing (List.length commands))
                 (w, repeat Imports.Queued (List.length commands))))).
Proof.
  intros self workers commands schedule w Hw.
  rewrite fold_left_app. unfold Imports.completing.
  pose proof (pool_steps_ok self workers commands schedule w _
                (queued_ok commands)) as Hok.
  destruct (fold_left (Imports.pool_step self workers commands) schedule
              (w, repeat Imports.Queued (List.length commands))) as [w1 tasks1].
  cbn [snd] in Hok.
  assert (Hl : List.length commands = List.length tasks1)
    by (eapply Forall2_length; eassumption).
  apply results_of_finished.
  - now apply pool_steps_ok.
  - apply (completing_finishes self workers commands (List.length commands) 0
             w1 tasks1 Hw Hok); [cbn; lia | constructor].
Qed.

(** The order of collection is a rearrangement. *)
Lemma collection_order_permutation : forall collected n,
  Permutation (Imports.collection_order collected n) (seq 0 n).
Proof.
  intros collected n. unfold Imports.collection_order.
  set (listed := nodup Nat.eq_dec (filter (fun i => (i <? n)%nat) collected)).
  assert (Hin : forall x, In x listed -> x < n).
  { intros x H. unfold listed in H. rewrite nodup_In, filter_In in H.
    now apply Nat.ltb_lt. }
  apply NoDup_Permutation.
  - apply NoDup_app.
    + apply NoDup_nodup.
    + apply NoDup_filter, seq_NoDup.
    + intros x H1 H2. apply filter_In in H2 as [_ H2].
      apply negb_true_iff in H2.
      assert (E : existsb (Nat.eqb x) listed = true).
      { apply existsb_exists. exists x. split; [exact H1 | apply Nat.eqb_refl]. }
      congruence.
  - apply seq_NoDup.
  - intros x. rewrite in_app_iff, filter_In, in_seq. split.
    + intros [H | [H _]]; [specialize (Hin x H) |]; lia.
    + intros H. destruct (existsb (Nat.eqb x) listed) eqn:E.
      * left. apply existsb_exists in E as (y & Hy & Exy).
        apply Nat.eqb_eq in Exy. now subst y.
      * right. split; [lia | reflexivity].
Qed.

Lemma nth_error_all :
  forall (futures prefix : list Imports.ImportResult),
    flat_map (fun i => match nth_error (prefix ++ futures) i with
                       | Some r => [r]
                       | None => []
                       end)
      (seq (List.length prefix) (List.length futures)) = futures.
Proof.
  induction futures as [| r futures IH]; intros prefix; [reflexivity |].
  cbn [List.length seq flat_map].
  rewrite nth_error_app2 by lia. rewrite Nat.sub_diag. cbn [nth_error app].
  f_equal.
  specialize (IH (prefix ++ [r])%list).
  rewrite <- app_assoc, length_app in IH. cbn [app List.length] in IH.
  rewrite Nat.add_1_r in IH. exact IH.
Qed.

Lemma as_completed_permutation : forall collected futures,
  Permutation (Imports.as_completed collected futures) futures.
Proof.
  intros collected futures. unfold Imports.as_completed.
  rewrite (collection_order_permutation collected (List.length futures)).
  pose proof (nth_error_all futures []) as E. cbn [app List.length] in E.
  now rewrite E.
Qed.

Lemma recorded_results : forall rs s,
  Imports.results (fold_left (fun summary r => Imports.record_result r summary) rs s) =
    (Imports.results s ++ rs)%list.
Proof.
  induction rs as [| r rs IH]; intros s; cbn [fold_left].
  - now rewrite app_nil_r.
  - rewrite IH. cbn [Imports.record_result Imports.results].
    now rewrite <- app_assoc.
Qed.

(** With a positive number of workers the parallel run returns a
    summary, and its results are, in some order, one per command. *)
Lemma parallel_imports_run :
  forall (self : Imports.ImportManager) (commands : list Imports.ImportCommand)
         (scheduling : Imports.Scheduling) (w : Imports.World),
    (0 < Imports.max_workers self)%Z ->
    exists w' rs,
      Imports._execute_parallel_imports self commands scheduling w =
        (w', Ok (fold_left (fun summary r => Imports.record_result r summary)
                   (Imports.as_completed (Imports.collected scheduling) rs)
                   (Imports.with_total (List.length commands) Imports.new_summary)))
      /\ Forall2 reports commands rs.
Proof.
  intros self commands scheduling w H.
  unfold Imports._execute_parallel_imports.
  destruct (Z.leb_spec (Imports.max_workers self) 0) as [L | _]; [lia |].
  pose proof (pool_run self (Z.to_nat (Imports.max_workers self)) commands
                (Imports.steps scheduling) w ltac:(lia)) as R.
  destruct (fold_left
              (Imports.pool_step self (Z.to_nat (Imports.max_workers self)) commands)
              (Imports.steps scheduling ++ Imports.completing (List.length commands))
              (w, repeat Imports.Queued (List.length commands))) as [w' tasks].
  cbn [snd] in R. exists w', (Imports.results_of tasks). split; [reflexivity | exact R].
Qed.

Lemma parallel_never_retries :
  forall (self : Imports.ImportManager) (commands : list Imports.ImportCommand)
         (scheduling : Imports.Scheduling) (w : Imports.World)
         (w' : Imports.World) (summary : Imports.ImportSummary),
    Imports._execute_parallel_imports self commands scheduling w = (w', Ok summary) ->
    Forall (fun r => Imports.retry_count r = 0%Z) (Imports.results summary)
    /\ Permutation (map Imports.resource_address (Imports.results summary))
         (map Imports.address commands).
Proof.
  intros self commands scheduling w w' summary H.
  destruct (Z.leb_spec (Imports.max_workers self) 0) as [L | L].
  - unfold Imports._execute_parallel_imports in H.
    apply Z.leb_le in L. rewrite L in H. discriminate H.
  - destruct (parallel_imports_run self commands scheduling w L)
      as (w1 & rs & E & R).
    rewrite E in H. injection H as _ <-. rewrite recorded_results.
    cbn [Imports.with_total Imports.new_summary Imports.results app].
    pose proof (as_completed_permutation (Imports.collected scheduling) rs) as P.
    split.
    + apply (Permutation_Forall (Permutation_sym P)).
      clear - R. induction R as [| c r cs rs (_ & _ & Hr) _ IH]; constructor; assumption.
    + rewrite (Permutation_map Imports.resource_address P).
      clear - R. induction R as [| c r cs rs (Ha & _ & _) _ IH]; [constructor |].
      cbn [map]. rewrite Ha. now constructor.
Qed.

Lemma single_import_retry_count :
  forall (self : Imports.ImportManager) (cmd_info : Imports.ImportCommand)
         (retry : Z) (w : Imports.World),
    Imports.retry_count (snd (Imports._execute_single_import self cmd_info retry w)) =
      retry.
Proof.
  intros self cmd_info retry w. unfold Imports._execute_single_import.
  destruct (Imports._execute_terraform_command self (Imports.command cmd_info) w)
    as [w' [p | e]]; [| reflexivity].
  destruct (Z.eqb (Imports.returncode p) 0); reflexivity.
Qed.

(** The five steps of a task, taken without another task's step in
    between, are the call [_execute_single_import(cmd_info)]. *)
Lemma single_import_in_steps :
  forall (self : Imports.ImportManager) (cmd_info : Imports.ImportCommand)
         (w : Imports.World),
    Nat.iter 5 (fun acc => Imports.task_step self cmd_info (snd acc) (fst acc))
      (w, Imports.Queued) =
      (fst (Imports._execute_single_import self cmd_info 0 w),
       Imports.Finished (snd (Imports._execute_single_import self cmd_info 0 w))).
Proof.
  intros self cmd_info w. cbn [Nat.iter nat_rect].
  unfold Imports._execute_single_import, Imports._execute_terraform_command.
  cbn [Imports.task_step fst snd].
  destruct (Imports.getcwd w) as [w0 [original_cwd | e]]; cbn [fst snd Imports.task_step].
  - destruct (Imports.chdir (Imports.terraform_dir self) w0) as [w1 [[] | e]];
      cbn [fst snd Imports.task_step].
    + destruct (Imports.subprocess_run (Imports.command cmd_info) w1)
        as [w2 [rc out err | | e]]; cbn [fst snd Imports.task_step];
        match goal with
        | |- context [Imports.finally_restore ?c ?p ?w] =>
            destruct (Imports.finally_restore c p w) as [w3 [pr | e']]
        end; cbn [fst snd Imports.task_step Imports.report];
        try reflexivity;
        destruct (Z.eqb (Imports.returncode pr) 0); reflexivity.
    + match goal with
        | |- context [Imports.finally_restore ?c ?p ?w] =>
            destruct (Imports.finally_restore c p w) as [w3 [pr | e']]
        end; cbn [fst snd Imports.task_step Imports.report];
        try reflexivity;
        destruct (Z.eqb (Imports.returncode pr) 0); reflexivity.
  - reflexivity.
Qed.

(** C6 (code defect). On the batch of three commands whose second one
    fails twice and then succeeds, with at most two retries allowed: the
    bounded-parallel mode runs each command once and counts two
    successes, whether the tasks run in turn or their steps alternate;
    however the pool schedules them, it returns a summary with one
    attempt per command and none of them a retry.  The sequential mode
    retries the failing command once only, and counts two successes as
    well.  No attempt carries the retry count 2 and the third command run
    that would succeed never takes place. *)
Theorem retry_scenario_falls_short :
  (exists w' summary,
     Imports._execute_parallel_imports (batch_manager true) batch in_turn
       batch_world = (w', Ok summary)
     /\ attempts summary =
          [("aws_vpc.a", 0%Z); ("aws_subnet.b", 0%Z); ("aws_s3_bucket.c", 0%Z)]
     /\ Imports.successful_imports summary = 2%Z
     /\ Imports.executed w' = map Imports.command batch)
  /\ (exists w' summary,
        Imports._execute_parallel_imports (batch_manager true) batch alternating
          batch_world = (w', Ok summary)
        /\ attempts summary =
             [("aws_s3_bucket.c", 0%Z); ("aws_subnet.b", 0%Z); ("aws_vpc.a", 0%Z)]
        /\ Imports.successful_imports summary = 2%Z
        /\ Permutation (Imports.executed w') (map Imports.command batch))
  /\ (forall scheduling,
        exists w' summary,
          Imports._execute_parallel_imports (batch_manager true) batch scheduling
            batch_world = (w', Ok summary)
          /\ Forall (fun r => Imports.retry_count r = 0%Z) (Imports.results summary)
          /\ Permutation (map Imports.resource_address (Imports.results summary))
               (map Imports.address batch))
  /\ attempts (snd (Imports._execute_sequential_imports (batch_manager false)
                      batch batch_world)) =
       [("aws_vpc.a", 0%Z); ("aws_subnet.b", 0%Z); ("aws_subnet.b", 1%Z);
        ("aws_s3_bucket.c", 0%Z)]
  /\ Imports.successful_imports
       (snd (Imports._execute_sequential_imports (batch_manager false)
               batch batch_world)) = 2%Z
  /\ Imports.failed_imports
       (snd (Imports._execute_sequential_imports (batch_manager false)
               batch batch_world)) = 2%Z.
Proof.
  split.
  { eexists. eexists. split; [vm_compute; reflexivity |].
    split; [reflexivity |]. split; reflexivity. }
  split.
  { eexists. eexists. split; [vm_compute; reflexivity |].
    split; [reflexivity |]. split; [reflexivity |].
    vm_compute. apply Permutation_refl. }
  split.
  { intros scheduling.
    destruct (parallel_imports_run (batch_manager true) batch scheduling
                batch_world ltac:(reflexivity)) as (w' & rs & E & R).
    eexists. eexists. split; [exact E |].
    now apply (parallel_never_retries (batch_manager true) batch scheduling
                 batch_world w'). }
  split; [vm_compute; reflexivity |].
  split; vm_compute; reflexivity.
Qed.

(** ** The state backup *)

(** C7 (as stated, refuted). With the backup enabled and the copy of the
    state file failing, [execute_import_script] raises the error of the
    copy: it returns no summary, logs no warning, and no command of the
    script is run. *)
Lemma backup_failure_aborts_batch :
  snd (Imports.execute_import_script backup_manager "/tf/import_resources.sh"
         (fun _ => in_turn) read_only_world) =
    Raise (Imports.permission_denied
             "/tf/state_backups/terraform.tfstate.20240101_000000")
  /\ Imports.executed
       (fst (Imports.execute_import_script backup_manager "/tf/import_resources.sh"
               (fun _ => in_turn) read_only_world)) = []
  /\ logged_warnings
       (fst (Imports.execute_import_script backup_manager "/tf/import_resources.sh"
               (fun _ => in_turn) read_only_world)) = [].
Proof. repeat split. Qed.

Lemma logger_run : forall lvl msg w,
  Imports.logger lvl msg w = (fst (Imports.logger lvl msg w), Ok tt).
Proof. reflexivity. Qed.

Lemma path_exists_logger : forall p lvl msg w,
  Imports.path_exists p (fst (Imports.logger lvl msg w)) = Imports.path_exists p w.
Proof. reflexivity. Qed.

Lemma logger_info_warnings : forall msg w,
  logged_warnings (fst (Imports.logger INFO msg w)) = logged_warnings w.
Proof.
  intros msg w. unfold logged_warnings, Imports.logger.
  cbn [fst Imports.log_records]. rewrite filter_app. cbn [filter fst].
  apply app_nil_r.
Qed.

Lemma backup_state_file_frame : forall self backup_dir state_file w,
  backup_frame w (fst (Imports.backup_state_file self backup_dir state_file w)).
Proof.
  intros self backup_dir state_file w. unfold Imports.backup_state_file.
  destruct (Imports.path_exists _ w); [| split; reflexivity].
  unfold Imports.io_bind, Imports.copy2.
  destruct (PyDict.get _ (Imports.files w)).
  - destruct (existsb _ (Imports.unwritable w)); [split; reflexivity |].
    split; [reflexivity |]. cbn [fst]. now rewrite logger_info_warnings.
  - destruct (Imports.is_dir _ w); split; reflexivity.
Qed.

Lemma mkdir_frame : forall d parent w,
  backup_frame w (fst (Imports.mkdir_exist_ok d parent w)).
Proof.
  intros d parent w. unfold Imports.mkdir_exist_ok.
  destruct (Imports.is_dir d w); [split; reflexivity |].
  destruct (Imports.is_file d w); [split; reflexivity |].
  destruct (Imports.is_dir parent w).
  - destruct (existsb _ (Imports.unwritable w)); split; reflexivity.
  - destruct (Imports.is_file parent w); split; reflexivity.
Qed.

Lemma backup_frame_trans : forall w1 w2 w3,
  backup_frame w1 w2 -> backup_frame w2 w3 -> backup_frame w1 w3.
Proof. intros w1 w2 w3 [A B] [C D]. split; congruence. Qed.

Lemma backup_keeps : forall self w,
  backup_frame w (fst (Imports._create_state_backup self w)).
Proof.
  intros self w. unfold Imports._create_state_backup, Imports.io_bind.
  pose proof (mkdir_frame (Imports.in_terraform_dir self "state_backups")
                (Imports.terraform_dir self) w) as M.
  destruct (Imports.mkdir_exist_ok _ _ w) as [w1 [[] | e]]; cbn [fst] in M |- *;
    [| exact M].
  pose proof (backup_state_file_frame self
                (Imports.in_terraform_dir self "state_backups")
                "terraform.tfstate" w1) as B1.
  destruct (Imports.backup_state_file self _ "terraform.tfstate" w1)
    as [w2 [[] | e]]; cbn [fst] in B1 |- *;
    [| exact (backup_frame_trans _ _ _ M B1)].
  eapply backup_frame_trans; [exact M |].
  eapply backup_frame_trans; [exact B1 |].
  apply backup_state_file_frame.
Qed.

Ltac enter_script w1 He Hb B :=
  unfold Imports.execute_import_script, Imports.io_bind at 1;
  match goal with
  | |- context [Imports.logger INFO ?msg ?w] =>
      change (Imports.logger INFO msg w) with (w1, @Ok unit tt)
  end;
  cbv iota beta;
  match goal with
  | |- context [Imports.path_exists ?p w1] =>
      change (Imports.path_exists p w1)
        with (Imports.path_exists p
                ltac:(match type of He with
                      | Imports.path_exists _ ?w = _ => exact w
                      end))
  end;
  rewrite He, Hb; cbn [negb]; unfold Imports.io_bind at 1; rewrite B.

Lemma script_backup_raises :
  forall (self : Imports.ImportManager) (import_script : string)
         (scheduling : list Imports.ImportCommand -> Imports.Scheduling)
         (w w' : Imports.World) (e : exn),
    Imports.create_backup self = true ->
    Imports.path_exists import_script w = true ->
    Imports._create_state_backup self
      (fst (Imports.logger INFO
              ("Executing import script: " ++ import_script) w)) = (w', Raise e) ->
    Imports.execute_import_script self import_script scheduling w = (w', Raise e).
Proof.
  intros self import_script scheduling w w' e Hb He B.
  set (w1 := fst (Imports.logger INFO
                    ("Executing import script: " ++ import_script) w)) in B.
  enter_script w1 He Hb B. reflexivity.
Qed.

Lemma script_backup_returns :
  forall (self : Imports.ImportManager) (import_script : string)
         (scheduling : list Imports.ImportCommand -> Imports.Scheduling)
         (w w' : Imports.World),
    Imports.create_backup self = true ->
    Imports.path_exists import_script w = true ->
    Imports._create_state_backup self
      (fst (Imports.logger INFO
              ("Executing import script: " ++ import_script) w)) = (w', Ok tt) ->
    exists w'' summary,
      Imports.execute_import_script self import_script scheduling w =
        (w'', Ok summary).
Proof.
  intros self import_script scheduling w w' Hb He B.
  set (w1 := fst (Imports.logger INFO
                    ("Executing import script: " ++ import_script) w)) in B.
  enter_script w1 He Hb B.
  destruct (Imports._parse_import_script import_script w')
    as [w2 [cmds | e]]; [| eexists; eexists; reflexivity].
  cbv zeta.
  destruct (Imports.parallel self && (1 <? List.length cmds)%nat).
  - destruct (Imports._execute_parallel_imports self cmds (scheduling cmds) w2)
      as [w3 [summary | e]]; eexists; eexists; reflexivity.
  - destruct (Imports._execute_sequential_imports self cmds w2) as [w3 summary].
    eexists; eexists; reflexivity.
Qed.

(** C7 (amended). With the backup enabled, the backup is made before the
    script is read.  If it raises, [execute_import_script] raises the same
    exception: no summary is returned, no warning is logged and no
    command is run.  Only when it goes through does the batch proceed,
    and then a summary comes back. *)
Theorem backup_failure_propagates :
  forall (self : Imports.ImportManager) (import_script : string)
         (scheduling : list Imports.ImportCommand -> Imports.Scheduling)
         (w : Imports.World),
    Imports.create_backup self = true ->
    Imports.path_exists import_script w = true ->
    match Imports._create_state_backup self
            (fst (Imports.logger INFO
                    ("Executing import script: " ++ import_script) w)) with
    | (w', Raise e) =>
        Imports.execute_import_script self import_script scheduling w = (w', Raise e)
        /\ Imports.executed w' = Imports.executed w
        /\ logged_warnings w' = logged_warnings w
    | (w', Ok _) =>
        exists w'' summary,
          Imports.execute_import_script self import_script scheduling w =
            (w'', Ok summary)
    end.
Proof.
  intros self import_script scheduling w Hb He.
  pose proof (backup_keeps self
                (fst (Imports.logger INFO
                        ("Executing import script: " ++ import_script) w)))
    as [X W].
  rewrite logger_info_warnings in W.
  change (Imports.executed
            (fst (Imports.logger INFO
                    ("Executing import script: " ++ import_script) w)))
    with (Imports.executed w) in X.
  destruct (Imports._create_state_backup self
              (fst (Imports.logger INFO
                      ("Executing import script: " ++ import_script) w)))
    as [w' [[] | e]] eqn:B.
  - exact (script_backup_returns self import_script scheduling w w' Hb He B).
  - cbn [fst] in X, W.
    split; [exact (script_backup_raises self import_script scheduling w w' e
                     Hb He B) |].
    split; assumption.
Qed.

Lemma backup_failure_propagates_witness :
  Imports.execute_import_script backup_manager "/tf/import_resources.sh"
    (fun _ => in_turn) read_only_world =
    (fst (Imports.logger INFO "Executing import script: /tf/import_resources.sh"
            read_only_world),
     Raise (Imports.permission_denied
              "/tf/state_backups/terraform.tfstate.20240101_000000")).
Proof.
  exact (proj1 (backup_failure_propagates backup_manager "/tf/import_resources.sh"
                  (fun _ => in_turn) read_only_world eq_refl eq_refl)).
Defined.

(** ** Resources of one target type *)

(** The resource set keeps, for a target type, the body of the last
    resource converted to it. *)
Lemma last_of_type_kept :
  forall (self : ConversionEngine) (t : Template)
         (l : list log_record) (v : option dict)
         (earlier later : dict) (other : string) (config : value)
         (lo : list log_record) (c : ConvertedResource)
         (ty : string) (body : value),
    parameters_phase t = (l, Ok v) ->
    Resources t = (earlier ++ (other, config) :: later)%list ->
    _convert_resource self other config (handler_of t) (context_of t) =
      (lo, Ok (Some c)) ->
    cr_resources c = [(ty, body)] ->
    (forall id' config' l' c',
        In (id', config') later ->
        _convert_resource self id' config' (handler_of t) (context_of t) =
          (l', Ok (Some c')) ->
        PyDict.mem ty (cr_resources c') = false) ->
    exists resources,
      PyDict.get "resource" (terraform_config (snd (convert_template self t))) =
        Some (VDict resources)
      /\ PyDict.get ty resources = Some body.
Proof.
  intros self t l v earlier later other config lo c ty body
         Hpar Hsplit Hok Hshape Hlater.
  rewrite (convert_template_phases self t l v Hpar).
  set (st0 := {| terraform_resources := []; result_so_far := before_resources t v;
                 logged := l |}).
  set (st := after_loop self t l v).
  assert (Est : st = convert_resources self (handler_of t) (context_of t)
                       (Resources t) st0) by reflexivity.
  set (body0 := after_resources t (handler_of t) (context_of t) st).
  destruct (after_resources_frame t (handler_of t) (context_of t) st)
    as (_ & _ & _ & _ & _ & Fr). fold body0 in Fr.
  destruct (close_template_frame body0) as (_ & _ & _ & _ & Cc & _).
  exists (terraform_resources st). rewrite Cc. split; [exact Fr |].
  rewrite Est, Hsplit. unfold convert_resources.
  rewrite fold_left_app. cbn [fold_left].
  fold (convert_resources self (handler_of t) (context_of t) earlier st0).
  fold (convert_resources self (handler_of t) (context_of t) later
          (convert_resource_step self (handler_of t) (context_of t)
             (convert_resources self (handler_of t) (context_of t) earlier st0)
             (other, config))).
  rewrite (loop_keeps_type self (handler_of t) (context_of t) ty later _ Hlater).
  unfold convert_resource_step. rewrite Hok, Hshape.
  cbn [terraform_resources PyDict.update fold_left fst snd].
  apply get_set_same.
Qed.

(** The import commands of every converted resource are in the result. *)
Lemma converted_commands_kept :
  forall (self : ConversionEngine) (t : Template)
         (l : list log_record) (v : option dict)
         (other : string) (config : value)
         (lo : list log_record) (c : ConvertedResource),
    parameters_phase t = (l, Ok v) ->
    In (other, config) (Resources t) ->
    _convert_resource self other config (handler_of t) (context_of t) =
      (lo, Ok (Some c)) ->
    incl (cr_import_commands c) (import_commands (snd (convert_template self t))).
Proof.
  intros self t l v other config lo c Hpar Hother Hok.
  rewrite (convert_template_phases self t l v Hpar).
  set (st0 := {| terraform_resources := []; result_so_far := before_resources t v;
                 logged := l |}).
  set (st := after_loop self t l v).
  assert (Est : st = convert_resources self (handler_of t) (context_of t)
                       (Resources t) st0) by reflexivity.
  set (body0 := after_resources t (handler_of t) (context_of t) st).
  destruct (after_resources_frame t (handler_of t) (context_of t) st)
    as (_ & _ & Fi & _). fold body0 in Fi.
  destruct (close_template_frame body0) as (_ & Ci & _).
  destruct (loop_keeps_step self (handler_of t) (context_of t) (Resources t)
              st0 (other, config) Hother) as [before [_ G2]].
  rewrite <- Est in G2. destruct G2 as (_ & _ & I2 & _).
  unfold convert_resource_step in I2. rewrite Hok in I2. cbn in I2.
  rewrite Ci, Fi. intros w Hw. apply I2, in_or_app. now right.
Qed.

(** C1 (code defect). The failure of one resource is recorded and the
    loop goes on, but the result does not cover every resource that
    converts.  In the template with the VPCs [First] and [Second] and the
    failing resource [Bad] between them, the error of [Bad] is recorded
    and both VPCs are converted, their import commands are both in the
    result, and the resource set holds [Second] alone.  In general, when
    two resources convert to the same target type, the set holds under
    that type the body of the later one only, while the import command of
    the earlier one is still emitted. *)
Theorem same_type_resources_overwritten :
  errors (snd (convert_template default_engine same_type_template)) =
    ["Failed to convert resource Bad: object of type 'int' has no len()"]
  /\ PyDict.get "resource"
       (terraform_config (snd (convert_template default_engine same_type_template))) =
       Some (VDict
               [("aws_vpc",
                 VDict [("second", VDict [("cidr_block", VStr "10.1.0.0/16")])])])
  /\ import_commands (snd (convert_template default_engine same_type_template)) =
       ["terraform import aws_vpc.first PHYSICAL_ID";
        "terraform import aws_vpc.second PHYSICAL_ID"]
  /\ (forall (self : ConversionEngine) (t : Template)
             (l : list log_record) (v : option dict)
             (earlier between later : dict)
             (first_id second_id : string) (first_config second_config : value)
             (l1 l2 : list log_record) (c1 c2 : ConvertedResource)
             (ty : string) (body1 body2 : value),
        parameters_phase t = (l, Ok v) ->
        Resources t =
          (earlier ++ (first_id, first_config) :: between
             ++ (second_id, second_config) :: later)%list ->
        _convert_resource self first_id first_config (handler_of t) (context_of t) =
          (l1, Ok (Some c1)) ->
        cr_resources c1 = [(ty, body1)] ->
        _convert_resource self second_id second_config (handler_of t) (context_of t) =
          (l2, Ok (Some c2)) ->
        cr_resources c2 = [(ty, body2)] ->
        (forall id' config' l' c',
            In (id', config') later ->
            _convert_resource self id' config' (handler_of t) (context_of t) =
              (l', Ok (Some c')) ->
            PyDict.mem ty (cr_resources c') = false) ->
        incl (cr_import_commands c1)
             (import_commands (snd (convert_template self t)))
        /\ exists resources,
             PyDict.get "resource"
               (terraform_config (snd (convert_template self t))) =
               Some (VDict resources)
             /\ PyDict.get ty resources = Some body2).
Proof.
  split; [vm_compute; reflexivity |].
  split; [vm_compute; reflexivity |].
  split; [vm_compute; reflexivity |].
  intros self t l v earlier between later first_id second_id
         first_config second_config l1 l2 c1 c2 ty body1 body2
         Hpar Hsplit H1 S1 H2 S2 Hlater.
  split.
  - apply (converted_commands_kept self t l v first_id first_config l1 c1 Hpar);
      [| exact H1].
    rewrite Hsplit. apply in_or_app. right. now left.
  - apply (last_of_type_kept self t l v
             (earlier ++ (first_id, first_config) :: between)%list later
             second_id second_config l2 c2 ty body2 Hpar);
      try assumption.
    rewrite Hsplit, <- app_assoc. reflexivity.
Qed.

(* ================================================================== *)
(** * Further properties *)
(* ================================================================== *)

(** ** The resolver on data without function calls *)

Lemma mapM_identity : forall (f : value -> M value) (l : list value),
  Forall (fun x => f x = ret x) l -> mapM f l = ret l.
Proof.
  intros f l H. induction H as [| x l Hx _ IH]; cbn [mapM]; [reflexivity |].
  now rewrite Hx, bind_ret_l, IH, bind_ret_l.
Qed.

Lemma mapM_values_identity : forall (f : value -> M value) (d : dict),
  Forall (fun kv => f (snd kv) = ret (snd kv)) d -> mapM_values f d = ret d.
Proof.
  intros f d H. induction H as [| [k x] d Hx _ IH]; cbn [mapM_values];
    [reflexivity |].
  cbn [snd] in Hx. now rewrite Hx, bind_ret_l, IH, bind_ret_l.
Qed.

(** X1. Data that holds no function call (no single-key mapping with a
    reserved key, at any depth) is returned unchanged by the resolver, and
    nothing is logged. *)
Theorem process_value_function_free :
  forall (self : IntrinsicFunctionHandler) (context : Context) (v : value),
    function_free v = true ->
    process_value self context v = ret v.
Proof.
  intros self context v.
  induction v as [v Hs | items IH | entries IH] using value_induction.
  - intros _. destruct v; try reflexivity; contradiction.
  - intros H. cbn [function_free] in H. rewrite forallb_forall in H.
    cbn [process_value]. rewrite mapM_identity; [now rewrite bind_ret_l |].
    rewrite Forall_forall in IH |- *. intros x Hx. apply IH; auto.
  - intros H. cbn [function_free] in H. apply andb_true_iff in H as [Hk Hv].
    rewrite forallb_forall in Hv.
    rewrite (process_value_dict_data self context entries Hk).
    rewrite mapM_values_identity; [now rewrite bind_ret_l |].
    rewrite Forall_forall in IH |- *. intros kv Hkv. apply IH; auto.
Qed.

Lemma process_value_function_free_witness :
  process_value {| parameters := []; mappings := [] |} empty_context
    (VDict [("Tags", VList [VDict [("Key", VStr "Name"); ("Value", VStr "web")]]);
            ("Enabled", VBool true)]) =
    ret (VDict [("Tags", VList [VDict [("Key", VStr "Name"); ("Value", VStr "web")]]);
                ("Enabled", VBool true)]).
Proof.
  exact (process_value_function_free {| parameters := []; mappings := [] |}
           empty_context
           (VDict [("Tags", VList [VDict [("Key", VStr "Name");
                                          ("Value", VStr "web")]]);
                   ("Enabled", VBool true)]) eq_refl).
Defined.

Lemma mapM_length : forall (A B : Type) (f : A -> M B) (xs : list A)
                           (l : list log_record) (ys : list B),
  mapM f xs = (l, Ok ys) -> List.length ys = List.length xs.
Proof.
  intros A B f xs. induction xs as [| x xs IH]; intros l ys H; cbn [mapM] in H.
  - injection H as _ <-. reflexivity.
  - destruct (f x) as [l1 [y | e]]; [| discriminate H].
    destruct (mapM f xs) as [l2 [ys' | e]] eqn:E; [| discriminate H].
    cbn in H. injection H as _ <-. cbn. f_equal. eapply IH. reflexivity.
Qed.

Lemma mapM_values_keys : forall (A B : Type) (f : A -> M B)
                                (d : list (string * A))
                                (l : list log_record) (d' : list (string * B)),
  mapM_values f d = (l, Ok d') -> map fst d' = map fst d.
Proof.
  intros A B f d. induction d as [| [k x] d IH]; intros l d' H;
    cbn [mapM_values] in H.
  - injection H as _ <-. reflexivity.
  - destruct (f x) as [l1 [y | e]]; [| discriminate H].
    destruct (mapM_values f d) as [l2 [ys' | e]] eqn:E; [| discriminate H].
    cbn in H. injection H as _ <-. cbn. f_equal. eapply IH. reflexivity.
Qed.

(** X2. Whatever functions occur inside, resolving a list gives a list
    of the same length, and resolving a mapping that is not itself a
    function call gives a mapping with the same keys in the same order. *)
Theorem process_value_keeps_shape :
  forall (self : IntrinsicFunctionHandler) (context : Context),
    (forall items l r,
        process_value self context (VList items) = (l, Ok r) ->
        exists items', r = VList items'
                       /\ List.length items' = List.length items)
    /\ (forall entries l r,
          match entries with
          | [(k, _)] => negb (is_function_key k)
          | _ => true
          end = true ->
          process_value self context (VDict entries) = (l, Ok r) ->
          exists entries', r = VDict entries'
                           /\ PyDict.keys entries' = PyDict.keys entries).
Proof.
  intros self context. split.
  - intros items l r H. cbn [process_value] in H.
    destruct (mapM (process_value self context) items) as [l1 [ys | e]] eqn:E;
      [| discriminate H].
    cbn in H. injection H as _ <-. exists ys. split; [reflexivity |].
    eapply mapM_length. exact E.
  - intros entries l r Hk H.
    rewrite (process_value_dict_data self context entries Hk) in H.
    destruct (mapM_values (process_value self context) entries)
      as [l1 [d | e]] eqn:E; [| discriminate H].
    cbn in H. injection H as _ <-. exists d. split; [reflexivity |].
    unfold PyDict.keys. eapply mapM_values_keys. exact E.
Qed.

Lemma process_value_keeps_shape_witness :
  exists items',
    VList [VStr "data.aws_region.current.name"; VInt 1] = VList items'
    /\ List.length items' = 2.
Proof.
  exact (proj1 (process_value_keeps_shape {| parameters := []; mappings := [] |}
                  empty_context)
               [VDict [("Ref", VStr "AWS::Region")]; VInt 1] []
               (VList [VStr "data.aws_region.current.name"; VInt 1]) eq_refl).
Defined.

(** ** Wrong number of arguments *)

(** X3. A function of two arguments applied to a list of any other
    length does not raise and logs nothing: it resolves to the marker
    [# TODO: Invalid <name> arguments: <args>]. *)
Theorem binary_function_wrong_arity :
  forall (self : IntrinsicFunctionHandler) (context : Context)
         (func_name label : string) (items : list value),
    In (func_name, label) binary_functions ->
    List.length items <> 2 ->
    process_value self context (VDict [(func_name, VList items)]) =
      ret (VStr ("# TODO: Invalid " ++ label ++ " arguments: "
                   ++ Py.str (VList items))).
Proof.
  intros self context func_name label items Hin Hlen.
  rewrite process_value_single_key.
  assert (Hshape : match items with [_; _] => False | _ => True end).
  { destruct items as [| a [| b [| c rest]]]; try exact I. now elim Hlen. }
  unfold binary_functions in Hin. cbn [In] in Hin.
  destruct Hin as [E | [E | [E | [E | []]]]]; injection E as <- <-;
    destruct items as [| a [| b [| c rest]]]; try contradiction; reflexivity.
Qed.

Lemma binary_function_wrong_arity_witness :
  process_value {| parameters := []; mappings := [] |} empty_context
    (VDict [("Fn::Join", VList [VStr ","])]) =
    ret (VStr "# TODO: Invalid Join arguments: [',']").
Proof.
  refine (binary_function_wrong_arity {| parameters := []; mappings := [] |}
            empty_context "Fn::Join" "Join" [VStr ","] _ _).
  - right. left. reflexivity.
  - discriminate.
Defined.

(** X4. A function of three arguments applied to a list of any other
    length does not raise and logs nothing: it resolves to the marker
    [# TODO: Invalid <name> arguments: <args>]. *)
Theorem ternary_function_wrong_arity :
  forall (self : IntrinsicFunctionHandler) (context : Context)
         (func_name label : string) (items : list value),
    In (func_name, label) ternary_functions ->
    List.length items <> 3 ->
    process_value self context (VDict [(func_name, VList items)]) =
      ret (VStr ("# TODO: Invalid " ++ label ++ " arguments: "
                   ++ Py.str (VList items))).
Proof.
  intros self context func_name label items Hin Hlen.
  rewrite process_value_single_key.
  assert (Hshape : match items with [_; _; _] => False | _ => True end).
  { destruct items as [| a [| b [| c [| d rest]]]]; try exact I. now elim Hlen. }
  unfold ternary_functions in Hin. cbn [In] in Hin.
  destruct Hin as [E | [E | []]]; injection E as <- <-;
    destruct items as [| a [| b [| c [| d rest]]]]; try contradiction; reflexivity.
Qed.

Lemma ternary_function_wrong_arity_witness :
  process_value {| parameters := []; mappings := [] |} empty_context
    (VDict [("Fn::If", VList [VStr "IsProd"; VStr "a"])]) =
    ret (VStr "# TODO: Invalid If arguments: ['IsProd', 'a']").
Proof.
  refine (ternary_function_wrong_arity {| parameters := []; mappings := [] |}
            empty_context "Fn::If" "If" [VStr "IsProd"; VStr "a"] _ _).
  - right. left. reflexivity.
  - discriminate.
Defined.

(** ** References and attributes *)

Lemma process_ref :
  forall (self : IntrinsicFunctionHandler) (context : Context) (target : value),
    process_value self context (VDict [("Ref", target)]) =
      (s <- _handle_ref self context target ;; ret (VStr s)).
Proof. intros. now rewrite process_value_single_key. Qed.

(** X5. A reference to a declared parameter resolves to the variable
    [var.<name in lower case>], whether or not a resource or a
    pseudo-value goes by the same name. *)
Theorem ref_to_parameter :
  forall (self : IntrinsicFunctionHandler) (context : Context) (name : string),
    PyDict.mem name (parameters self) = true ->
    process_value self context (VDict [("Ref", VStr name)]) =
      ret (VStr ("var." ++ PyStr.lower name)).
Proof.
  intros self context name H. rewrite process_ref.
  unfold _handle_ref. cbn [Py.in_dict]. rewrite H, bind_lift_ok.
  cbn [Py.lower]. now rewrite bind_lift_ok, !bind_ret_l.
Qed.

Lemma ref_to_parameter_witness :
  process_value
    {| parameters := [("AWS::Region", VDict [])]; mappings := [] |}
    {| ctx_resources := [("AWS::Region", VDict [("Type", VStr "AWS::EC2::VPC")])];
       ctx_parameters := [] |}
    (VDict [("Ref", VStr "AWS::Region")]) =
    ret (VStr "var.aws::region").
Proof.
  exact (ref_to_parameter
           {| parameters := [("AWS::Region", VDict [])]; mappings := [] |}
           {| ctx_resources :=
                [("AWS::Region", VDict [("Type", VStr "AWS::EC2::VPC")])];
              ctx_parameters := [] |}
           "AWS::Region" eq_refl).
Defined.

(** X6. A reference to a resource of the same template whose type has a
    target type resolves to [<target type>.<name in lower case>.id]: the
    five types the handler singles out get the reference the general
    table gives them. *)
Theorem ref_to_resource :
  forall (self : IntrinsicFunctionHandler) (context : Context)
         (name cf_type terraform_type : string) (config : dict),
    PyDict.mem name (parameters self) = false ->
    PyDict.get name (ctx_resources context) = Some (VDict config) ->
    PyDict.get "Type" config = Some (VStr cf_type) ->
    PyDict.get cf_type ResourceMapper.RESOURCE_TYPE_MAPPING = Some terraform_type ->
    process_value self context (VDict [("Ref", VStr name)]) =
      ret (VStr (terraform_type ++ "." ++ PyStr.lower name ++ ".id")).
Proof.
  intros self context name cf_type terraform_type config Hp Hr Ht Hm.
  rewrite process_ref. unfold _handle_ref, ref_resource.
  cbn [Py.in_dict]. rewrite Hp, bind_lift_ok.
  unfold PyDict.mem, resource_info_of. rewrite Hr, bind_lift_ok.
  cbn [Py.get]. rewrite Ht, bind_lift_ok. cbn [Py.eq_str Py.lower].
  repeat match goal with
         | |- context [String.eqb cf_type ?k] =>
             destruct (String.eqb_spec cf_type k) as [-> | _];
               [injection Hm as <-; now rewrite !bind_lift_ok, !bind_ret_l |]
         end.
  cbn [ResourceMapper.get_terraform_type]. rewrite Hm.
  now rewrite !bind_lift_ok, !bind_ret_l.
Qed.

Lemma ref_to_resource_witness :
  process_value {| parameters := []; mappings := [] |}
    {| ctx_resources := [("Queue", VDict [("Type", VStr "AWS::SQS::Queue")])];
       ctx_parameters := [] |}
    (VDict [("Ref", VStr "Queue")]) =
    ret (VStr "aws_sqs_queue.queue.id").
Proof.
  exact (ref_to_resource {| parameters := []; mappings := [] |}
           {| ctx_resources := [("Queue", VDict [("Type", VStr "AWS::SQS::Queue")])];
              ctx_parameters := [] |}
           "Queue" "AWS::SQS::Queue" "aws_sqs_queue"
           [("Type", VStr "AWS::SQS::Queue")] eq_refl eq_refl eq_refl eq_refl).
Defined.

Lemma process_get_att :
  forall (self : IntrinsicFunctionHandler) (context : Context)
         (resource_name attribute : value),
    process_value self context
      (VDict [("Fn::GetAtt", VList [resource_name; attribute])]) =
      (from_resource <- get_att_resource context resource_name attribute ;;
       ret (VStr match from_resource with
                 | Some reference => reference
                 | None => "# TODO: GetAtt " ++ Py.str resource_name ++ "."
                             ++ Py.str attribute
                 end)).
Proof.
  intros self context resource_name attribute.
  rewrite process_value_single_key.
  change (is_function_key "Fn::GetAtt") with true. cbv iota.
  change (_handle_intrinsic_function self context (process_value self context)
            "Fn::GetAtt" (VList [resource_name; attribute]))
    with (from_resource <- get_att_resource context resource_name attribute ;;
          match from_resource with
          | Some reference => ret reference
          | None =>
              ret ("# TODO: GetAtt " ++ Py.str resource_name ++ "."
                     ++ Py.str attribute)
          end).
  rewrite bind_assoc. apply bind_ext. intros [reference |]; apply bind_ret_l.
Qed.

(** X7. An attribute of a resource resolves only for the four source
    types that have an attribute table (instance, VPC, bucket, database
    instance): to [<target type>.<name>.<attribute>], the attribute
    renamed by the table or else put in lower case.  For a resource of
    any other type, mapped or not, and for a name that is no resource of
    the template, the result is the marker [# TODO: GetAtt name.attribute];
    none of these cases raises. *)
Theorem get_att_resolution :
  forall (self : IntrinsicFunctionHandler) (context : Context)
         (name attribute : string),
    let node := VDict [("Fn::GetAtt", VList [VStr name; VStr attribute])] in
    let marker := VStr ("# TODO: GetAtt " ++ name ++ "." ++ attribute) in
    (PyDict.mem name (ctx_resources context) = false ->
     process_value self context node = ret marker)
    /\ (forall config cf_type,
          PyDict.get name (ctx_resources context) = Some (VDict config) ->
          PyDict.get "Type" config = Some (VStr cf_type) ->
          process_value self context node =
            ret match PyDict.get cf_type attribute_mappings,
                      PyDict.get cf_type ResourceMapper.RESOURCE_TYPE_MAPPING with
                | Some renames, Some terraform_type =>
                    VStr (terraform_type ++ "." ++ PyStr.lower name ++ "."
                            ++ match PyDict.get attribute renames with
                               | Some renamed => renamed
                               | None => PyStr.lower attribute
                               end)
                | _, _ => marker
                end)
    /\ (forall cf_type renames,
          PyDict.get cf_type attribute_mappings = Some renames ->
          exists terraform_type,
            PyDict.get cf_type ResourceMapper.RESOURCE_TYPE_MAPPING =
              Some terraform_type).
Proof.
  intros self context name attribute node marker. split; [| split].
  - intros H. unfold node. rewrite process_get_att.
    unfold get_att_resource. cbn [Py.in_dict]. rewrite H, bind_lift_ok.
    now rewrite !bind_ret_l.
  - intros config cf_type Hr Ht. unfold node. rewrite process_get_att.
    unfold get_att_resource, resource_info_of. cbn [Py.in_dict].
    unfold PyDict.mem. rewrite Hr, bind_lift_ok. cbn [Py.get].
    rewrite Ht, bind_lift_ok. cbn [ResourceMapper.get_terraform_type].
    rewrite bind_lift_ok.
    destruct (PyDict.get cf_type ResourceMapper.RESOURCE_TYPE_MAPPING)
      as [terraform_type |];
      destruct (PyDict.get cf_type attribute_mappings) as [renames |];
      cbn [Py.lower]; now rewrite ?bind_lift_ok, ?bind_ret_l.
  - intros cf_type renames H. unfold attribute_mappings in H.
    cbn [PyDict.get] in H.
    repeat match type of H with
           | context [String.eqb cf_type ?k] =>
               destruct (String.eqb_spec cf_type k) as [-> | _];
                 [eexists; reflexivity |]
           end.
    discriminate H.
Qed.

Lemma get_att_resolution_witness :
  process_value {| parameters := []; mappings := [] |}
    {| ctx_resources := [("Db", VDict [("Type", VStr "AWS::RDS::DBInstance")])];
       ctx_parameters := [] |}
    (VDict [("Fn::GetAtt", VList [VStr "Db"; VStr "Endpoint.Address"])]) =
    ret (VStr "aws_db_instance.db.endpoint").
Proof.
  exact (proj1 (proj2 (get_att_resolution {| parameters := []; mappings := [] |}
                         {| ctx_resources :=
                              [("Db", VDict [("Type", VStr "AWS::RDS::DBInstance")])];
                            ctx_parameters := [] |}
                         "Db" "Endpoint.Address"))
               [("Type", VStr "AWS::RDS::DBInstance")] "AWS::RDS::DBInstance"
               eq_refl eq_refl).
Defined.

(** ** Templates without resolvable names *)

Lemma drop_app_length : forall a b, drop (String.length a) (a ++ b) = b.
Proof.
  induction a as [| c a IH]; intros b; [now destruct b | apply IH].
Qed.

Lemma length_braced : forall name,
  String.length ("{" ++ name ++ "}") = 3 + String.length name - 1.
Proof.
  intros name. cbn [append String.length].
  induction name as [| d name IH]; cbn [append String.length]; lia.
Qed.

Lemma braced_split : forall name rest,
  String "{" (name ++ String "}" rest) = ("{" ++ name ++ "}") ++ rest.
Proof.
  intros name rest. cbn [append]. f_equal. now rewrite append_assoc.
Qed.

Lemma sub_from_verbatim :
  forall (repl : string -> M string) (s : string) (skip : nat),
    (forall name, placeholder_in name s -> repl name = ret ("${" ++ name ++ "}")) ->
    Re.sub_from repl s skip = ret (drop skip s).
Proof.
  intros repl. induction s as [| c s IH]; intros skip H.
  - now destruct skip.
  - assert (Hs : forall name, placeholder_in name s ->
                              repl name = ret ("${" ++ name ++ "}")).
    { intros name (pre & post & -> & Hne & Hn). apply H.
      exists (String c pre), post. repeat split; assumption. }
    destruct skip as [| k]; cbn [Re.sub_from drop]; [| apply IH; exact Hs].
    destruct (Re.match_placeholder (String c s)) as [[name n] |] eqn:E.
    + destruct (match_placeholder_inv _ _ _ E) as (rest & Es & -> & Hne & Hn).
      rewrite (H name) by (exists EmptyString, rest; repeat split; assumption).
      rewrite bind_ret_l, (IH _ Hs), bind_ret_l. f_equal.
      cbn [append] in Es. injection Es as -> ->.
      rewrite <- length_braced, braced_split, drop_app_length.
      reflexivity.
    + now rewrite (IH _ Hs), bind_ret_l.
Qed.

(** X8. A template none of whose placeholders names an environment
    pseudo-value, a parameter or a resource comes back unchanged between
    double quotes, placeholders included; in particular text without any
    placeholder is only quoted. *)
Theorem sub_without_known_names :
  forall (self : IntrinsicFunctionHandler) (context : Context) (t : string),
    (forall name, placeholder_in name t ->
                  PyDict.get name sub_pseudo_params = None
                  /\ PyDict.mem name (parameters self) = false
                  /\ PyDict.mem name (ctx_resources context) = false) ->
    process_value self context (VDict [("Fn::Sub", VStr t)]) =
      ret (VStr (PyStr.dquote ++ t ++ PyStr.dquote)).
Proof.
  intros self context t H. rewrite process_value_single_key.
  change (is_function_key "Fn::Sub") with true. cbv iota.
  change (_handle_intrinsic_function self context (process_value self context)
            "Fn::Sub" (VStr t))
    with (sub_body self context (process_value self context) (VStr t) (VDict [])).
  unfold sub_body. cbn [mapM_values]. rewrite bind_ret_l. unfold Re.sub.
  rewrite sub_from_verbatim; [now rewrite !bind_ret_l |].
  intros name Hn. destruct (H name Hn) as (Hs & Hp & Hr).
  unfold replace_var. cbn [PyDict.get].
  now rewrite sub_pseudo_is_lookup, Hs, Hp, Hr.
Qed.

Lemma only_placeholder_of_sample : forall name,
  placeholder_in name "s3-${Stage}" -> name = "Stage".
Proof.
  intros name (pre & post & E & Hne & Hn).
  repeat (destruct pre as [| ? pre]; cbn [append] in E;
          [| injection E as <- E]);
    try discriminate E.
  - injection E as E.
    repeat (destruct name as [| ? name]; cbn [append] in E;
            [| injection E as <- E]);
      try discriminate E; try discriminate Hn; try reflexivity.
  - destruct pre; discriminate E.
Qed.

Lemma sub_without_known_names_witness :
  process_value {| parameters := [("Env", VDict [])]; mappings := [] |}
    empty_context (VDict [("Fn::Sub", VStr "s3-${Stage}")]) =
    ret (VStr (PyStr.dquote ++ "s3-${Stage}" ++ PyStr.dquote)).
Proof.
  refine (sub_without_known_names
            {| parameters := [("Env", VDict [])]; mappings := [] |}
            empty_context "s3-${Stage}" _).
  intros name H. rewrite (only_placeholder_of_sample name H).
  repeat split.
Defined.

(** ** Property names after mapping *)

(** X9. For a source type without target type, [map_properties] returns
    the properties as they are.  For a mapped type it returns a mapping in
    which no name holds an upper-case ASCII letter, which has an entry for
    the target name of every source property and no more entries than the
    source (source names that map to one target name share the entry);
    properties that are no mapping make it raise. *)
Theorem map_properties_names :
  forall (cf_type : string) (cf_properties : value),
    match PyDict.get cf_type ResourceMapper.RESOURCE_TYPE_MAPPING with
    | None =>
        ResourceMapper.map_properties (VStr cf_type) cf_properties = Ok cf_properties
    | Some terraform_type =>
        match cf_properties with
        | VDict items =>
            exists d,
              ResourceMapper.map_properties (VStr cf_type) cf_properties =
                Ok (VDict d)
              /\ Forall (fun kv => has_upper (fst kv) = false) d
              /\ List.length d <= List.length items
              /\ (forall cf_prop v, In (cf_prop, v) items ->
                    PyDict.mem (terraform_property terraform_type cf_prop) d = true)
        | _ =>
            ResourceMapper.map_properties (VStr cf_type) cf_properties =
              Raise (Py.no_attribute cf_properties "items")
        end
    end.
Proof.
  intros cf_type cf_properties. unfold ResourceMapper.map_properties.
  cbn [ResourceMapper.get_terraform_type].
  destruct (PyDict.get cf_type ResourceMapper.RESOURCE_TYPE_MAPPING)
    as [terraform_type |]; [| reflexivity].
  destruct cf_properties; try reflexivity.
  destruct (map_property_fold terraform_type entries []) as (F1 & F2 & _ & F4).
  eexists. split; [reflexivity |]. repeat split.
  - apply F1. constructor.
  - exact F2.
  - exact F4.
Qed.

(** X10. On properties whose names hold no upper-case letter, which is
    what [map_properties] hands over for every mapped type, the
    resource-specific transformations find none of the names they look
    for: a bucket, a role and a function come back unchanged, and a
    security-group rule only gains its [type], [ingress] or [egress]
    after the name of the source type. *)
Theorem transformations_after_mapping :
  forall (cf_type logical_id : string) (d : dict),
    Forall (fun kv => has_upper (fst kv) = false) d ->
    Transform._apply_resource_transformations (VStr cf_type) (VDict d) logical_id =
      ret (VDict
             (if is_rule_type cf_type
              then PyDict.set "type"
                     (VStr (if PyStr.contains "Ingress" cf_type
                            then "ingress" else "egress")) d
              else d)).
Proof. exact transformations_on_mapped. Qed.

Lemma transformations_after_mapping_witness :
  Transform._apply_resource_transformations (VStr "AWS::S3::Bucket")
    (VDict [("bucket", VStr "logs");
            ("versioning", VDict [("Status", VStr "Enabled")])]) "Logs" =
    ret (VDict [("bucket", VStr "logs");
                ("versioning", VDict [("Status", VStr "Enabled")])]).
Proof.
  refine (transformations_after_mapping "AWS::S3::Bucket" "Logs"
            [("bucket", VStr "logs");
             ("versioning", VDict [("Status", VStr "Enabled")])] _).
  repeat constructor.
Defined.

(** ** Generated resource names *)

Lemma replace_invalid_chars : forall s,
  all_chars Names.is_name_char (Names.replace_invalid s) = true.
Proof.
  induction s as [| c s IH]; cbn [Names.replace_invalid all_chars];
    [reflexivity |].
  rewrite IH, andb_true_r.
  destruct (Names.is_name_char c) eqn:E; [exact E | reflexivity].
Qed.

Lemma collapse_first : forall s,
  first_char (Names.collapse_underscores s) = first_char s.
Proof.
  induction s as [| c s IH]; [reflexivity |].
  cbn [Names.collapse_underscores]. destruct s as [| c' s]; [reflexivity |].
  destruct (Ascii.eqb_spec c "_") as [-> | _]; cbn [andb]; [| reflexivity].
  destruct (Ascii.eqb_spec c' "_") as [-> | _]; [| reflexivity].
  rewrite IH. reflexivity.
Qed.

Lemma collapse_chars : forall p s,
  all_chars p s = true -> all_chars p (Names.collapse_underscores s) = true.
Proof.
  intros p. induction s as [| c s IH]; intros H; [reflexivity |].
  cbn [all_chars] in H. apply andb_true_iff in H as [Hc Hs].
  cbn [Names.collapse_underscores]. destruct s as [| c' s].
  - cbn [all_chars]. now rewrite Hc.
  - destruct (Ascii.eqb c "_" && Ascii.eqb c' "_"); [now apply IH |].
    cbn [all_chars]. rewrite Hc. now apply IH.
Qed.

Lemma collapse_no_double : forall s,
  no_double_underscore (Names.collapse_underscores s) = true.
Proof.
  induction s as [| c s IH]; [reflexivity |].
  cbn [Names.collapse_underscores]. destruct s as [| c' s]; [| ].
  - cbn. now rewrite andb_false_r.
  - destruct (Ascii.eqb c "_" && Ascii.eqb c' "_") eqn:E; [exact IH |].
    cbn [no_double_underscore]. rewrite IH, andb_true_r, collapse_first.
    cbn [first_char]. unfold is_underscore. now rewrite E.
Qed.

Lemma no_double_cons : forall c s,
  no_double_underscore (String c s) =
    negb (is_underscore c
          && match first_char s with
             | Some c' => is_underscore c'
             | None => false
             end)
    && no_double_underscore s.
Proof. reflexivity. Qed.

Lemma lstrip_suffix_props : forall p s,
  (all_chars p s = true -> all_chars p (Names.lstrip_underscores s) = true)
  /\ (no_double_underscore s = true ->
      no_double_underscore (Names.lstrip_underscores s) = true)
  /\ first_char (Names.lstrip_underscores s) <> Some "_"%char.
Proof.
  intros p. induction s as [| c s (I1 & I2 & I3)].
  - repeat split; auto. discriminate.
  - cbn [Names.lstrip_underscores].
    destruct (Ascii.eqb_spec c "_") as [-> | N].
    + repeat split; auto.
      * intros H. cbn [all_chars] in H. apply andb_true_iff in H as [_ H]. auto.
      * intros H. cbn [no_double_underscore] in H.
        apply andb_true_iff in H as [_ H]. auto.
    + repeat split; auto. cbn [first_char]. congruence.
Qed.

Lemma rstrip_props : forall p s,
  (all_chars p s = true -> all_chars p (Names.rstrip_underscores s) = true)
  /\ (no_double_underscore s = true ->
      no_double_underscore (Names.rstrip_underscores s) = true)
  /\ (first_char s <> Some "_"%char ->
      first_char (Names.rstrip_underscores s) <> Some "_"%char)
  /\ last_char (Names.rstrip_underscores s) <> Some "_"%char
  /\ (forall c, first_char (Names.rstrip_underscores s) = Some c ->
                first_char s = Some c).
Proof.
  intros p. induction s as [| c s (I1 & I2 & I3 & I4 & I5)].
  - repeat split; auto; discriminate.
  - cbn [Names.rstrip_underscores].
    destruct (Names.rstrip_underscores s) as [| d r] eqn:E.
    + destruct (Ascii.eqb_spec c "_") as [-> | N].
      * repeat split; auto; discriminate.
      * repeat split; auto.
        -- intros H. cbn [all_chars] in H |- *.
           apply andb_true_iff in H as [H _]. now rewrite H.
        -- intros _. cbn. unfold is_underscore. now rewrite andb_false_r.
        -- cbn [last_char]. congruence.
    + repeat split; auto.
      * intros H. cbn [all_chars] in H |- *.
        apply andb_true_iff in H as [Hc Hs]. rewrite Hc. now apply I1.
      * intros H. rewrite no_double_cons in H |- *.
        apply andb_true_iff in H as [Hc Hs]. rewrite (I2 Hs), andb_true_r.
        cbn [first_char]. rewrite (I5 d eq_refl) in Hc. exact Hc.
Qed.

Lemma generated_name_props :
  forall logical_id : string,
    well_formed_name (Names._generate_resource_name logical_id).
Proof.
  intros logical_id. unfold Names._generate_resource_name.
  set (n := Names.collapse_underscores
              (Names.replace_invalid (PyStr.lower (Names.camel_to_snake logical_id)))).
  assert (Hc : all_chars Names.is_name_char n = true)
    by (apply collapse_chars, replace_invalid_chars).
  assert (Hd : no_double_underscore n = true) by apply collapse_no_double.
  unfold Names.strip_underscores.
  destruct (lstrip_suffix_props Names.is_name_char n) as (L1 & L2 & L3).
  destruct (rstrip_props Names.is_name_char (Names.lstrip_underscores n))
    as (R1 & R2 & R3 & R4 & _).
  destruct (String.eqb_spec
              (Names.rstrip_underscores (Names.lstrip_underscores n)) EmptyString)
    as [_ | N].
  - repeat split; try reflexivity; discriminate.
  - repeat split; auto.
Qed.

(** X11. Whatever the logical name, the generated resource name is not
    empty and is made of lower-case letters and digits in groups
    separated by single underscores: no other character, no underscore at
    either end, no two underscores in a row. *)
Theorem generated_name_well_formed :
  forall logical_id : string,
    well_formed_name (Names._generate_resource_name logical_id).
Proof. exact generated_name_props. Qed.

(** ** Import commands of a converted template *)

Lemma existsb_eqb_in : forall (x : string) (l : list string),
  existsb (String.eqb x) l = true -> In x l.
Proof.
  intros x l H. apply existsb_exists in H as (y & Hy & E).
  apply String.eqb_eq in E. now subst y.
Qed.

Lemma nested_stack_commands :
  forall logical_id resource_config func_handler context l c,
    _convert_nested_stack logical_id resource_config func_handler context =
      (l, Ok c) ->
    cr_import_commands c = [].
Proof.
  intros logical_id resource_config func_handler context l c H.
  unfold _convert_nested_stack in H.
  apply bind_ok_inv in H as (l1 & properties & l2 & _ & H & _).
  apply bind_ok_inv in H as (l3 & template_url & l4 & _ & H & _).
  apply bind_ok_inv in H as (l5 & stack_parameters & l6 & _ & H & _).
  apply bind_ok_inv in H as (l7 & module_config & l8 & _ & H & _).
  apply ret_inv in H. now subst c.
Qed.

Lemma convert_resource_commands :
  forall (self : ConversionEngine) (logical_id : string) (resource_config : value)
         (func_handler : IntrinsicFunctionHandler) (context : Context)
         (l : list log_record) (c : ConvertedResource),
    _convert_resource self logical_id resource_config func_handler context =
      (l, Ok (Some c)) ->
    Forall is_import_command (cr_import_commands c)
    /\ List.length (cr_import_commands c) <= 1.
Proof.
  intros self logical_id resource_config func_handler context l c H.
  unfold _convert_resource in H.
  apply bind_ok_inv in H as (l1 & cf_type & l2 & _ & H & _).
  destruct (negb (Py.truthy cf_type)); [discriminate H |].
  apply bind_ok_inv in H as (l3 & terraform_type & l4 & _ & H & _).
  destruct terraform_type as [terraform_type |].
  - destruct (Py.eq_str cf_type "AWS::CloudFormation::Stack").
    + apply bind_ok_inv in H as (l5 & c0 & l6 & Hn & H & _).
      apply ret_inv in H. injection H as <-.
      rewrite (nested_stack_commands _ _ _ _ _ _ Hn). split; [constructor | cbn; lia].
    + apply bind_ok_inv in H as (l5 & cf_properties & l6 & _ & H & _).
      apply bind_ok_inv in H as (l7 & processed & l8 & _ & H & _).
      apply bind_ok_inv in H as (l9 & mapped & l10 & _ & H & _).
      apply bind_ok_inv in H as (l11 & transformed & l12 & _ & H & _).
      apply ret_inv in H. injection H as <-. cbn [cr_import_commands].
      unfold _generate_import_command.
      destruct (existsb (String.eqb terraform_type) import_template_types) eqn:E.
      * split; [| cbn; lia]. constructor; [| constructor].
        eexists; eexists. split; [| reflexivity].
        now apply existsb_eqb_in.
      * split; [constructor | cbn; lia].
  - unfold log in H. cbn [fst snd ret] in H. injection H as _ <-.
    split; [constructor | cbn; lia].
Qed.

Lemma loop_commands :
  forall (self : ConversionEngine) (func_handler : IntrinsicFunctionHandler)
         (context : Context) (resources : dict) (st : LoopState),
    Forall is_import_command (import_commands (result_so_far st)) ->
    Forall is_import_command
      (import_commands
         (result_so_far (convert_resources self func_handler context resources st)))
    /\ List.length
         (import_commands
            (result_so_far (convert_resources self func_handler context resources st)))
       <= List.length (import_commands (result_so_far st)) + List.length resources.
Proof.
  intros self func_handler context resources. unfold convert_resources.
  induction resources as [| [logical_id resource_config] resources IH];
    intros st H; cbn [fold_left List.length].
  - split; [exact H | lia].
  - set (st' := convert_resource_step self func_handler context st
                  (logical_id, resource_config)).
    assert (S : Forall is_import_command (import_commands (result_so_far st'))
                /\ List.length (import_commands (result_so_far st'))
                   <= S (List.length (import_commands (result_so_far st)))).
    { unfold st', convert_resource_step.
      destruct (_convert_resource self logical_id resource_config func_handler
                  context) as [l [[c |] | e]] eqn:E; cbn.
      - destruct (convert_resource_commands _ _ _ _ _ _ _ E) as [F L].
        split; [apply Forall_app; split; assumption |].
        rewrite length_app. lia.
      - split; [exact H | lia].
      - split; [exact H | lia]. }
    destruct S as [S1 S2]. destruct (IH st' S1) as [I1 I2].
    split; [exact I1 | lia].
Qed.

(** X12. Every import command in the result of [convert_template] has the
    form [terraform import <type>.<name> PHYSICAL_ID] for one of the eight
    importable target types, and there are at most as many of them as the
    template has resources. *)
Theorem import_commands_of_template :
  forall (self : ConversionEngine) (t : Template),
    Forall is_import_command (import_commands (snd (convert_template self t)))
    /\ List.length (import_commands (snd (convert_template self t)))
       <= List.length (Resources t).
Proof.
  intros self t.
  destruct (parameters_phase t) as [l [v | e]] eqn:P.
  - rewrite (convert_template_phases self t l v P).
    destruct (close_template_frame
                (after_resources t (handler_of t) (context_of t)
                   (after_loop self t l v))) as (_ & Ci & _).
    destruct (after_resources_frame t (handler_of t) (context_of t)
                (after_loop self t l v)) as (_ & _ & Fi & _).
    rewrite Ci, Fi. unfold after_loop.
    destruct (before_resources_fields t v) as (_ & _ & Bi & _).
    destruct (loop_commands self (handler_of t) (context_of t) (Resources t)
                {| terraform_resources := [];
                   result_so_far := before_resources t v; logged := l |})
      as [L1 L2].
    + cbn [result_so_far]. rewrite Bi. constructor.
    + cbn [result_so_far] in L2. rewrite Bi in L2. cbn [List.length] in L2.
      split; [exact L1 | lia].
  - rewrite (convert_template_parameters_raise self t l e P). cbn.
    split; [constructor | lia].
Qed.

(** ** Phases that abort the conversion *)

Lemma bind_raised : forall (A B : Type) (l : list log_record) (e : exn)
                           (f : A -> M B),
  bind (l, Raise e) f = (l, Raise e).
Proof. reflexivity. Qed.

Lemma convert_parameters_raised :
  forall (items : dict) (l : list log_record) (e : exn),
    fold_left convert_parameter items (l, Raise e) = (l, Raise e).
Proof.
  induction items as [| item items IH]; intros l e; [reflexivity |].
  cbn [fold_left]. unfold convert_parameter at 2. rewrite bind_raised. apply IH.
Qed.

Lemma convert_parameters_malformed :
  forall (items : dict) (acc : M dict) (name : string) (config : value),
    In (name, config) items ->
    (forall d, config <> VDict d) ->
    exists l e, fold_left convert_parameter items acc = (l, Raise e).
Proof.
  induction items as [| item items IH]; intros acc name config Hin Hbad;
    [contradiction |].
  cbn [fold_left]. destruct Hin as [-> | Hin].
  - destruct acc as [l [variables | e]].
    + unfold convert_parameter at 2. rewrite bind_ok.
      destruct config; try (now elim (Hbad entries));
        cbn; rewrite convert_parameters_raised; eexists; eexists; reflexivity.
    + unfold convert_parameter at 2. rewrite bind_raised.
      rewrite convert_parameters_raised. eexists; eexists; reflexivity.
  - eapply IH; eassumption.
Qed.

(** X13. A parameter whose definition is not a mapping aborts the whole
    conversion, not only the parameter phase: the result holds one error,
    [Template conversion failed: ...], and nothing else; no variable, no
    resource, no output and no import command, whatever the other
    sections of the template hold. *)
Theorem malformed_parameter_aborts :
  forall (self : ConversionEngine) (t : Template) (name : string) (config : value),
    In (name, config) (Parameters t) ->
    (forall d, config <> VDict d) ->
    exists e,
      snd (convert_template self t) =
        {| terraform_config := []; import_commands := []; variables := [];
           outputs := []; locals := []; warnings := [];
           errors := ["Template conversion failed: " ++ exn_str e] |}.
Proof.
  intros self t name config Hin Hbad.
  assert (P : exists l e, parameters_phase t = (l, Raise e)).
  { unfold parameters_phase. destruct (Parameters t) as [| p ps] eqn:E;
      [contradiction |].
    unfold _convert_parameters.
    destruct (convert_parameters_malformed (p :: ps) (ret []) name config Hin Hbad)
      as (l & e & F).
    rewrite F. exists l, e. reflexivity. }
  destruct P as (l & e & P). exists e.
  rewrite (convert_template_parameters_raise self t l e P). reflexivity.
Qed.

Lemma malformed_parameter_aborts_witness :
  exists e,
    snd (convert_template default_engine
           {| Parameters := [("Env", VStr "prod")]; Mappings := [];
              Conditions := [];
              Resources := [("MyVPC", VDict [("Type", VStr "AWS::EC2::VPC")])];
              Outputs := [] |}) =
      {| terraform_config := []; import_commands := []; variables := [];
         outputs := []; locals := []; warnings := [];
         errors := ["Template conversion failed: " ++ exn_str e] |}.
Proof.
  refine (malformed_parameter_aborts default_engine
            {| Parameters := [("Env", VStr "prod")]; Mappings := [];
               Conditions := [];
               Resources := [("MyVPC", VDict [("Type", VStr "AWS::EC2::VPC")])];
               Outputs := [] |} "Env" (VStr "prod") _ _).
  - left. reflexivity.
  - discriminate.
Defined.

Lemma convert_outputs_raised :
  forall (func_handler : IntrinsicFunctionHandler) (context : Context)
         (items : dict) (l : list log_record) (e : exn),
    fold_left (convert_output func_handler context) items (l, Raise e) =
      (l, Raise e).
Proof.
  intros func_handler context. induction items as [| item items IH]; intros l e;
    [reflexivity |].
  cbn [fold_left]. unfold convert_output at 2. rewrite bind_raised. apply IH.
Qed.

Lemma convert_outputs_malformed :
  forall (func_handler : IntrinsicFunctionHandler) (context : Context)
         (items : dict) (acc : M dict) (name : string) (config : value),
    In (name, config) items ->
    (forall d, config <> VDict d) ->
    exists l e,
      fold_left (convert_output func_handler context) items acc = (l, Raise e).
Proof.
  intros func_handler context.
  induction items as [| item items IH]; intros acc name config Hin Hbad;
    [contradiction |].
  cbn [fold_left]. destruct Hin as [-> | Hin].
  - destruct acc as [l [outs | e]].
    + unfold convert_output at 2. rewrite bind_ok.
      destruct config; try (now elim (Hbad entries));
        cbn; rewrite convert_outputs_raised; eexists; eexists; reflexivity.
    + unfold convert_output at 2. rewrite bind_raised.
      rewrite convert_outputs_raised. eexists; eexists; reflexivity.
  - eapply IH; eassumption.
Qed.

Lemma step_keeps_config :
  forall (self : ConversionEngine) (func_handler : IntrinsicFunctionHandler)
         (context : Context) (resources : dict) (st : LoopState),
    terraform_config
      (result_so_far (convert_resources self func_handler context resources st)) =
      terraform_config (result_so_far st).
Proof.
  intros self func_handler context resources. unfold convert_resources.
  induction resources as [| [logical_id resource_config] resources IH];
    intros st; cbn [fold_left]; [reflexivity |].
  rewrite IH. unfold convert_resource_step.
  destruct (_convert_resource self logical_id resource_config func_handler context)
    as [l [[c |] | e]]; reflexivity.
Qed.

(** X14. When the parameter phase goes through and an output's
    definition is not a mapping, the failure is recorded as
    [Template conversion failed: ...] and the statements after the output
    phase are skipped: the configuration holds the converted resources
    but neither the data sources nor the locals, and no output is
    returned. *)
Theorem malformed_output_skips_the_rest :
  forall (self : ConversionEngine) (t : Template)
         (l : list log_record) (v : option dict)
         (name : string) (config : value),
    parameters_phase t = (l, Ok v) ->
    In (name, config) (Outputs t) ->
    (forall d, config <> VDict d) ->
    exists e resources,
      terraform_config (snd (convert_template self t)) =
        [("resource", VDict resources)]
      /\ outputs (snd (convert_template self t)) = []
      /\ In ("Template conversion failed: " ++ exn_str e)
            (errors (snd (convert_template self t))).
Proof.
  intros self t l v name config P Hin Hbad.
  assert (O : exists lo e, outputs_phase t = (lo, Raise e)).
  { unfold outputs_phase. destruct (Outputs t) as [| p ps] eqn:E;
      [contradiction |].
    unfold _convert_outputs.
    destruct (convert_outputs_malformed (handler_of t) (context_of t) (p :: ps)
                (ret []) name config Hin Hbad) as (lo & e & F).
    rewrite F. exists lo, e. reflexivity. }
  destruct O as (lo & e & O).
  exists e, (terraform_resources (after_loop self t l v)).
  rewrite (convert_template_phases self t l v P).
  unfold after_resources. fold (outputs_phase t). rewrite O.
  unfold close_template.
  cbn [terraform_config outputs errors add_error set_config].
  unfold after_loop. rewrite step_keeps_config.
  pose proof (loop_grows self (handler_of t) (context_of t) (Resources t)
                {| terraform_resources := [];
                   result_so_far := before_resources t v; logged := l |}) as G.
  destruct G as (_ & _ & _ & _ & _ & Go & _). rewrite Go.
  cbn [result_so_far].
  destruct (before_resources_fields t v) as (_ & _ & _ & Bc & _). rewrite Bc.
  split; [reflexivity |]. split.
  - unfold before_resources. destruct v, (Mappings t), (Conditions t); reflexivity.
  - apply in_or_app. right. now left.
Qed.

Lemma malformed_output_skips_the_rest_witness :
  exists e resources,
    terraform_config
      (snd (convert_template default_engine
              {| Parameters := []; Mappings := [("RegionMap", VDict [])];
                 Conditions := [];
                 Resources := [("MyVPC", VDict [("Type", VStr "AWS::EC2::VPC")])];
                 Outputs := [("VpcId", VStr "MyVPC")] |})) =
      [("resource", VDict resources)]
    /\ outputs
         (snd (convert_template default_engine
                 {| Parameters := []; Mappings := [("RegionMap", VDict [])];
                    Conditions := [];
                    Resources := [("MyVPC", VDict [("Type", VStr "AWS::EC2::VPC")])];
                    Outputs := [("VpcId", VStr "MyVPC")] |})) = []
    /\ In ("Template conversion failed: " ++ exn_str e)
          (errors
             (snd (convert_template default_engine
                     {| Parameters := []; Mappings := [("RegionMap", VDict [])];
                        Conditions := [];
                        Resources :=
                          [("MyVPC", VDict [("Type", VStr "AWS::EC2::VPC")])];
                        Outputs := [("VpcId", VStr "MyVPC")] |}))).
Proof.
  refine (malformed_output_skips_the_rest default_engine
            {| Parameters := []; Mappings := [("RegionMap", VDict [])];
               Conditions := [];
               Resources := [("MyVPC", VDict [("Type", VStr "AWS::EC2::VPC")])];
               Outputs := [("VpcId", VStr "MyVPC")] |}
            [] None "VpcId" (VStr "MyVPC") eq_refl _ _).
  - left. reflexivity.
  - discriminate.
Defined.

(** ** Lines of an import script *)

Lemma lstrip_whitespace : forall ws s,
  whitespace ws = true -> Imports.lstrip (ws ++ s) = Imports.lstrip s.
Proof.
  induction ws as [| c ws IH]; intros s H; [reflexivity |].
  cbn in H. apply andb_prop in H as [Hc H].
  cbn [append Imports.lstrip]. rewrite Hc. now apply IH.
Qed.

Lemma rstrip_all_whitespace : forall ws,
  whitespace ws = true -> Imports.rstrip ws = EmptyString.
Proof.
  induction ws as [| c ws IH]; intros H; [reflexivity |].
  cbn in H. apply andb_prop in H as [Hc H].
  cbn [Imports.rstrip]. rewrite (IH H), Hc. reflexivity.
Qed.

Lemma rstrip_whitespace : forall s ws,
  whitespace ws = true -> Imports.rstrip (s ++ ws) = Imports.rstrip s.
Proof.
  induction s as [| c s IH]; intros ws H.
  - cbn [append]. now apply rstrip_all_whitespace.
  - cbn [append Imports.rstrip]. now rewrite (IH ws H).
Qed.

Lemma rstrip_fixed_app : forall a b,
  b <> EmptyString -> Imports.rstrip b = b -> Imports.rstrip (a ++ b) = a ++ b.
Proof.
  induction a as [| c a IH]; intros b Hne Hb; [exact Hb |].
  cbn [append Imports.rstrip]. rewrite (IH b Hne Hb).
  destruct (a ++ b) eqn:E; [| reflexivity].
  destruct a; [cbn in E; contradiction | discriminate E].
Qed.

Lemma split_space_word : forall n w rest,
  no_space w = true ->
  Imports.split_space (S n) (w ++ " " ++ rest) = w :: Imports.split_space n rest.
Proof.
  intros n. induction w as [| c w IH]; intros rest H; [reflexivity |].
  cbn in H. apply andb_prop in H as [Hc H].
  cbn [append Imports.split_space].
  unfold not_space in Hc. apply negb_true_iff in Hc. rewrite Hc.
  change (w ++ String " " rest) with (w ++ " " ++ rest).
  now rewrite (IH rest H).
Qed.

Lemma split_space_whole : forall s, Imports.split_space 0 s = [s].
Proof.
  induction s as [| c s IH]; [reflexivity |].
  cbn [Imports.split_space]. destruct (Ascii.eqb c " "); [reflexivity |].
  now rewrite IH.
Qed.

Lemma parse_line_command : forall lead trail resource_address resource_id,
  whitespace lead = true ->
  whitespace trail = true ->
  no_space resource_address = true ->
  resource_id <> EmptyString ->
  Imports.rstrip resource_id = resource_id ->
  Imports.parse_line
    (lead ++ ("terraform import " ++ resource_address ++ " " ++ resource_id)
       ++ trail) =
    [{| Imports.command :=
          "terraform import " ++ resource_address ++ " " ++ resource_id;
        Imports.address := resource_address;
        Imports.id := resource_id |}].
Proof.
  intros lead trail resource_address resource_id Hl Ht Ha Hne Hid.
  unfold Imports.parse_line.
  assert (S : Imports.strip
                (lead ++ ("terraform import " ++ resource_address ++ " "
                            ++ resource_id) ++ trail) =
              "terraform import " ++ resource_address ++ " " ++ resource_id).
  { unfold Imports.strip. rewrite (lstrip_whitespace lead _ Hl).
    change (Imports.lstrip
              (("terraform import " ++ resource_address ++ " " ++ resource_id)
                 ++ trail))
      with (("terraform import " ++ resource_address ++ " " ++ resource_id)
              ++ trail).
    rewrite (rstrip_whitespace _ trail Ht).
    rewrite <- (append_assoc resource_address " " resource_id).
    rewrite <- (append_assoc "terraform import " (resource_address ++ " ")
                  resource_id).
    now apply rstrip_fixed_app. }
  rewrite S.
  unfold PyStr.startswith. rewrite prefix_app.
  change ("terraform import " ++ resource_address ++ " " ++ resource_id)
    with ("terraform" ++ " " ++ "import" ++ " " ++ resource_address ++ " "
            ++ resource_id) at 1.
  rewrite (split_space_word 2 "terraform" _ eq_refl).
  rewrite (split_space_word 1 "import" _ eq_refl).
  rewrite (split_space_word 0 resource_address _ Ha).
  rewrite split_space_whole. reflexivity.
Qed.

(** X15. A line [terraform import <address> <id>], with any white space
    around it, is read back by the script parser as one command with
    that address and identifier, the command being the line without the
    surrounding white space. The address holds no space; the identifier
    is what follows the third space, up to the end of the stripped
    line. *)
Theorem parse_line_round_trip :
  forall lead trail resource_address resource_id : string,
    whitespace lead = true ->
    whitespace trail = true ->
    no_space resource_address = true ->
    resource_id <> EmptyString ->
    Imports.rstrip resource_id = resource_id ->
    Imports.parse_line
      (lead ++ ("terraform import " ++ resource_address ++ " " ++ resource_id)
         ++ trail) =
      [{| Imports.command :=
            "terraform import " ++ resource_address ++ " " ++ resource_id;
          Imports.address := resource_address;
          Imports.id := resource_id |}].
Proof. exact parse_line_command. Qed.

Lemma parse_line_round_trip_witness :
  Imports.parse_line
    ("  " ++ ("terraform import " ++ "aws_vpc.main" ++ " " ++ "vpc-0a1b c")
       ++ String (ascii_of_nat 10) EmptyString) =
    [{| Imports.command := "terraform import " ++ "aws_vpc.main" ++ " " ++ "vpc-0a1b c";
        Imports.address := "aws_vpc.main";
        Imports.id := "vpc-0a1b c" |}].
Proof.
  refine (parse_line_round_trip "  " (String (ascii_of_nat 10) EmptyString)
            "aws_vpc.main" "vpc-0a1b c" _ _ _ _ _).
  - reflexivity.
  - reflexivity.
  - reflexivity.
  - discriminate.
  - reflexivity.
Defined.

(** ** From the converter to the import manager *)

Lemma all_chars_app : forall p a b,
  all_chars p (a ++ b) = all_chars p a && all_chars p b.
Proof.
  intros p. induction a as [| c a IH]; intros b; [reflexivity |].
  cbn [append all_chars]. rewrite IH. now rewrite andb_assoc.
Qed.

Lemma all_chars_impl : forall (p q : ascii -> bool) s,
  (forall c, p c = true -> q c = true) ->
  all_chars p s = true -> all_chars q s = true.
Proof.
  intros p q s Hpq. induction s as [| c s IH]; intros H; [reflexivity |].
  cbn in *. apply andb_prop in H as [Hc H]. now rewrite (Hpq c Hc), (IH H).
Qed.

Lemma name_char_not_space : forall c,
  Names.is_name_char c = true -> not_space c = true.
Proof.
  intros c H. unfold not_space. destruct (Ascii.eqb_spec c " ") as [-> | _];
    [discriminate H | reflexivity].
Qed.

Lemma lower_char_not_space : forall c,
  not_space c = true -> not_space (PyStr.lower_char c) = true.
Proof.
  intros c H. unfold PyStr.lower_char.
  destruct (PyStr.is_upper c) eqn:U; [| exact H].
  unfold not_space. destruct (Ascii.eqb_spec (ascii_of_nat (nat_of_ascii c + 32)) " ")
    as [E | _]; [| reflexivity].
  apply (f_equal nat_of_ascii) in E. unfold PyStr.is_upper in U.
  apply andb_prop in U as [U1 U2]. apply Nat.leb_le in U1, U2.
  rewrite nat_ascii_embedding in E by lia. cbn in E. lia.
Qed.

Lemma lower_no_space : forall s,
  no_space s = true -> no_space (PyStr.lower s) = true.
Proof.
  induction s as [| c s IH]; intros H; [reflexivity |].
  unfold no_space in *. cbn in *. apply andb_prop in H as [Hc H].
  now rewrite (lower_char_not_space c Hc), (IH H).
Qed.

Lemma import_type_no_space : forall terraform_type,
  In terraform_type import_template_types -> no_space terraform_type = true.
Proof.
  intros terraform_type H. cbn in H.
  repeat (destruct H as [<- | H]; [reflexivity |]). contradiction.
Qed.

Lemma import_command_parses : forall terraform_type resource_name,
  In terraform_type import_template_types ->
  no_space resource_name = true ->
  parses_back ("terraform import " ++ terraform_type ++ "." ++ resource_name
                 ++ " PHYSICAL_ID").
Proof.
  intros terraform_type resource_name Ht Hn.
  exists (terraform_type ++ "." ++ resource_name).
  assert (E : "terraform import " ++ terraform_type ++ "." ++ resource_name
                ++ " PHYSICAL_ID" =
              "terraform import " ++ (terraform_type ++ "." ++ resource_name)
                ++ " PHYSICAL_ID").
  { now rewrite <- !append_assoc. }
  split; [exact E |]. rewrite E.
  pose proof (parse_line_command EmptyString EmptyString
                (terraform_type ++ "." ++ resource_name) "PHYSICAL_ID"
                eq_refl eq_refl) as P.
  cbn [append] in P. rewrite append_nil_r in P.
  apply P; [| discriminate | reflexivity].
  unfold no_space. rewrite all_chars_app.
  change (all_chars not_space terraform_type) with (no_space terraform_type).
  rewrite (import_type_no_space terraform_type Ht). cbn.
  exact Hn.
Qed.

Lemma resource_name_no_space :
  forall (self : ConversionEngine) (logical_id : string),
    (preserve_names self = true -> no_space logical_id = true) ->
    no_space (if preserve_names self then PyStr.lower logical_id
              else Names._generate_resource_name logical_id) = true.
Proof.
  intros self logical_id H. destruct (preserve_names self).
  - apply lower_no_space. now apply H.
  - destruct (generated_name_props logical_id) as (_ & C & _).
    exact (all_chars_impl _ _ _ name_char_not_space C).
Qed.

Lemma convert_resource_parses :
  forall (self : ConversionEngine) (logical_id : string) (resource_config : value)
         (func_handler : IntrinsicFunctionHandler) (context : Context)
         (l : list log_record) (c : ConvertedResource),
    (preserve_names self = true -> no_space logical_id = true) ->
    _convert_resource self logical_id resource_config func_handler context =
      (l, Ok (Some c)) ->
    Forall parses_back (cr_import_commands c).
Proof.
  intros self logical_id resource_config func_handler context l c Hn H.
  unfold _convert_resource in H.
  apply bind_ok_inv in H as (l1 & cf_type & l2 & _ & H & _).
  destruct (negb (Py.truthy cf_type)); [discriminate H |].
  apply bind_ok_inv in H as (l3 & terraform_type & l4 & _ & H & _).
  destruct terraform_type as [terraform_type |].
  - destruct (Py.eq_str cf_type "AWS::CloudFormation::Stack").
    + apply bind_ok_inv in H as (l5 & c0 & l6 & Hs & H & _).
      apply ret_inv in H. injection H as <-.
      rewrite (nested_stack_commands _ _ _ _ _ _ Hs). constructor.
    + apply bind_ok_inv in H as (l5 & cf_properties & l6 & _ & H & _).
      apply bind_ok_inv in H as (l7 & processed & l8 & _ & H & _).
      apply bind_ok_inv in H as (l9 & mapped & l10 & _ & H & _).
      apply bind_ok_inv in H as (l11 & transformed & l12 & _ & H & _).
      apply ret_inv in H. injection H as <-. cbn [cr_import_commands].
      unfold _generate_import_command.
      destruct (existsb (String.eqb terraform_type) import_template_types) eqn:E;
        [| constructor].
      constructor; [| constructor].
      apply import_command_parses; [now apply existsb_eqb_in |].
      now apply resource_name_no_space.
  - unfold log in H. cbn [fst snd ret] in H. injection H as _ <-. constructor.
Qed.

Lemma loop_parses :
  forall (self : ConversionEngine) (func_handler : IntrinsicFunctionHandler)
         (context : Context) (resources : dict) (st : LoopState),
    (preserve_names self = true ->
     Forall (fun kv => no_space (fst kv) = true) resources) ->
    Forall parses_back (import_commands (result_so_far st)) ->
    Forall parses_back
      (import_commands
         (result_so_far (convert_resources self func_handler context resources st))).
Proof.
  intros self func_handler context resources. unfold convert_resources.
  induction resources as [| [logical_id resource_config] resources IH];
    intros st Hn H; cbn [fold_left]; [exact H |].
  apply IH.
  - intros Hp. specialize (Hn Hp). now inversion Hn.
  - unfold convert_resource_step.
    destruct (_convert_resource self logical_id resource_config func_handler
                context) as [l [[c |] | e]] eqn:E; cbn; try exact H.
    apply Forall_app. split; [exact H |].
    apply (convert_resource_parses _ _ _ _ _ _ _) with (2 := E).
    intros Hp. specialize (Hn Hp). now inversion Hn.
Qed.

(** X16. The import commands a template conversion returns are lines
    the import manager's script parser accepts: each is read back as one
    command, whole, with the address [<type>.<name>] and the identifier
    [PHYSICAL_ID]. This holds when names are generated, and with
    preserved names when no logical id contains a space. *)
Theorem converted_commands_parse_back :
  forall (self : ConversionEngine) (t : Template),
    (preserve_names self = true ->
     Forall (fun kv => no_space (fst kv) = true) (Resources t)) ->
    Forall parses_back (import_commands (snd (convert_template self t))).
Proof.
  intros self t Hn.
  destruct (parameters_phase t) as [l [v | e]] eqn:P.
  - rewrite (convert_template_phases self t l v P).
    destruct (close_template_frame
                (after_resources t (handler_of t) (context_of t)
                   (after_loop self t l v))) as (_ & Ci & _).
    destruct (after_resources_frame t (handler_of t) (context_of t)
                (after_loop self t l v)) as (_ & _ & Fi & _).
    rewrite Ci, Fi. unfold after_loop.
    destruct (before_resources_fields t v) as (_ & _ & Bi & _).
    apply loop_parses; [exact Hn |].
    cbn [result_so_far]. rewrite Bi. constructor.
  - rewrite (convert_template_parameters_raise self t l e P). cbn. constructor.
Qed.

Lemma converted_commands_parse_back_witness :
  Forall parses_back
    (import_commands
       (snd (convert_template {| preserve_names := true; handle_functions := true |}
               vpc_template))).
Proof.
  apply (converted_commands_parse_back
           {| preserve_names := true; handle_functions := true |} vpc_template).
  intros _. repeat constructor.
Defined.

(** ** Results and counts of the import executor *)

Lemma single_import_fields :
  forall (self : Imports.ImportManager) (cmd_info : Imports.ImportCommand)
         (retry : Z) (w : Imports.World),
    Imports.resource_address
      (snd (Imports._execute_single_import self cmd_info retry w)) =
      Imports.address cmd_info
    /\ Imports.resource_id
         (snd (Imports._execute_single_import self cmd_info retry w)) =
         Imports.id cmd_info.
Proof.
  intros self cmd_info retry w. unfold Imports._execute_single_import.
  destruct (Imports._execute_terraform_command self (Imports.command cmd_info) w)
    as [w' [p | e]]; [| split; reflexivity].
  destruct (Z.eqb (Imports.returncode p) 0); split; reflexivity.
Qed.

Ltac failed_attempt :=
  split; [intros F; discriminate F | intros _; discriminate].

(** X17. An import attempt is reported as a success exactly when the
    working directory and the configuration root are directories and the
    process completes with return code 0. A success carries no error
    message; every failure (non-zero return code, timeout, a command that
    cannot be started, a directory that cannot be entered) carries one. *)
Theorem single_import_success_iff :
  forall (self : Imports.ImportManager) (cmd_info : Imports.ImportCommand)
         (retry : Z) (w : Imports.World),
    let r := snd (Imports._execute_single_import self cmd_info retry w) in
    (Imports.success r = true <->
       Imports.is_dir (Imports.cwd w) w = true
       /\ Imports.is_dir (Imports.terraform_dir self) w = true
       /\ exists out err,
            next_outcome w (Imports.command cmd_info) = Imports.Completed 0 out err)
    /\ (Imports.success r = true -> Imports.error_message r = None)
    /\ (Imports.success r = false -> Imports.error_message r <> None).
Proof.
  intros self cmd_info retry w. cbv zeta.
  unfold Imports._execute_single_import, Imports._execute_terraform_command,
    Imports.getcwd, Imports.finally_restore, Imports.chdir,
    Imports.subprocess_run, next_outcome.
  destruct (Imports.is_dir (Imports.cwd w) w) eqn:D0.
  2:{ cbn. split; [| failed_attempt].
      split; [intros F; discriminate F | intros (F & _); discriminate F]. }
  destruct (Imports.is_dir (Imports.terraform_dir self) w) eqn:D1.
  2:{ rewrite D0. cbn. split; [| failed_attempt].
      split; [intros F; discriminate F | intros (_ & F & _); discriminate F]. }
  change (Imports.is_dir (Imports.cwd w)
            (Imports.add_executed (Imports.command cmd_info)
               (Imports.set_cwd (Imports.terraform_dir self) w)))
    with (Imports.is_dir (Imports.cwd w) w).
  rewrite D0.
  change (Imports.terraform (Imports.set_cwd (Imports.terraform_dir self) w)
            (Imports.command cmd_info)
            (count_occ string_dec
               (Imports.executed (Imports.set_cwd (Imports.terraform_dir self) w))
               (Imports.command cmd_info)))
    with (Imports.terraform w (Imports.command cmd_info)
            (count_occ string_dec (Imports.executed w) (Imports.command cmd_info))).
  destruct (Imports.terraform w (Imports.command cmd_info)
              (count_occ string_dec (Imports.executed w) (Imports.command cmd_info)))
    as [rc out err | | e] eqn:T; cbn.
  - destruct (Z.eqb_spec rc 0) as [-> | N]; cbn.
    + split; [| split; [reflexivity | intros F; discriminate F]].
      split; [| reflexivity]. intros _. repeat split. exists out, err. reflexivity.
    + split; [| failed_attempt].
      split; [intros F; discriminate F |].
      intros (_ & _ & out' & err' & E). injection E as E _ _. contradiction.
  - split; [| failed_attempt].
    split; [intros F; discriminate F |].
    intros (_ & _ & out' & err' & E). discriminate E.
  - split; [| failed_attempt].
    split; [intros F; discriminate F |].
    intros (_ & _ & out' & err' & E). discriminate E.
Qed.

Lemma successes_app : forall rs rs', successes (rs ++ rs') = (successes rs + successes rs')%Z.
Proof.
  intros rs rs'. unfold successes. rewrite filter_app, length_app. lia.
Qed.

Lemma failures_app : forall rs rs', failures (rs ++ rs') = (failures rs + failures rs')%Z.
Proof.
  intros rs rs'. unfold failures. rewrite filter_app, length_app. lia.
Qed.

Lemma successful_retries_app : forall rs rs',
  successful_retries (rs ++ rs') = (successful_retries rs + successful_retries rs')%Z.
Proof.
  intros rs rs'. unfold successful_retries. rewrite filter_app, length_app. lia.
Qed.

Lemma accounts_refl : forall s, accounts_for s s [].
Proof.
  intros s. unfold accounts_for, successes, failures, successful_retries.
  cbn [filter List.length]. rewrite app_nil_r.
  split; [reflexivity |]. split; [lia |]. split; [lia |]. split; reflexivity.
Qed.

Lemma accounts_trans : forall s s' s'' rs rs',
  accounts_for s s' rs -> accounts_for s' s'' rs' ->
  accounts_for s s'' (rs ++ rs').
Proof.
  intros s s' s'' rs rs' (R & S & F & T & E) (R' & S' & F' & T' & E').
  unfold accounts_for.
  rewrite R', S', F', T', E', R, S, F, T, E.
  rewrite successes_app, failures_app, successful_retries_app, app_assoc.
  repeat split; lia.
Qed.

Lemma record_result_accounts : forall r s,
  Imports.retry_count r = 0%Z ->
  accounts_for s (Imports.record_result r s) [r].
Proof.
  intros r s H. unfold accounts_for, Imports.record_result, successes, failures,
    successful_retries.
  cbn [Imports.results Imports.successful_imports Imports.failed_imports
         Imports.total_imports Imports.errors filter].
  rewrite H. destruct (Imports.success r); cbn; repeat split; lia.
Qed.

Lemma record_retry_accounts : forall r s,
  Imports.retry_count r = 1%Z ->
  accounts_for s (Imports.record_retry r s) [r].
Proof.
  intros r s H. unfold accounts_for, Imports.record_retry, successes, failures,
    successful_retries.
  cbn [Imports.results Imports.successful_imports Imports.failed_imports
         Imports.total_imports Imports.errors filter].
  rewrite H. destruct (Imports.success r); cbn; repeat split; lia.
Qed.

Lemma recorded_accounts : forall rs s,
  Forall (fun r => Imports.retry_count r = 0%Z) rs ->
  accounts_for s
    (fold_left (fun summary r => Imports.record_result r summary) rs s) rs.
Proof.
  intros rs s H. revert s.
  induction H as [| r rs Hr _ IH]; intros s; cbn [fold_left].
  - apply accounts_refl.
  - apply (accounts_trans s (Imports.record_result r s) _ [r] rs);
      [now apply record_result_accounts | apply IH].
Qed.

Lemma reports_unretried : forall commands rs,
  Forall2 reports commands rs ->
  Forall (fun r => Imports.retry_count r = 0%Z) rs.
Proof.
  intros commands rs H.
  induction H as [| c r cs rs (_ & _ & Hr) _ IH]; constructor; assumption.
Qed.

Lemma filter_all : forall (A : Type) (f : A -> bool) (l : list A),
  (forall x, f x = true) -> filter f l = l.
Proof.
  intros A f l H. induction l as [| x l IH]; cbn [filter]; [reflexivity |].
  now rewrite H, IH.
Qed.

Lemma as_completed_in_turn : forall futures,
  Imports.as_completed [] futures = futures.
Proof.
  intros futures. unfold Imports.as_completed, Imports.collection_order.
  cbn [filter nodup app existsb negb].
  rewrite filter_all by reflexivity.
  pose proof (nth_error_all futures []) as E. cbn [app List.length] in E.
  exact E.
Qed.

Lemma unretried_no_successful_retry : forall rs,
  Forall (fun r => Imports.retry_count r = 0%Z) rs -> successful_retries rs = 0%Z.
Proof.
  intros rs H. unfold successful_retries.
  induction H as [| r rs Hr _ IH]; [reflexivity |].
  cbn [filter]. rewrite Hr. cbn. rewrite andb_false_r. exact IH.
Qed.

Lemma successes_failures : forall rs,
  (successes rs + failures rs)%Z = Z.of_nat (List.length rs).
Proof.
  intros rs. unfold successes, failures.
  induction rs as [| r rs IH]; [reflexivity |].
  cbn [filter List.length]. destruct (Imports.success r); cbn [negb List.length]; lia.
Qed.

(** X18. A parallel run needs a positive number of workers: otherwise
    the executor raises [ValueError] and no summary is returned.  With a
    positive number, however the pool schedules the tasks, the run
    returns a summary that agrees with the attempts it records: one
    attempt per command, unretried and carrying the command's address and
    identifier, in the order in which the tasks are collected (the order
    of submission when they are collected in turn);
    [successful_imports] and [failed_imports] count the successful and
    the failed attempts and add up to the number of commands, which is
    [total_imports]; no error is recorded. *)
Theorem parallel_summary_accounting :
  forall (self : Imports.ImportManager)
         (import_commands : list Imports.ImportCommand)
         (scheduling : Imports.Scheduling) (w : Imports.World),
    ((0 < Imports.max_workers self)%Z ->
     exists w' summary rs,
       Imports._execute_parallel_imports self import_commands scheduling w =
         (w', Ok summary)
       /\ Forall2 reports import_commands rs
       /\ Imports.results summary =
            Imports.as_completed (Imports.collected scheduling) rs
       /\ Permutation (Imports.results summary) rs
       /\ (Imports.collected scheduling = [] -> Imports.results summary = rs)
       /\ Imports.total_imports summary = Z.of_nat (List.length import_commands)
       /\ Imports.successful_imports summary = successes (Imports.results summary)
       /\ Imports.failed_imports summary = failures (Imports.results summary)
       /\ (Imports.successful_imports summary + Imports.failed_imports summary)%Z =
            Z.of_nat (List.length import_commands)
       /\ Imports.errors summary = [])
    /\ ((Imports.max_workers self <= 0)%Z ->
        Imports._execute_parallel_imports self import_commands scheduling w =
          (w, Raise (ValueError "max_workers must be greater than 0"))).
Proof.
  intros self import_commands scheduling w. split.
  - intros Hw.
    destruct (parallel_imports_run self import_commands scheduling w Hw)
      as (w' & rs & E & R).
    set (collected := Imports.as_completed (Imports.collected scheduling) rs) in *.
    pose proof (as_completed_permutation (Imports.collected scheduling) rs) as P.
    fold collected in P.
    assert (C : Forall (fun r => Imports.retry_count r = 0%Z) collected)
      by (apply (Permutation_Forall (Permutation_sym P));
          exact (reports_unretried _ _ R)).
    destruct (recorded_accounts collected
                (Imports.with_total (List.length import_commands)
                   Imports.new_summary) C) as (Rr & S & F & T & Er).
    eexists. eexists. exists rs. split; [exact E |].
    rewrite Rr, S, F, T, Er.
    cbn [Imports.with_total Imports.new_summary Imports.results
           Imports.successful_imports Imports.failed_imports
           Imports.total_imports Imports.errors app].
    rewrite (unretried_no_successful_retry collected C).
    pose proof (successes_failures collected) as L.
    assert (N : List.length collected = List.length import_commands).
    { rewrite (Permutation_length P). symmetry.
      eapply Forall2_length. exact R. }
    split; [exact R |]. split; [reflexivity |]. split; [exact P |].
    split; [intros K; unfold collected; rewrite K; apply as_completed_in_turn |].
    split; [reflexivity |]. split; [lia |]. split; [lia |].
    split; [lia | reflexivity].
  - intros Hw. unfold Imports._execute_parallel_imports.
    apply Z.leb_le in Hw. now rewrite Hw.
Qed.

Lemma parallel_summary_accounting_witness :
  exists w' summary rs,
    Imports._execute_parallel_imports (batch_manager true) batch alternating
      batch_world = (w', Ok summary)
    /\ Forall2 reports batch rs
    /\ Imports.results summary =
         Imports.as_completed (Imports.collected alternating) rs
    /\ Permutation (Imports.results summary) rs
    /\ (Imports.collected alternating = [] -> Imports.results summary = rs)
    /\ Imports.total_imports summary = Z.of_nat (List.length batch)
    /\ Imports.successful_imports summary = successes (Imports.results summary)
    /\ Imports.failed_imports summary = failures (Imports.results summary)
    /\ (Imports.successful_imports summary + Imports.failed_imports summary)%Z =
         Z.of_nat (List.length batch)
    /\ Imports.errors summary = [].
Proof.
  exact (proj1 (parallel_summary_accounting (batch_manager true) batch alternating
                  batch_world) eq_refl).
Defined.

Lemma sequential_step_accounts :
  forall (self : Imports.ImportManager) (cmd_info : Imports.ImportCommand)
         (w : Imports.World) (s : Imports.ImportSummary),
    exists rs,
      accounts_for s (snd (Imports.sequential_step self (w, s) cmd_info)) rs
      /\ (1 <= List.length rs <= 2)%nat
      /\ (successes rs <= 1)%Z
      /\ Forall (fun r => Imports.retry_count r = 0%Z \/ Imports.retry_count r = 1%Z)
           rs.
Proof.
  intros self cmd_info w s. unfold Imports.sequential_step.
  pose proof (single_import_retry_count self cmd_info 0 w) as R0.
  destruct (Imports._execute_single_import self cmd_info 0 w) as [w' r].
  cbn [snd] in R0.
  assert (U : (successes [r] <= 1)%Z).
  { unfold successes. cbn. destruct (Imports.success r); cbn; lia. }
  destruct (Imports.success r) eqn:Sr.
  - exists [r]. cbn [snd List.length].
    split; [now apply record_result_accounts |].
    split; [lia |]. split; [exact U |].
    constructor; [now left | constructor].
  - destruct (Imports.retry_failed self
              && (Imports.retry_count r <? Imports.max_retries self)%Z).
    + pose proof (single_import_retry_count self cmd_info
                    (Imports.retry_count r + 1)
                    (fst (Imports.logger INFO
                            ("Retrying import for " ++ Imports.resource_address r)
                            w'))) as R1.
      destruct (Imports._execute_single_import self cmd_info
                  (Imports.retry_count r + 1) _) as [w'' r'].
      cbn [snd] in R1 |- *. rewrite R0 in R1. cbn in R1.
      exists ([r] ++ [r'])%list. split; [| split; [| split]].
      * apply (accounts_trans s (Imports.record_result r s)).
        -- now apply record_result_accounts.
        -- now apply record_retry_accounts.
      * cbn. lia.
      * unfold successes. cbn [app filter]. rewrite Sr.
        destruct (Imports.success r'); cbn; lia.
      * constructor; [now left | constructor; [now right | constructor]].
    + exists [r]. cbn [snd List.length].
      split; [now apply record_result_accounts |].
      split; [lia |]. split; [exact U |].
      constructor; [now left | constructor].
Qed.

Lemma sequential_fold :
  forall (self : Imports.ImportManager) (commands : list Imports.ImportCommand)
         (w : Imports.World) (s : Imports.ImportSummary),
    exists rs,
      accounts_for s
        (snd (fold_left (Imports.sequential_step self) commands (w, s))) rs
      /\ (List.length commands <= List.length rs
          <= 2 * List.length commands)%nat
      /\ (successes rs <= Z.of_nat (List.length commands))%Z
      /\ Forall (fun r => Imports.retry_count r = 0%Z \/ Imports.retry_count r = 1%Z)
           rs.
Proof.
  intros self. induction commands as [| cmd_info commands IH];
    intros w s.
  - exists []. cbn. split; [apply accounts_refl |].
    repeat split; try lia; constructor.
  - cbn [fold_left].
    destruct (sequential_step_accounts self cmd_info w s) as (rs & A & L & B & C).
    destruct (Imports.sequential_step self (w, s) cmd_info) as [w' s'].
    cbn [snd] in A.
    destruct (IH w' s') as (rs' & A' & L' & B' & C').
    exists (rs ++ rs')%list. split; [exact (accounts_trans _ _ _ _ _ A A') |].
    rewrite length_app, successes_app. cbn [List.length].
    split; [lia |]. split; [lia |]. apply Forall_app. now split.
Qed.

(** X19. After a sequential run, whatever the retry settings:
    [successful_imports] is the number of successful attempts recorded
    and never exceeds [total_imports], the number of commands;
    [failed_imports] is the number of failed attempts less the number of
    retries that succeeded; every command has one or two attempts, with
    retry counts 0 and 1 only. *)
Theorem sequential_summary_accounting :
  forall (self : Imports.ImportManager)
         (import_commands : list Imports.ImportCommand) (w : Imports.World),
    let summary := snd (Imports._execute_sequential_imports self import_commands w) in
    Imports.total_imports summary = Z.of_nat (List.length import_commands)
    /\ Imports.successful_imports summary = successes (Imports.results summary)
    /\ (Imports.successful_imports summary <= Imports.total_imports summary)%Z
    /\ Imports.failed_imports summary =
         (failures (Imports.results summary)
            - successful_retries (Imports.results summary))%Z
    /\ (List.length import_commands <= List.length (Imports.results summary)
        <= 2 * List.length import_commands)%nat
    /\ Forall (fun r => Imports.retry_count r = 0%Z \/ Imports.retry_count r = 1%Z)
         (Imports.results summary)
    /\ Imports.errors summary = [].
Proof.
  intros self import_commands w. cbv zeta.
  unfold Imports._execute_sequential_imports.
  destruct (sequential_fold self import_commands w
              (Imports.with_total (List.length import_commands) Imports.new_summary))
    as (rs & (R & S & F & T & E) & L & B & C).
  rewrite R, S, F, T, E. cbn [Imports.with_total Imports.new_summary
    Imports.results Imports.successful_imports Imports.failed_imports
    Imports.total_imports Imports.errors app].
  repeat split; try assumption; lia.
Qed.


(** ** The script and the state backup *)

(** X21. When nothing exists at the script's path,
    [execute_import_script] raises [FileNotFoundError] with the message
    [Import script not found: <path>] before anything else happens: no
    backup directory or file is created and no command is run. *)
Theorem missing_script_fails_fast :
  forall (self : Imports.ImportManager) (import_script : string)
         (scheduling : list Imports.ImportCommand -> Imports.Scheduling)
         (w : Imports.World),
    Imports.path_exists import_script w = false ->
    snd (Imports.execute_import_script self import_script scheduling w) =
      Raise (FileNotFoundError ("Import script not found: " ++ import_script))
    /\ Imports.executed
         (fst (Imports.execute_import_script self import_script scheduling w)) =
         Imports.executed w
    /\ Imports.files
         (fst (Imports.execute_import_script self import_script scheduling w)) =
         Imports.files w
    /\ Imports.directories
         (fst (Imports.execute_import_script self import_script scheduling w)) =
         Imports.directories w.
Proof.
  intros self import_script scheduling w H.
  assert (E : Imports.execute_import_script self import_script scheduling w =
              (fst (Imports.logger INFO
                      ("Executing import script: " ++ import_script) w),
               Raise (FileNotFoundError
                        ("Import script not found: " ++ import_script)))).
  { unfold Imports.execute_import_script, Imports.io_bind at 1.
    rewrite logger_run. cbv iota beta. rewrite path_exists_logger, H.
    reflexivity. }
  rewrite E. repeat split.
Qed.

Lemma missing_script_fails_fast_witness :
  snd (Imports.execute_import_script backup_manager "/tf/missing.sh" (fun _ => in_turn)
         read_only_world) =
    Raise (FileNotFoundError ("Import script not found: " ++ "/tf/missing.sh"))
  /\ Imports.executed
       (fst (Imports.execute_import_script backup_manager "/tf/missing.sh"
               (fun _ => in_turn) read_only_world)) =
       Imports.executed read_only_world
  /\ Imports.files
       (fst (Imports.execute_import_script backup_manager "/tf/missing.sh"
               (fun _ => in_turn) read_only_world)) =
       Imports.files read_only_world
  /\ Imports.directories
       (fst (Imports.execute_import_script backup_manager "/tf/missing.sh"
               (fun _ => in_turn) read_only_world)) =
       Imports.directories read_only_world.
Proof.
  apply (missing_script_fails_fast backup_manager "/tf/missing.sh" (fun _ => in_turn)
           read_only_world).
  reflexivity.
Defined.

Lemma append_inv_head : forall a b c : string, a ++ b = a ++ c -> b = c.
Proof.
  induction a as [| x a IH]; intros b c H; [exact H |].
  cbn in H. injection H as H. now apply IH.
Qed.

Lemma length_append : forall a b : string,
  String.length (a ++ b) = String.length a + String.length b.
Proof.
  induction a as [| x a IH]; intros b; [reflexivity |].
  cbn. now rewrite IH.
Qed.

Lemma state_path_not_backup :
  forall (self : Imports.ImportManager) (w : Imports.World)
         (tail : string) (state_file : string),
    String.eqb (Imports.in_terraform_dir self ("terraform.tfstate" ++ tail))
      (backup_path self w state_file) = false.
Proof.
  intros self w tail state_file.
  apply String.eqb_neq. intros E.
  unfold backup_path, Imports.in_terraform_dir in E.
  rewrite <- !append_assoc in E.
  rewrite !append_assoc in E.
  apply append_inv_head in E. discriminate E.
Qed.

Lemma backup_paths_differ :
  forall (self : Imports.ImportManager) (w : Imports.World),
    String.eqb (backup_path self w "terraform.tfstate")
      (backup_path self w "terraform.tfstate.backup") = false.
Proof.
  intros self w. apply String.eqb_neq. intros E. unfold backup_path in E.
  apply append_inv_head in E.
  change ("/" ++ "terraform.tfstate" ++ "." ++ Imports.timestamp w)
    with ("/terraform.tfstate." ++ Imports.timestamp w) in E.
  change ("/" ++ "terraform.tfstate.backup" ++ "." ++ Imports.timestamp w)
    with ("/terraform.tfstate." ++ "backup." ++ Imports.timestamp w) in E.
  apply append_inv_head in E. apply (f_equal String.length) in E.
  rewrite length_append in E. cbn in E. lia.
Qed.

Lemma mkdir_exist_ok_done :
  forall (d parent : string) (w : Imports.World),
    Imports.is_dir parent w = true ->
    existsb (String.eqb parent) (Imports.unwritable w) = false ->
    Imports.is_file d w = false ->
    exists w1,
      Imports.mkdir_exist_ok d parent w = (w1, Ok tt)
      /\ Imports.files w1 = Imports.files w
      /\ Imports.unwritable w1 = Imports.unwritable w
      /\ Imports.timestamp w1 = Imports.timestamp w
      /\ Imports.executed w1 = Imports.executed w
      /\ (forall p, String.eqb p d = false ->
                    Imports.is_dir p w1 = Imports.is_dir p w).
Proof.
  intros d parent w Hp Hw Hf. unfold Imports.mkdir_exist_ok.
  destruct (Imports.is_dir d w) eqn:D.
  - exists w. repeat split.
  - rewrite Hf, Hp, Hw. exists (Imports.add_directory d w).
    repeat split. intros p Hd. unfold Imports.is_dir, Imports.add_directory.
    cbn [Imports.directories]. rewrite existsb_app. cbn [existsb].
    rewrite Hd. now rewrite !orb_false_r.
Qed.

Lemma backup_state_file_copy :
  forall (self : Imports.ImportManager) (backup_dir state_file content : string)
         (w : Imports.World),
    existsb (String.eqb backup_dir) (Imports.unwritable w) = false ->
    PyDict.get (Imports.in_terraform_dir self state_file) (Imports.files w) =
      Some content ->
    exists w',
      Imports.backup_state_file self backup_dir state_file w = (w', Ok tt)
      /\ Imports.files w' =
           PyDict.set (backup_dir ++ "/" ++ state_file ++ "." ++ Imports.timestamp w)
             content (Imports.files w)
      /\ Imports.unwritable w' = Imports.unwritable w
      /\ Imports.timestamp w' = Imports.timestamp w
      /\ Imports.directories w' = Imports.directories w
      /\ Imports.executed w' = Imports.executed w.
Proof.
  intros self backup_dir state_file content w Hw Hf.
  unfold Imports.backup_state_file, Imports.path_exists, Imports.is_file, PyDict.mem.
  rewrite Hf. cbn [orb]. unfold Imports.io_bind, Imports.copy2. rewrite Hf, Hw.
  eexists. split; [reflexivity |]. repeat split.
Qed.

Lemma backup_state_file_skip :
  forall (self : Imports.ImportManager) (backup_dir state_file : string)
         (w : Imports.World),
    Imports.path_exists (Imports.in_terraform_dir self state_file) w = false ->
    Imports.backup_state_file self backup_dir state_file w = (w, Ok tt).
Proof.
  intros self backup_dir state_file w H. unfold Imports.backup_state_file.
  now rewrite H.
Qed.

(** X22. In a writable configuration root that holds the state file
    [terraform.tfstate], the state backup succeeds: the file's content is
    stored under [state_backups/terraform.tfstate.<timestamp>], the
    second state file is copied likewise when it exists, every other file
    (the state files among them) keeps its content, and no command is
    run. *)
Theorem state_backup_copies :
  forall (self : Imports.ImportManager) (w : Imports.World) (content : string),
    Imports.is_dir (Imports.terraform_dir self) w = true ->
    existsb (String.eqb (Imports.terraform_dir self)) (Imports.unwritable w) = false ->
    existsb (String.eqb (Imports.in_terraform_dir self "state_backups"))
      (Imports.unwritable w) = false ->
    Imports.is_file (Imports.in_terraform_dir self "state_backups") w = false ->
    PyDict.get (Imports.in_terraform_dir self "terraform.tfstate") (Imports.files w) =
      Some content ->
    Imports.is_dir (Imports.in_terraform_dir self "terraform.tfstate.backup") w =
      false ->
    exists w',
      Imports._create_state_backup self w = (w', Ok tt)
      /\ PyDict.get (backup_path self w "terraform.tfstate") (Imports.files w') =
           Some content
      /\ (forall older,
            PyDict.get (Imports.in_terraform_dir self "terraform.tfstate.backup")
              (Imports.files w) = Some older ->
            PyDict.get (backup_path self w "terraform.tfstate.backup")
              (Imports.files w') = Some older)
      /\ (forall p,
            p <> backup_path self w "terraform.tfstate" ->
            p <> backup_path self w "terraform.tfstate.backup" ->
            PyDict.get p (Imports.files w') = PyDict.get p (Imports.files w))
      /\ PyDict.get (Imports.in_terraform_dir self "terraform.tfstate")
           (Imports.files w') = Some content
      /\ Imports.executed w' = Imports.executed w.
Proof.
  intros self w content Hd Hw Hb Hnf Hf Hn.
  unfold Imports._create_state_backup, Imports.io_bind.
  destruct (mkdir_exist_ok_done (Imports.in_terraform_dir self "state_backups")
              (Imports.terraform_dir self) w Hd Hw Hnf)
    as (w1 & -> & F1 & U1 & T1 & X1 & D1).
  destruct (backup_state_file_copy self
              (Imports.in_terraform_dir self "state_backups")
              "terraform.tfstate" content w1)
    as (w2 & -> & F2 & U2 & T2 & D2 & X2);
    [now rewrite U1 | now rewrite F1 |].
  rewrite T1, F1 in F2. fold (backup_path self w "terraform.tfstate") in F2.
  pose proof (state_path_not_backup self w EmptyString "terraform.tfstate") as N1.
  pose proof (state_path_not_backup self w ".backup" "terraform.tfstate") as N2.
  pose proof (state_path_not_backup self w EmptyString "terraform.tfstate.backup") as N3.
  cbn [append] in N1, N2, N3.
  assert (G : PyDict.get (Imports.in_terraform_dir self "terraform.tfstate.backup")
                (Imports.files w2) =
              PyDict.get (Imports.in_terraform_dir self "terraform.tfstate.backup")
                (Imports.files w)).
  { rewrite F2. now apply get_set_other. }
  destruct (PyDict.get (Imports.in_terraform_dir self "terraform.tfstate.backup")
              (Imports.files w)) as [older |] eqn:O.
  - destruct (backup_state_file_copy self
                (Imports.in_terraform_dir self "state_backups")
                "terraform.tfstate.backup" older w2)
      as (w3 & -> & F3 & U3 & T3 & D3 & X3);
      [now rewrite U2, U1 | exact G |].
    rewrite T2, T1, F2 in F3.
    fold (backup_path self w "terraform.tfstate.backup") in F3.
    exists w3. split; [reflexivity |]. rewrite F3.
    split; [| split; [| split; [| split]]].
    + rewrite get_set_other by apply backup_paths_differ. apply get_set_same.
    + intros older' E. injection E as <-. apply get_set_same.
    + intros p P1 P2. rewrite !get_set_other; [reflexivity | |];
        now apply String.eqb_neq.
    + rewrite !get_set_other; assumption.
    + congruence.
  - rewrite backup_state_file_skip.
    + exists w2. split; [reflexivity |]. rewrite F2.
      split; [| split; [| split; [| split]]].
      * apply get_set_same.
      * intros older E. discriminate E.
      * intros p P1 _. rewrite get_set_other; [reflexivity |].
        now apply String.eqb_neq.
      * rewrite get_set_other; assumption.
      * congruence.
    + unfold Imports.path_exists, Imports.is_file, PyDict.mem. rewrite G.
      cbn [orb]. unfold Imports.is_dir. rewrite D2.
      fold (Imports.is_dir (Imports.in_terraform_dir self "terraform.tfstate.backup")
              w1).
      rewrite D1; [exact Hn |].
      apply String.eqb_neq. intros E. unfold Imports.in_terraform_dir in E.
      apply append_inv_head in E. discriminate E.
Qed.

Lemma state_backup_copies_witness :
  exists w',
    Imports._create_state_backup backup_manager
      {| Imports.cwd := "/home/user";
         Imports.directories := ["/home/user"; "/tf"];
         Imports.files := [("/tf/terraform.tfstate", "{}")];
         Imports.unwritable := [];
         Imports.terraform := fun _ _ => Imports.TimeoutExpired;
         Imports.executed := [];
         Imports.timestamp := "20240101_000000";
         Imports.log_records := [] |} = (w', Ok tt)
    /\ PyDict.get "/tf/state_backups/terraform.tfstate.20240101_000000"
         (Imports.files w') = Some "{}".
Proof.
  destruct (state_backup_copies backup_manager
              {| Imports.cwd := "/home/user";
                 Imports.directories := ["/home/user"; "/tf"];
                 Imports.files := [("/tf/terraform.tfstate", "{}")];
                 Imports.unwritable := [];
                 Imports.terraform := fun _ _ => Imports.TimeoutExpired;
                 Imports.executed := [];
                 Imports.timestamp := "20240101_000000";
                 Imports.log_records := [] |} "{}"
              eq_refl eq_refl eq_refl eq_refl eq_refl eq_refl)
    as (w' & E & G & _).
  exists w'. split; [exact E | exact G].
Defined.

(** ** Conversion of a single resource *)

Lemma has_upper_app : forall a b, has_upper (a ++ b) = has_upper a || has_upper b.
Proof.
  induction a as [| c a IH]; intros b; [reflexivity |].
  cbn [append has_upper]. now rewrite IH, orb_assoc.
Qed.

Lemma name_char_not_upper : forall c,
  Names.is_name_char c = true -> PyStr.is_upper c = false.
Proof.
  intros c H. destruct c as [[] [] [] [] [] [] [] []];
    try reflexivity; discriminate H.
Qed.

Lemma name_chars_no_upper : forall s,
  all_chars Names.is_name_char s = true -> has_upper s = false.
Proof.
  induction s as [| c s IH]; intros H; [reflexivity |].
  cbn in H. apply andb_prop in H as [Hc H].
  cbn [has_upper]. now rewrite (name_char_not_upper c Hc), (IH H).
Qed.

Lemma import_type_no_upper : forall terraform_type,
  In terraform_type import_template_types -> has_upper terraform_type = false.
Proof.
  intros terraform_type H. cbn in H.
  repeat (destruct H as [<- | H]; [reflexivity |]). contradiction.
Qed.

Lemma replace_from_no_upper : forall new pre t,
  has_upper pre = false ->
  replace_from "PHYSICAL_ID" new (pre ++ t) 0 =
    pre ++ replace_from "PHYSICAL_ID" new t 0.
Proof.
  intros new. induction pre as [| c pre IH]; intros t H; [reflexivity |].
  cbn [has_upper] in H. apply orb_false_elim in H as [Hc H].
  cbn [append replace_from String.prefix].
  destruct (ascii_dec "P" c) as [<- | _]; [discriminate Hc |].
  now rewrite (IH t H).
Qed.

Lemma add_physical_id_placeholder : forall physical_id pre,
  has_upper pre = false ->
  add_physical_id physical_id (pre ++ "PHYSICAL_ID") = pre ++ physical_id.
Proof.
  intros physical_id pre H. unfold add_physical_id.
  pose proof (contains_app "PHYSICAL_ID" pre EmptyString) as C.
  cbn [append] in C. change ("PHYSICAL_ID" ++ EmptyString) with "PHYSICAL_ID" in C.
  rewrite C. unfold str_replace. rewrite (replace_from_no_upper _ _ _ H).
  cbn. now rewrite append_nil_r.
Qed.

Lemma resource_name_no_upper :
  forall (self : ConversionEngine) (logical_id : string),
    has_upper (if preserve_names self then PyStr.lower logical_id
               else Names._generate_resource_name logical_id) = false.
Proof.
  intros self logical_id. destruct (preserve_names self).
  - apply lower_no_upper.
  - destruct (generated_name_props logical_id) as (_ & C & _).
    now apply name_chars_no_upper.
Qed.

Lemma convert_resource_command_shape :
  forall (self : ConversionEngine) (logical_id : string) (resource_config : value)
         (func_handler : IntrinsicFunctionHandler) (context : Context)
         (l : list log_record) (c : ConvertedResource),
    _convert_resource self logical_id resource_config func_handler context =
      (l, Ok (Some c)) ->
    cr_import_commands c = []
    \/ exists terraform_type name,
         In terraform_type import_template_types
         /\ has_upper name = false
         /\ cr_import_commands c =
              ["terraform import " ++ terraform_type ++ "." ++ name ++ " PHYSICAL_ID"].
Proof.
  intros self logical_id resource_config func_handler context l c H.
  unfold _convert_resource in H.
  apply bind_ok_inv in H as (l1 & cf_type & l2 & _ & H & _).
  destruct (negb (Py.truthy cf_type)); [discriminate H |].
  apply bind_ok_inv in H as (l3 & terraform_type & l4 & _ & H & _).
  destruct terraform_type as [terraform_type |].
  - destruct (Py.eq_str cf_type "AWS::CloudFormation::Stack").
    + apply bind_ok_inv in H as (l5 & c0 & l6 & Hs & H & _).
      apply ret_inv in H. injection H as <-.
      left. exact (nested_stack_commands _ _ _ _ _ _ Hs).
    + apply bind_ok_inv in H as (l5 & cf_properties & l6 & _ & H & _).
      apply bind_ok_inv in H as (l7 & processed & l8 & _ & H & _).
      apply bind_ok_inv in H as (l9 & mapped & l10 & _ & H & _).
      apply bind_ok_inv in H as (l11 & transformed & l12 & _ & H & _).
      apply ret_inv in H. injection H as <-. cbn [cr_import_commands].
      unfold _generate_import_command.
      destruct (existsb (String.eqb terraform_type) import_template_types) eqn:E;
        [| now left].
      right. eexists; eexists. split; [exact (existsb_eqb_in _ _ E) |].
      split; [apply (resource_name_no_upper self logical_id) | reflexivity].
  - unfold log in H. cbn [fst snd ret] in H. injection H as _ <-. now left.
Qed.

(** X23. On a mapping, [convert_resource] with a non-empty physical
    identifier returns what it returns without one, except that in the
    import command (there is at most one) the placeholder [PHYSICAL_ID]
    is replaced by the identifier: [terraform import <type>.<name> <id>].
    Nothing else in the command changes, the type and the name holding
    no upper-case letter. *)
Theorem convert_resource_physical_id :
  forall (self : ConversionEngine) (logical_id : string) (entries : dict)
         (physical_id : string),
    physical_id <> EmptyString ->
    exists l r0 r,
      convert_resource self logical_id (VDict entries) None = (l, Ok r0)
      /\ convert_resource self logical_id (VDict entries) (Some physical_id) =
           (l, Ok r)
      /\ terraform_config r = terraform_config r0
      /\ warnings r = warnings r0
      /\ errors r = errors r0
      /\ List.length (import_commands r0) <= 1
      /\ Forall2 (filled_in physical_id) (import_commands r0) (import_commands r).
Proof.
  intros self logical_id entries physical_id Hne.
  unfold convert_resource. cbn [Py.get]. rewrite !bind_lift_ok. unfold log.
  destruct (_convert_resource self logical_id (VDict entries)
              {| parameters := []; mappings := [] |} empty_context)
    as [l [[c |] | e]] eqn:E; cbn [fst snd].
  - eexists; eexists; eexists. split; [reflexivity |]. split; [reflexivity |].
    cbn [terraform_config warnings errors import_commands].
    do 3 (split; [reflexivity |]).
    destruct (convert_resource_command_shape _ _ _ _ _ _ _ E)
      as [-> | (terraform_type & name & Ht & Hu & ->)].
    + split; [cbn; lia | constructor].
    + apply String.eqb_neq in Hne. rewrite Hne. cbn [negb map List.length].
      split; [lia |]. constructor; [| constructor].
      exists terraform_type, name. split; [exact Ht |]. split; [reflexivity |].
      replace ("terraform import " ++ terraform_type ++ "." ++ name ++ " PHYSICAL_ID")
        with (("terraform import " ++ terraform_type ++ "." ++ name ++ " ")
                ++ "PHYSICAL_ID")
        by (now rewrite !append_assoc).
      rewrite add_physical_id_placeholder.
      * now rewrite !append_assoc.
      * rewrite !has_upper_app, (import_type_no_upper _ Ht), Hu. reflexivity.
  - eexists; eexists; eexists. split; [reflexivity |]. split; [reflexivity |].
    do 3 (split; [reflexivity |]). split; [cbn; lia | constructor].
  - eexists; eexists; eexists. split; [reflexivity |]. split; [reflexivity |].
    do 3 (split; [reflexivity |]). split; [cbn; lia | constructor].
Qed.

Lemma convert_resource_physical_id_witness :
  exists l r0 r,
    convert_resource default_engine "MyVPC"
      (VDict [("Type", VStr "AWS::EC2::VPC")]) None = (l, Ok r0)
    /\ convert_resource default_engine "MyVPC"
         (VDict [("Type", VStr "AWS::EC2::VPC")]) (Some "vpc-0a1b2c") = (l, Ok r)
    /\ terraform_config r = terraform_config r0
    /\ warnings r = warnings r0
    /\ errors r = errors r0
    /\ List.length (import_commands r0) <= 1
    /\ Forall2 (filled_in "vpc-0a1b2c") (import_commands r0) (import_commands r).
Proof.
  apply (convert_resource_physical_id default_engine "MyVPC"
           [("Type", VStr "AWS::EC2::VPC")] "vpc-0a1b2c").
  discriminate.
Defined.

(** X24. [convert_resource] raises only for a configuration that is
    not a mapping (the [AttributeError] of its first log statement). On a
    mapping it always returns a result: either without errors, or, when
    the conversion failed, the empty result with the single error
    [Resource conversion failed: ...], which is logged as well. *)
Theorem convert_resource_failures :
  forall (self : ConversionEngine) (logical_id : string) (resource_config : value)
         (physical_id : option string),
    match resource_config with
    | VDict _ =>
        exists l r,
          convert_resource self logical_id resource_config physical_id = (l, Ok r)
          /\ (errors r = []
              \/ exists e,
                   r = add_error ("Resource conversion failed: " ++ exn_str e)
                         new_result
                   /\ In (ERROR, "Resource conversion failed: " ++ exn_str e) l)
    | _ =>
        convert_resource self logical_id resource_config physical_id =
          ([], Raise (Py.no_attribute resource_config "get"))
    end.
Proof.
  intros self logical_id resource_config physical_id.
  destruct resource_config as [| b | n | s | items | entries]; try reflexivity.
  unfold convert_resource. cbn [Py.get]. rewrite bind_lift_ok. unfold log.
  destruct (_convert_resource self logical_id (VDict entries)
              {| parameters := []; mappings := [] |} empty_context)
    as [l [[c |] | e]] eqn:E; cbn [fst snd].
  - eexists; eexists. split; [reflexivity |]. now left.
  - eexists; eexists. split; [reflexivity |]. now left.
  - eexists; eexists. split; [reflexivity |]. right. exists e.
    split; [reflexivity |]. right. apply in_or_app. right. now left.
Qed.

(** ** Import commands of the import manager *)

Lemma import_templates_format :
  Forall
    (fun entry : string * string =>
       forall (address : string) (id arn name : value),
         (exists x,
            In x [id; arn; name]
            /\ Imports.format (snd entry)
                 [("address", VStr address); ("id", id); ("arn", arn);
                  ("name", name)] =
                 Ok ("terraform import " ++ address ++ " " ++ Py.str x))
         \/ exists k,
              Imports.format (snd entry)
                [("address", VStr address); ("id", id); ("arn", arn);
                 ("name", name)] = Raise (KeyError k))
    Imports.IMPORT_TEMPLATES.
Proof.
  unfold Imports.IMPORT_TEMPLATES.
  repeat (apply Forall_cons;
          [ intros address id arn name; cbn; rewrite ?append_nil_r;
            first [ right; eexists; reflexivity
                  | left; exists id; split; [now left | reflexivity]
                  | left; exists arn; split; [right; now left | reflexivity]
                  | left; exists name; split;
                    [right; right; now left | reflexivity] ]
          | ]).
  apply Forall_nil.
Qed.

Lemma io_bind_lift_ok : forall (A B : Type) (a : A) (f : A -> Imports.IO B)
                               (w : Imports.World),
  Imports.io_bind (Imports.io_lift (Ok a)) f w = f a w.
Proof. reflexivity. Qed.

Lemma standard_command :
  forall (d : dict) (cf_type terraform_type resource_id logical_id : string)
         (w : Imports.World),
    PyDict.get "resource_type" d = Some (VStr cf_type) ->
    PyDict.get "resource_id" d = Some (VStr resource_id) ->
    resource_id <> EmptyString ->
    Imports.info_get d "logical_id" (VStr EmptyString) = VStr logical_id ->
    PyDict.get cf_type ResourceMapper.RESOURCE_TYPE_MAPPING = Some terraform_type ->
    PyDict.mem terraform_type Imports.IMPORT_TEMPLATES = true ->
    terraform_type <> "aws_internet_gateway_attachment" ->
    terraform_type <> "aws_route_table_association" ->
    exists x,
      In x [VStr resource_id; Imports.info_get d "arn" (VStr resource_id);
            Imports.info_get d "name" (VStr resource_id)]
      /\ snd (Imports._generate_import_command (VDict d) w) =
           Ok (Some ("terraform import "
                       ++ (terraform_type ++ "."
                             ++ PyStr.lower (if String.eqb logical_id EmptyString
                                             then resource_id else logical_id))
                       ++ " " ++ Py.str x)).
Proof.
  intros d cf_type terraform_type resource_id logical_id w Ht Hi Hne Hl Hm Hp N1 N2.
  assert (E1 : Imports.info_get d "resource_type" (VStr EmptyString) = VStr cf_type)
    by (unfold Imports.info_get; now rewrite Ht).
  assert (E2 : Imports.info_get d "resource_id" (VStr EmptyString) =
               VStr resource_id)
    by (unfold Imports.info_get; now rewrite Hi).
  unfold Imports._generate_import_command. cbv zeta. rewrite E1, E2, Hl.
  assert (Hc : cf_type <> EmptyString).
  { intros ->. discriminate Hm. }
  apply String.eqb_neq in Hc, Hne. cbn [Py.truthy]. rewrite Hc, Hne. cbn [negb orb].
  cbn [ResourceMapper.get_terraform_type]. rewrite io_bind_lift_ok, Hm.
  unfold PyDict.mem in Hp.
  destruct (PyDict.get terraform_type Imports.IMPORT_TEMPLATES)
    as [import_template |] eqn:T; [| discriminate Hp].
  assert (L : (if negb (String.eqb logical_id EmptyString)
               then Py.lower (VStr logical_id) else Py.lower (VStr resource_id)) =
              Ok (PyStr.lower (if String.eqb logical_id EmptyString
                               then resource_id else logical_id))).
  { destruct (String.eqb logical_id EmptyString); reflexivity. }
  rewrite L, io_bind_lift_ok.
  apply String.eqb_neq in N1, N2. cbn [existsb]. rewrite N1, N2. cbn [orb].
  pose proof (proj1 (Forall_forall _ _) import_templates_format
                (terraform_type, import_template) (get_in _ _ _ _ T)) as F.
  cbn [snd] in F.
  destruct (F (terraform_type ++ "."
                 ++ PyStr.lower (if String.eqb logical_id EmptyString
                                 then resource_id else logical_id))
              (VStr resource_id) (Imports.info_get d "arn" (VStr resource_id))
              (Imports.info_get d "name" (VStr resource_id)))
    as [(x & Hx & ->) | (k & ->)].
  - exists x. split; [exact Hx | reflexivity].
  - exists (VStr resource_id). split; [now left | reflexivity].
Qed.

Lemma import_templates_identifier :
  Forall
    (fun entry : string * string =>
       forall (address : string) (id arn name : value),
         match Imports.format (snd entry)
                 [("address", VStr address); ("id", id); ("arn", arn);
                  ("name", name)] with
         | Ok import_cmd =>
             import_cmd =
               "terraform import " ++ address ++ " "
                 ++ Py.str (template_identifier (snd entry) id arn name)
         | Raise e =>
             (exists k, e = KeyError k)
             /\ template_identifier (snd entry) id arn name = id
         end)
    Imports.IMPORT_TEMPLATES.
Proof.
  unfold Imports.IMPORT_TEMPLATES.
  repeat (apply Forall_cons;
          [ intros address id arn name; cbn; rewrite ?append_nil_r;
            first [ reflexivity | split; [eexists; reflexivity | reflexivity] ]
          | ]).
  apply Forall_nil.
Qed.

(** X25. For a resource of a type that has a target type and an import
    template, the two compound types apart, with a non-empty physical
    identifier: the import manager generates
    [terraform import <type>.<name> <identifier>], where the name is the
    lower-cased logical id, or the lower-cased physical identifier when
    there is no logical id.  The identifier is the resource's [arn] entry
    for the types whose template is [terraform import {address} {arn}],
    its [name] entry for the type whose template is
    [terraform import {address} {name}] (the physical identifier when the
    resource has no such entry), and the physical identifier for every
    other type: those whose template asks for [{id}], and those whose
    template has a field the manager does not supply. *)
Theorem standard_import_command :
  forall (d : dict)
         (cf_type terraform_type import_template resource_id logical_id : string)
         (w : Imports.World),
    PyDict.get "resource_type" d = Some (VStr cf_type) ->
    PyDict.get "resource_id" d = Some (VStr resource_id) ->
    resource_id <> EmptyString ->
    Imports.info_get d "logical_id" (VStr EmptyString) = VStr logical_id ->
    PyDict.get cf_type ResourceMapper.RESOURCE_TYPE_MAPPING = Some terraform_type ->
    PyDict.get terraform_type Imports.IMPORT_TEMPLATES = Some import_template ->
    terraform_type <> "aws_internet_gateway_attachment" ->
    terraform_type <> "aws_route_table_association" ->
    snd (Imports._generate_import_command (VDict d) w) =
      Ok (Some ("terraform import "
                  ++ (terraform_type ++ "."
                        ++ PyStr.lower (if String.eqb logical_id EmptyString
                                        then resource_id else logical_id))
                  ++ " "
                  ++ Py.str (template_identifier import_template (VStr resource_id)
                               (Imports.info_get d "arn" (VStr resource_id))
                               (Imports.info_get d "name" (VStr resource_id))))).
Proof.
  intros d cf_type terraform_type import_template resource_id logical_id w
         Ht Hi Hne Hl Hm T N1 N2.
  assert (E1 : Imports.info_get d "resource_type" (VStr EmptyString) = VStr cf_type)
    by (unfold Imports.info_get; now rewrite Ht).
  assert (E2 : Imports.info_get d "resource_id" (VStr EmptyString) =
               VStr resource_id)
    by (unfold Imports.info_get; now rewrite Hi).
  unfold Imports._generate_import_command. cbv zeta. rewrite E1, E2, Hl.
  assert (Hc : cf_type <> EmptyString).
  { intros ->. discriminate Hm. }
  apply String.eqb_neq in Hc, Hne. cbn [Py.truthy]. rewrite Hc, Hne. cbn [negb orb].
  cbn [ResourceMapper.get_terraform_type]. rewrite io_bind_lift_ok, Hm, T.
  assert (L : (if negb (String.eqb logical_id EmptyString)
               then Py.lower (VStr logical_id) else Py.lower (VStr resource_id)) =
              Ok (PyStr.lower (if String.eqb logical_id EmptyString
                               then resource_id else logical_id))).
  { destruct (String.eqb logical_id EmptyString); reflexivity. }
  rewrite L, io_bind_lift_ok.
  apply String.eqb_neq in N1, N2. cbn [existsb]. rewrite N1, N2. cbn [orb].
  pose proof (proj1 (Forall_forall _ _) import_templates_identifier
                (terraform_type, import_template) (get_in _ _ _ _ T)
                (terraform_type ++ "."
                   ++ PyStr.lower (if String.eqb logical_id EmptyString
                                   then resource_id else logical_id))
                (VStr resource_id) (Imports.info_get d "arn" (VStr resource_id))
                (Imports.info_get d "name" (VStr resource_id))) as F.
  cbn [snd] in F.
  destruct (Imports.format import_template _) as [import_cmd | e].
  - subst import_cmd. reflexivity.
  - destruct F as [[k ->] ->]. reflexivity.
Qed.

Lemma standard_import_command_witness :
  snd (Imports._generate_import_command
         (VDict [("resource_type", VStr "AWS::SNS::Topic");
                 ("resource_id", VStr "orders");
                 ("logical_id", VStr "OrdersTopic");
                 ("arn", VStr "arn:aws:sns:us-east-1:123456789012:orders");
                 ("name", VStr "orders-topic")]) batch_world) =
    Ok (Some "terraform import aws_sns_topic.orderstopic arn:aws:sns:us-east-1:123456789012:orders")
  /\ snd (Imports._generate_import_command
            (VDict [("resource_type", VStr "AWS::EC2::Route");
                    ("resource_id", VStr "rtb-0a1");
                    ("logical_id", VStr "DefaultRoute");
                    ("arn", VStr "arn:aws:ec2:route");
                    ("name", VStr "default-route")]) batch_world) =
       Ok (Some "terraform import aws_route.defaultroute rtb-0a1")
  /\ snd (Imports._generate_import_command
            (VDict [("resource_type", VStr "AWS::KMS::Alias");
                    ("resource_id", VStr "alias-1");
                    ("arn", VStr "arn:aws:kms:alias");
                    ("name", VStr "alias/app")]) batch_world) =
       Ok (Some "terraform import aws_kms_alias.alias-1 alias/app").
Proof.
  split; [| split].
  - refine (standard_import_command
              [("resource_type", VStr "AWS::SNS::Topic");
               ("resource_id", VStr "orders");
               ("logical_id", VStr "OrdersTopic");
               ("arn", VStr "arn:aws:sns:us-east-1:123456789012:orders");
               ("name", VStr "orders-topic")]
              "AWS::SNS::Topic" "aws_sns_topic" "terraform import {address} {arn}"
              "orders" "OrdersTopic" batch_world
              eq_refl eq_refl _ eq_refl eq_refl eq_refl _ _); discriminate.
  - refine (standard_import_command
              [("resource_type", VStr "AWS::EC2::Route");
               ("resource_id", VStr "rtb-0a1");
               ("logical_id", VStr "DefaultRoute");
               ("arn", VStr "arn:aws:ec2:route");
               ("name", VStr "default-route")]
              "AWS::EC2::Route" "aws_route"
              "terraform import {address} {route_table_id}_{destination}"
              "rtb-0a1" "DefaultRoute" batch_world
              eq_refl eq_refl _ eq_refl eq_refl eq_refl _ _); discriminate.
  - refine (standard_import_command
              [("resource_type", VStr "AWS::KMS::Alias");
               ("resource_id", VStr "alias-1");
               ("arn", VStr "arn:aws:kms:alias");
               ("name", VStr "alias/app")]
              "AWS::KMS::Alias" "aws_kms_alias" "terraform import {address} {name}"
              "alias-1" EmptyString batch_world
              eq_refl eq_refl _ eq_refl eq_refl eq_refl _ _); discriminate.
Defined.

Lemma target_types_no_space :
  Forall (fun entry : string * string => no_space (snd entry) = true)
    ResourceMapper.RESOURCE_TYPE_MAPPING.
Proof.
  unfold ResourceMapper.RESOURCE_TYPE_MAPPING.
  repeat (apply Forall_cons; [reflexivity |]). apply Forall_nil.
Qed.

(** X26. Round trip from the generator to the script parser: under the
    conditions of X25, when the resource name holds no space and the
    identifiers the template may use are non-empty and do not end in
    white space, the generated command is read back by the parser as one
    command, whole, with the address [<type>.<name>] and the identifier
    that was written. *)
Theorem generated_command_parses_back :
  forall (d : dict) (cf_type terraform_type resource_id logical_id : string)
         (w : Imports.World),
    PyDict.get "resource_type" d = Some (VStr cf_type) ->
    PyDict.get "resource_id" d = Some (VStr resource_id) ->
    resource_id <> EmptyString ->
    Imports.info_get d "logical_id" (VStr EmptyString) = VStr logical_id ->
    PyDict.get cf_type ResourceMapper.RESOURCE_TYPE_MAPPING = Some terraform_type ->
    PyDict.mem terraform_type Imports.IMPORT_TEMPLATES = true ->
    terraform_type <> "aws_internet_gateway_attachment" ->
    terraform_type <> "aws_route_table_association" ->
    no_space (if String.eqb logical_id EmptyString then resource_id else logical_id) =
      true ->
    Forall (fun x => Py.str x <> EmptyString
                     /\ Imports.rstrip (Py.str x) = Py.str x)
      [VStr resource_id; Imports.info_get d "arn" (VStr resource_id);
       Imports.info_get d "name" (VStr resource_id)] ->
    exists c x,
      snd (Imports._generate_import_command (VDict d) w) = Ok (Some c)
      /\ In x [VStr resource_id; Imports.info_get d "arn" (VStr resource_id);
               Imports.info_get d "name" (VStr resource_id)]
      /\ Imports.parse_line c =
           [{| Imports.command := c;
               Imports.address :=
                 terraform_type ++ "."
                   ++ PyStr.lower (if String.eqb logical_id EmptyString
                                   then resource_id else logical_id);
               Imports.id := Py.str x |}].
Proof.
  intros d cf_type terraform_type resource_id logical_id w Ht Hi Hne Hl Hm Hp N1 N2
    Hs Hx.
  destruct (standard_command d cf_type terraform_type resource_id logical_id w
              Ht Hi Hne Hl Hm Hp N1 N2) as (x & Ix & E).
  eexists. exists x. split; [exact E |]. split; [exact Ix |].
  destruct (proj1 (Forall_forall _ _) Hx x Ix) as [X1 X2].
  pose proof (parse_line_command EmptyString EmptyString
                (terraform_type ++ "."
                   ++ PyStr.lower (if String.eqb logical_id EmptyString
                                   then resource_id else logical_id))
                (Py.str x) eq_refl eq_refl) as P.
  cbn [append] in P. rewrite append_nil_r in P. apply P; try assumption.
  unfold no_space. rewrite all_chars_app.
  pose proof (proj1 (Forall_forall _ _) target_types_no_space
                (cf_type, terraform_type) (get_in _ _ _ _ Hm)) as T.
  cbn [snd] in T. unfold no_space in T. rewrite T. cbn.
  now apply lower_no_space.
Qed.

Lemma generated_command_parses_back_witness :
  exists c x,
    snd (Imports._generate_import_command
           (VDict [("resource_type", VStr "AWS::EC2::VPC");
                   ("resource_id", VStr "vpc-0a1b");
                   ("logical_id", VStr "MainVpc")]) batch_world) = Ok (Some c)
    /\ In x [VStr "vpc-0a1b"; VStr "vpc-0a1b"; VStr "vpc-0a1b"]
    /\ Imports.parse_line c =
         [{| Imports.command := c;
             Imports.address := "aws_vpc" ++ "." ++ PyStr.lower "MainVpc";
             Imports.id := Py.str x |}].
Proof.
  refine (generated_command_parses_back
            [("resource_type", VStr "AWS::EC2::VPC");
             ("resource_id", VStr "vpc-0a1b");
             ("logical_id", VStr "MainVpc")]
            "AWS::EC2::VPC" "aws_vpc" "vpc-0a1b" "MainVpc" batch_world
            eq_refl eq_refl _ eq_refl eq_refl eq_refl _ _ eq_refl _);
    try discriminate.
  repeat (constructor; [split; [discriminate | reflexivity] |]). constructor.
Defined.

(** X27. For the two compound types the command is built from the
    resource's properties, and its name from the physical identifier,
    not from the logical id.  With both parts present and a string
    identifier the command is
    [terraform import <type>.<lower-cased identifier> <first>/<second>];
    when the first part is missing or empty nothing is generated, and
    nothing is logged. *)
Theorem compound_import_command :
  forall (d properties : dict) (cf_type terraform_type resource_id : string)
         (first_key second_key : string) (w : Imports.World),
    In (cf_type, terraform_type, first_key, second_key)
       [("AWS::EC2::VPCGatewayAttachment", "aws_internet_gateway_attachment",
         "VpcId", "InternetGatewayId");
        ("AWS::EC2::SubnetRouteTableAssociation", "aws_route_table_association",
         "SubnetId", "RouteTableId")] ->
    PyDict.get "resource_type" d = Some (VStr cf_type) ->
    PyDict.get "resource_id" d = Some (VStr resource_id) ->
    resource_id <> EmptyString ->
    (forall v, PyDict.get "logical_id" d = Some v -> exists s, v = VStr s) ->
    Imports.info_get d "properties" (VDict []) = VDict properties ->
    (forall first second,
       PyDict.get first_key properties = Some first ->
       PyDict.get second_key properties = Some second ->
       Py.truthy first = true -> Py.truthy second = true ->
       Imports._generate_import_command (VDict d) w =
         (w, Ok (Some ("terraform import " ++ terraform_type ++ "."
                         ++ PyStr.lower resource_id ++ " " ++ Py.str first ++ "/"
                         ++ Py.str second))))
    /\ (PyDict.get first_key properties = None ->
        Imports._generate_import_command (VDict d) w = (w, Ok None)).
Proof.
  intros d properties cf_type terraform_type resource_id first_key second_key w
    Hin Ht Hi Hne Hl Hp.
  assert (E1 : Imports.info_get d "resource_type" (VStr EmptyString) = VStr cf_type)
    by (unfold Imports.info_get; now rewrite Ht).
  assert (E2 : Imports.info_get d "resource_id" (VStr EmptyString) =
               VStr resource_id)
    by (unfold Imports.info_get; now rewrite Hi).
  assert (L : exists s, Imports.info_get d "logical_id" (VStr EmptyString) = VStr s).
  { unfold Imports.info_get. destruct (PyDict.get "logical_id" d) as [v |].
    - now apply Hl.
    - now exists EmptyString. }
  destruct L as (logical_id & L).
  assert (N : (if Py.truthy (VStr logical_id) then Py.lower (VStr logical_id)
               else Py.lower (VStr resource_id)) =
              Ok (PyStr.lower (if String.eqb logical_id EmptyString
                               then resource_id else logical_id))).
  { cbn. destruct (String.eqb logical_id EmptyString); reflexivity. }
  apply String.eqb_neq in Hne.
  unfold Imports._generate_import_command. cbv zeta. rewrite E1, E2, L, N.
  cbn [Py.truthy]. rewrite Hne.
  destruct Hin as [H | [H | []]]; injection H as <- <- <- <-;
    cbn [String.eqb Ascii.eqb Bool.eqb negb orb ResourceMapper.get_terraform_type];
    rewrite io_bind_lift_ok;
    change (PyDict.get _ ResourceMapper.RESOURCE_TYPE_MAPPING)
      with (Some "aws_internet_gateway_attachment")
      || change (PyDict.get _ ResourceMapper.RESOURCE_TYPE_MAPPING)
           with (Some "aws_route_table_association");
    cbv iota;
    change (PyDict.get _ Imports.IMPORT_TEMPLATES)
      with (Some "terraform import {address} {vpc_id}/{igw_id}")
      || change (PyDict.get _ Imports.IMPORT_TEMPLATES)
           with (Some "terraform import {address} {subnet_id}/{route_table_id}");
    cbv iota; rewrite io_bind_lift_ok;
    cbn [existsb String.eqb Ascii.eqb Bool.eqb orb];
    unfold Imports._generate_compound_import_command;
    cbn [String.eqb Ascii.eqb Bool.eqb]; rewrite E2, Hp; cbn [Py.get];
    rewrite !io_bind_lift_ok.
  - split.
    + intros first second F1 F2 T1 T2. rewrite F1, F2, T1, T2. reflexivity.
    + intros F1. rewrite F1. reflexivity.
  - split.
    + intros first second F1 F2 T1 T2. rewrite F1, F2, T1, T2. reflexivity.
    + intros F1. rewrite F1. reflexivity.
Qed.

Lemma compound_import_command_witness :
  Imports._generate_import_command
    (VDict [("resource_type", VStr "AWS::EC2::SubnetRouteTableAssociation");
            ("resource_id", VStr "RTBASSOC-1");
            ("logical_id", VStr "PublicAssociation");
            ("properties", VDict [("SubnetId", VStr "subnet-1");
                                  ("RouteTableId", VStr "rtb-2")])])
    batch_world =
    (batch_world,
     Ok (Some ("terraform import " ++ "aws_route_table_association" ++ "."
                 ++ PyStr.lower "RTBASSOC-1" ++ " " ++ Py.str (VStr "subnet-1")
                 ++ "/" ++ Py.str (VStr "rtb-2")))).
Proof.
  refine (proj1 (compound_import_command
                   [("resource_type", VStr "AWS::EC2::SubnetRouteTableAssociation");
                    ("resource_id", VStr "RTBASSOC-1");
                    ("logical_id", VStr "PublicAssociation");
                    ("properties", VDict [("SubnetId", VStr "subnet-1");
                                          ("RouteTableId", VStr "rtb-2")])]
                   [("SubnetId", VStr "subnet-1"); ("RouteTableId", VStr "rtb-2")]
                   "AWS::EC2::SubnetRouteTableAssociation"
                   "aws_route_table_association" "RTBASSOC-1"
                   "SubnetId" "RouteTableId" batch_world
                   _ eq_refl eq_refl _ _ eq_refl)
            (VStr "subnet-1") (VStr "rtb-2") eq_refl eq_refl eq_refl eq_refl).
  - right. left. reflexivity.
  - discriminate.
  - intros v H. injection H as <-. now exists "PublicAssociation".
Defined.

(** ** One import at a time *)

Lemma same_environment_logger : forall lvl msg w1 w2,
  same_environment w1 w2 ->
  same_environment (fst (Imports.logger lvl msg w1)) w2.
Proof. intros lvl msg w1 w2 H. exact H. Qed.

Lemma same_environment_sym : forall w1 w2,
  same_environment w1 w2 -> same_environment w2 w1.
Proof.
  intros w1 w2 (A & B & C & D & E & F & G). repeat split; congruence.
Qed.

Lemma terraform_command_same_environment :
  forall (self : Imports.ImportManager) (command : string) (w1 w2 : Imports.World),
    same_environment w1 w2 ->
    snd (Imports._execute_terraform_command self command w1) =
      snd (Imports._execute_terraform_command self command w2)
    /\ same_environment (fst (Imports._execute_terraform_command self command w1))
         (fst (Imports._execute_terraform_command self command w2)).
Proof.
  intros self command [c1 d1 f1 u1 t1 x1 s1 l1] [c2 d2 f2 u2 t2 x2 s2 l2] H.
  unfold same_environment in H. cbn in H.
  destruct H as (<- & <- & <- & <- & <- & <- & <-).
  cbv [Imports._execute_terraform_command Imports.getcwd Imports.chdir
         Imports.finally_restore Imports.subprocess_run Imports.is_dir
         Imports.set_cwd Imports.add_executed Imports.cwd Imports.directories
         Imports.terraform Imports.executed Imports.files Imports.unwritable
         Imports.timestamp same_environment fst snd].
  destruct (existsb (String.eqb c1) d1) eqn:D0;
    [| split; [reflexivity | repeat split]].
  destruct (existsb (String.eqb (Imports.terraform_dir self)) d1) eqn:D1.
  - destruct (t1 command (count_occ string_dec x1 command)) as [rc out err | | e];
      rewrite ?D0; (split; [reflexivity | repeat split]).
  - rewrite ?D0. split; [reflexivity | repeat split].
Qed.

(** X28. Importing one resource with [import_resource] gives the
    result that the first attempt of the script line
    [terraform import <address> <identifier>] gives: the same success
    flag, error message and retry count 0, the same command run, the
    same working directory afterwards. The two differ only in what they
    log. *)
Theorem import_resource_as_script_line :
  forall (self : Imports.ImportManager) (resource_address resource_id : string)
         (w : Imports.World),
    snd (Imports.import_resource self resource_address resource_id w) =
      snd (Imports._execute_single_import self
             {| Imports.command :=
                  "terraform import " ++ resource_address ++ " " ++ resource_id;
                Imports.address := resource_address;
                Imports.id := resource_id |} 0 w)
    /\ same_environment
         (fst (Imports.import_resource self resource_address resource_id w))
         (fst (Imports._execute_single_import self
                 {| Imports.command :=
                      "terraform import " ++ resource_address ++ " " ++ resource_id;
                    Imports.address := resource_address;
                    Imports.id := resource_id |} 0 w)).
Proof.
  intros self resource_address resource_id w.
  unfold Imports.import_resource, Imports._execute_single_import.
  cbv zeta. cbn [Imports.command Imports.address Imports.id].
  set (w0 := fst (Imports.logger DEBUG
                    ("Importing resource: " ++ resource_address ++ " -> "
                       ++ resource_id) w)).
  assert (S : same_environment w0 w) by (repeat split).
  destruct (terraform_command_same_environment self
              ("terraform import " ++ resource_address ++ " " ++ resource_id)
              w0 w S) as [R E].
  destruct (Imports._execute_terraform_command self
              ("terraform import " ++ resource_address ++ " " ++ resource_id) w0)
    as [w1 r1].
  destruct (Imports._execute_terraform_command self
              ("terraform import " ++ resource_address ++ " " ++ resource_id) w)
    as [w2 r2].
  cbn [fst snd] in R, E. subst r2.
  destruct r1 as [p | e].
  - destruct (Z.eqb (Imports.returncode p) 0); split; try reflexivity; exact E.
  - split; [reflexivity | exact E].
Qed.

(** ** References and their declarations *)

Lemma map_parameter_type_range : forall (cf_type : value) (ty : string),
  _map_parameter_type cf_type = Ok ty -> In ty variable_types.
Proof.
  intros cf_type ty H. unfold _map_parameter_type in H.
  destruct cf_type as [| b | n | s | items | entries];
    try discriminate H; try (injection H as <-; now left).
  destruct (PyDict.get s parameter_type_mapping) as [t |] eqn:G;
    injection H as <-; [| now left].
  apply get_in in G. unfold parameter_type_mapping in G. cbn [In] in G.
  repeat (destruct G as [G | G];
          [injection G as _ <-; cbn; tauto |]).
  contradiction.
Qed.

Lemma lift_ok_inv : forall (A : Type) (r : result A) (l : list log_record) (a : A),
  lift r = (l, Ok a) -> r = Ok a.
Proof. intros A r l a H. unfold lift in H. now injection H. Qed.

Lemma convert_parameter_ok :
  forall (l0 : list log_record) (vars0 : dict) (name : string) (config : value)
         (l : list log_record) (vars : dict),
    convert_parameter (l0, Ok vars0) (name, config) = (l, Ok vars) ->
    exists d ty,
      vars = PyDict.set (PyStr.lower name) (VDict d) vars0
      /\ PyDict.get "type" d = Some (VStr ty)
      /\ In ty variable_types
      /\ PyDict.mem "description" d = true.
Proof.
  intros l0 vars0 name config l vars H. unfold convert_parameter in H.
  apply bind_ok_inv in H as (l1 & variables & l2 & Ha & H & _).
  injection Ha as _ <-.
  apply bind_ok_inv in H as (l3 & description & l4 & _ & H & _).
  apply bind_ok_inv in H as (l5 & cf_type & l6 & _ & H & _).
  apply bind_ok_inv in H as (l7 & tf_type & l8 & Ht & H & _).
  apply lift_ok_inv, map_parameter_type_range in Ht.
  apply bind_ok_inv in H as (l9 & has_default & l10 & _ & H & _).
  apply bind_ok_inv in H as (l11 & def1 & l12 & H1 & H & _).
  apply bind_ok_inv in H as (l13 & has_allowed & l14 & _ & H & _).
  apply bind_ok_inv in H as (l15 & def2 & l16 & H2 & H & _).
  apply ret_inv in H. subst vars.
  assert (D1 : PyDict.get "type" def1 = Some (VStr tf_type)
               /\ PyDict.mem "description" def1 = true).
  { destruct has_default.
    - apply bind_ok_inv in H1 as (l17 & d & l18 & _ & H1 & _).
      apply ret_inv in H1. subst def1. split; reflexivity.
    - apply ret_inv in H1. subst def1. split; reflexivity. }
  destruct D1 as [T1 M1].
  assert (D2 : PyDict.get "type" def2 = Some (VStr tf_type)
               /\ PyDict.mem "description" def2 = true).
  { destruct has_allowed.
    - apply bind_ok_inv in H2 as (l17 & allowed & l18 & _ & H2 & _).
      apply bind_ok_inv in H2 as (l19 & joined & l20 & _ & H2 & _).
      apply ret_inv in H2. subst def2. split.
      + rewrite get_set_other by reflexivity. exact T1.
      + rewrite mem_set. now rewrite M1, orb_true_r.
    - apply ret_inv in H2. now subst def2. }
  destruct D2 as [T2 M2].
  exists def2, tf_type. repeat split; assumption.
Qed.

Lemma convert_parameters_declare :
  forall (items : dict) (acc : M dict) (l : list log_record) (vars : dict),
    fold_left convert_parameter items acc = (l, Ok vars) ->
    exists l0 vars0,
      acc = (l0, Ok vars0)
      /\ forall k,
           declares vars0 k
           \/ (exists name, PyDict.mem name items = true /\ k = PyStr.lower name) ->
           declares vars k.
Proof.
  induction items as [| [n config] items IH]; intros acc l vars H.
  - cbn [fold_left] in H. subst acc. exists l, vars. split; [reflexivity |].
    intros k [D | (name & M & _)]; [exact D | discriminate M].
  - cbn [fold_left] in H.
    destruct (IH _ _ _ H) as (l' & vars' & S & P).
    destruct acc as [l0 [vars0 | e]]; [| discriminate S].
    exists l0, vars0. split; [reflexivity |].
    destruct (convert_parameter_ok _ _ _ _ _ _ S) as (d & ty & -> & T & I & M).
    assert (New : declares (PyDict.set (PyStr.lower n) (VDict d) vars0)
                    (PyStr.lower n)).
    { exists d, ty. rewrite get_set_same. repeat split; assumption. }
    intros k [D | (name & Hm & ->)].
    + apply P. left. destruct (String.eqb_spec k (PyStr.lower n)) as [-> | N].
      * exact New.
      * destruct D as (d0 & ty0 & G & R). exists d0, ty0.
        rewrite get_set_other by (now apply String.eqb_neq). now split.
    + unfold PyDict.mem in Hm. cbn [PyDict.get] in Hm.
      destruct (String.eqb_spec name n) as [E | N].
      * apply P. left. rewrite E. exact New.
      * apply P. right. exists name. split; [exact Hm | reflexivity].
Qed.

(** X29. Every reference to a declared parameter has its declaration:
    when the parameters convert, [Ref] to a parameter resolves to
    [var.<name in lower case>], and the result's variables hold an entry
    of that name with a description and a type among [string],
    [number] and [list(string)]. *)
Theorem parameter_references_declared :
  forall (self : ConversionEngine) (t : Template) (l : list log_record)
         (v : option dict) (name : string),
    parameters_phase t = (l, Ok v) ->
    PyDict.mem name (Parameters t) = true ->
    process_value (handler_of t) (context_of t) (VDict [("Ref", VStr name)]) =
      ret (VStr ("var." ++ PyStr.lower name))
    /\ declares (variables (snd (convert_template self t))) (PyStr.lower name).
Proof.
  intros self t l v name P Hm. split.
  - rewrite process_ref. unfold _handle_ref. cbn [Py.in_dict].
    change (parameters (handler_of t)) with (Parameters t).
    rewrite Hm, bind_lift_ok. cbn [Py.lower].
    now rewrite bind_lift_ok, !bind_ret_l.
  - rewrite (convert_template_phases self t l v P).
    destruct (close_template_frame
                (after_resources t (handler_of t) (context_of t)
                   (after_loop self t l v))) as (_ & _ & Cv & _).
    destruct (after_resources_frame t (handler_of t) (context_of t)
                (after_loop self t l v)) as (_ & _ & _ & Fv & _).
    rewrite Cv, Fv. unfold after_loop.
    destruct (loop_grows self (handler_of t) (context_of t) (Resources t)
                {| terraform_resources := [];
                   result_so_far := before_resources t v; logged := l |})
      as (_ & _ & _ & _ & Gv & _).
    rewrite Gv. cbn [result_so_far].
    destruct (before_resources_fields t v) as (_ & _ & _ & _ & Bv). rewrite Bv.
    unfold parameters_phase in P.
    destruct (Parameters t) as [| p ps] eqn:E; [discriminate Hm |].
    apply bind_ok_inv in P as (l1 & vars & l2 & C & R & _).
    apply ret_inv in R. subst v.
    unfold _convert_parameters in C.
    destruct (convert_parameters_declare _ _ _ _ C) as (l0 & vars0 & _ & D).
    apply D. right. exists name. split; [exact Hm | reflexivity].
Qed.

Lemma parameter_references_declared_witness :
  process_value
    (handler_of {| Parameters := [("Env", VDict [("Type", VStr "Number")])];
                   Mappings := []; Conditions := []; Resources := [];
                   Outputs := [] |})
    (context_of {| Parameters := [("Env", VDict [("Type", VStr "Number")])];
                   Mappings := []; Conditions := []; Resources := [];
                   Outputs := [] |})
    (VDict [("Ref", VStr "Env")]) = ret (VStr ("var." ++ PyStr.lower "Env"))
  /\ declares
       (variables
          (snd (convert_template default_engine
                  {| Parameters := [("Env", VDict [("Type", VStr "Number")])];
                     Mappings := []; Conditions := []; Resources := [];
                     Outputs := [] |})))
       (PyStr.lower "Env").
Proof.
  exact (parameter_references_declared default_engine
           {| Parameters := [("Env", VDict [("Type", VStr "Number")])];
              Mappings := []; Conditions := []; Resources := []; Outputs := [] |}
           [] (Some [("env", VDict [("description",
                                      VStr "CloudFormation parameter Env");
                                     ("type", VStr "number")])])
           "Env" eq_refl eq_refl).
Defined.

Lemma mem_cons : forall (A : Type) (k k' : string) (v : A) (d : list (string * A)),
  PyDict.mem k ((k', v) :: d) = String.eqb k k' || PyDict.mem k d.
Proof.
  intros A k k' v d. unfold PyDict.mem. cbn [PyDict.get].
  now destruct (String.eqb k k').
Qed.

Lemma renamed_keys :
  forall (A : Type) (data : string -> A -> value) (items : list (string * A))
         (acc : dict) (k : string),
    PyDict.mem k
      (fold_left (fun locals_dict item =>
                    PyDict.set (PyStr.lower (fst item)) (data (fst item) (snd item))
                      locals_dict) items acc) =
      PyDict.mem k acc
      || existsb (fun item => String.eqb k (PyStr.lower (fst item))) items.
Proof.
  intros A data. induction items as [| [n x] items IH]; intros acc k;
    cbn [fold_left existsb fst snd].
  - now rewrite orb_false_r.
  - rewrite IH, mem_set.
    destruct (String.eqb k (PyStr.lower n)), (PyDict.mem k acc); reflexivity.
Qed.

Lemma existsb_lower_name :
  forall (A : Type) (items : list (string * A)) (k : string),
    existsb (fun item => String.eqb k (PyStr.lower (fst item))) items = true <->
    exists name, PyDict.mem name items = true /\ k = PyStr.lower name.
Proof.
  intros A. induction items as [| [n x] items IH]; intros k; cbn [existsb fst].
  - split; [discriminate | intros (name & M & _); discriminate M].
  - rewrite orb_true_iff, IH. split.
    + intros [E | (name & M & ->)].
      * apply String.eqb_eq in E. exists n. rewrite mem_cons, String.eqb_refl.
        now split.
      * exists name. rewrite mem_cons, M, orb_true_r. now split.
    + intros (name & M & ->). rewrite mem_cons in M.
      apply orb_true_iff in M as [E | M].
      * apply String.eqb_eq in E. subst name. left. apply String.eqb_refl.
      * right. exists name. now split.
Qed.

Lemma condition_markers :
  forall (func_handler : IntrinsicFunctionHandler) (conditions acc : dict),
    Forall (fun kv =>
              exists name, PyDict.mem name conditions = true
                           /\ fst kv = PyStr.lower name
                           /\ snd kv = VStr ("# TODO: Convert condition " ++ name))
      acc ->
    forall done : dict,
      (forall name, PyDict.mem name done = true -> PyDict.mem name conditions = true) ->
      Forall (fun kv =>
                exists name, PyDict.mem name conditions = true
                             /\ fst kv = PyStr.lower name
                             /\ snd kv = VStr ("# TODO: Convert condition " ++ name))
        (fold_left (fun locals_dict item =>
                      PyDict.set (PyStr.lower (fst item))
                        (VStr ("# TODO: Convert condition " ++ fst item))
                        locals_dict) done acc).
Proof.
  intros func_handler conditions acc H done. revert acc H.
  induction done as [| [n x] done IH]; intros acc H Hd; cbn [fold_left fst snd];
    [exact H |].
  apply IH.
  - assert (Hn : PyDict.mem n conditions = true).
    { apply Hd. now rewrite mem_cons, String.eqb_refl. }
    clear IH Hd. induction H as [| [k v] acc Hk Hacc IHacc]; cbn [PyDict.set].
    + constructor; [| constructor]. exists n. now repeat split.
    + destruct (String.eqb (PyStr.lower n) k) eqn:E.
      * apply String.eqb_eq in E. subst k. constructor; [| assumption].
        exists n. now repeat split.
      * constructor; assumption.
  - intros name M. apply Hd. now rewrite mem_cons, M, orb_true_r.
Qed.

Lemma get_update_present :
  forall (A : Type) (k : string) (other d : list (string * A)),
    PyDict.mem k other = true ->
    exists v, In (k, v) other /\ PyDict.get k (PyDict.update d other) = Some v.
Proof.
  intros A k other. unfold PyDict.update.
  induction other as [| [k' v'] other IH]; intros d H; [discriminate H |].
  cbn [fold_left fst snd].
  destruct (PyDict.mem k other) eqn:M.
  - destruct (IH (PyDict.set k' v' d) eq_refl) as (v & I & G).
    exists v. split; [now right | exact G].
  - rewrite mem_cons, M, orb_false_r in H. apply String.eqb_eq in H. subst k'.
    exists v'. split; [now left |].
    fold (PyDict.update (PyDict.set k v' d) other).
    rewrite (get_update_absent A k other _ M). apply get_set_same.
Qed.

Lemma before_resources_locals : forall (t : Template) (v : option dict),
  locals (before_resources t v) =
    PyDict.update (PyDict.update [] (_convert_mappings (Mappings t)))
      (_convert_conditions (Conditions t) (handler_of t)).
Proof.
  intros t v. unfold before_resources.
  destruct v, (Mappings t), (Conditions t); reflexivity.
Qed.

(** X30. When the parameters convert, the locals of the result are
    keyed by the lower-cased names of the template's mappings and
    conditions, and by nothing else.  A condition is never translated:
    its local is the marker [# TODO: Convert condition <name>], which
    replaces a mapping of the same lower-cased name. *)
Theorem locals_of_template :
  forall (self : ConversionEngine) (t : Template) (l : list log_record)
         (v : option dict),
    parameters_phase t = (l, Ok v) ->
    (forall k,
       PyDict.mem k (locals (snd (convert_template self t))) = true <->
       exists name,
         (PyDict.mem name (Mappings t) = true
          \/ PyDict.mem name (Conditions t) = true)
         /\ k = PyStr.lower name)
    /\ (forall name,
          PyDict.mem name (Conditions t) = true ->
          exists name',
            PyDict.mem name' (Conditions t) = true
            /\ PyStr.lower name' = PyStr.lower name
            /\ PyDict.get (PyStr.lower name) (locals (snd (convert_template self t))) =
                 Some (VStr ("# TODO: Convert condition " ++ name'))).
Proof.
  intros self t l v P.
  rewrite (convert_template_phases self t l v P).
  destruct (close_template_frame
              (after_resources t (handler_of t) (context_of t)
                 (after_loop self t l v))) as (_ & _ & _ & Cl & _).
  destruct (after_resources_frame t (handler_of t) (context_of t)
              (after_loop self t l v)) as (_ & _ & _ & _ & Fl & _).
  rewrite Cl, Fl. unfold after_loop.
  destruct (loop_grows self (handler_of t) (context_of t) (Resources t)
              {| terraform_resources := [];
                 result_so_far := before_resources t v; logged := l |})
    as (_ & _ & _ & _ & _ & _ & Gl).
  rewrite Gl. cbn [result_so_far]. rewrite before_resources_locals.
  assert (Mc : forall k,
             PyDict.mem k (_convert_conditions (Conditions t) (handler_of t)) = true <->
             exists name, PyDict.mem name (Conditions t) = true
                          /\ k = PyStr.lower name).
  { intros k. unfold _convert_conditions.
    rewrite (renamed_keys value (fun n _ => VStr ("# TODO: Convert condition " ++ n))).
    cbn [orb]. apply existsb_lower_name. }
  assert (Mm : forall k,
             PyDict.mem k (_convert_mappings (Mappings t)) = true <->
             exists name, PyDict.mem name (Mappings t) = true
                          /\ k = PyStr.lower name).
  { intros k. unfold _convert_mappings.
    rewrite (renamed_keys value (fun _ x => x)).
    cbn [orb]. apply existsb_lower_name. }
  split.
  - intros k. rewrite !mem_update, !orb_true_iff. cbn [PyDict.mem PyDict.get].
    rewrite Mc, Mm. split.
    + intros [[F | (name & M & E)] | (name & M & E)]; [discriminate F | |];
        exists name; tauto.
    + intros (name & [M | M] & E); [left; right | right]; exists name; tauto.
  - intros name M.
    assert (Mk : PyDict.mem (PyStr.lower name)
                   (_convert_conditions (Conditions t) (handler_of t)) = true).
    { apply Mc. now exists name. }
    destruct (get_update_present value (PyStr.lower name) _
                (PyDict.update [] (_convert_mappings (Mappings t))) Mk)
      as (x & I & G).
    pose proof (condition_markers (handler_of t) (Conditions t) []
                  (Forall_nil _) (Conditions t) (fun _ H => H)) as F.
    fold (_convert_conditions (Conditions t) (handler_of t)) in F.
    destruct (proj1 (Forall_forall _ _) F _ I) as (name' & M' & E1 & E2).
    cbn [fst snd] in E1, E2. exists name'. repeat split; congruence.
Qed.

Lemma locals_of_template_witness :
  (forall k,
     PyDict.mem k
       (locals (snd (convert_template default_engine
                       {| Parameters := [];
                          Mappings := [("Prod", VDict [])];
                          Conditions := [("IsProd", VBool true)];
                          Resources := []; Outputs := [] |}))) = true <->
     exists name,
       (PyDict.mem name [("Prod", VDict [])] = true
        \/ PyDict.mem name [("IsProd", VBool true)] = true)
       /\ k = PyStr.lower name)
  /\ (forall name,
        PyDict.mem name [("IsProd", VBool true)] = true ->
        exists name',
          PyDict.mem name' [("IsProd", VBool true)] = true
          /\ PyStr.lower name' = PyStr.lower name
          /\ PyDict.get (PyStr.lower name)
               (locals (snd (convert_template default_engine
                               {| Parameters := [];
                                  Mappings := [("Prod", VDict [])];
                                  Conditions := [("IsProd", VBool true)];
                                  Resources := []; Outputs := [] |}))) =
               Some (VStr ("# TODO: Convert condition " ++ name'))).
Proof.
  exact (locals_of_template default_engine
           {| Parameters := []; Mappings := [("Prod", VDict [])];
              Conditions := [("IsProd", VBool true)];
              Resources := []; Outputs := [] |} [] None eq_refl).
Defined.
